(** * TWS_Trader: the trade and position recorder ([recorder.py])

    A shallow embedding of [recorder()], the function that reconciles the
    day's executions with yesterday's position sheet and annotates the
    end-of-day portfolio, followed by the properties of the ledger it
    builds.

    Conventions of the embedding.
    - A Python dict with string keys is a [gmap string _]; [d.update(lit)]
      assigns the keys of the literal in the order they are written.
    - A cell of a dict or of a pandas frame is a [value]: a float, the float
      [nan], or a text.  Money, prices and sizes are counted in a fixed
      minor unit and carried as [Z].
    - A Python exception is the [Raise] branch of [result]; the locals of
      [recorder()] that survive from one loop to the next ([action],
      [trade_price], [leg_price], [option_trade_price]) are carried in a
      record whose fields are [None] while the name is unbound. *)

From stdpp Require Import gmap strings list fin_maps.
From Stdlib Require Import ZArith String Lia.

Local Open Scope string_scope.
Local Open Scope Z_scope.

(** ** Cells, exceptions and Python's operators *)

Inductive value :=
| Num (z : Z)       (* a float that is not nan *)
| NaN               (* the float nan: an empty cell of a frame *)
| Str (s : string). (* a text: any cell that is not a float *)

#[global] Instance value_eq_dec : EqDecision value.
Proof. solve_decision. Defined.

Inductive exn :=
| KeyError | IndexError | ValueError | TypeError | AttributeError
| UnboundLocalError | FileNotFoundError.

Inductive result (A : Type) :=
| Ok (a : A)
| Raise (e : exn).
Arguments Ok {A} a.
Arguments Raise {A} e.

#[global] Instance result_ret : MRet result := λ A a, Ok a.
#[global] Instance result_bind : MBind result := λ A B f m,
  match m with Ok a => f a | Raise e => Raise e end.

Definition is_ok {A} (m : result A) : bool :=
  match m with Ok _ => true | Raise _ => false end.

(** [x + y]: floats add, nan is absorbing, texts concatenate. *)
Definition py_add (x y : value) : result value :=
  match x, y with
  | Num a, Num b => Ok (Num (a + b))
  | Num _, NaN | NaN, Num _ | NaN, NaN => Ok NaN
  | Str s, Str t => Ok (Str (s +:+ t))
  | _, _ => Raise TypeError
  end.

Definition py_sub (x y : value) : result value :=
  match x, y with
  | Num a, Num b => Ok (Num (a - b))
  | Num _, NaN | NaN, Num _ | NaN, NaN => Ok NaN
  | _, _ => Raise TypeError
  end.

(** [x * y] where at least one side is a float. *)
Definition py_mul (x y : value) : result value :=
  match x, y with
  | Num a, Num b => Ok (Num (a * b))
  | Num _, NaN | NaN, Num _ | NaN, NaN => Ok NaN
  | _, _ => Raise TypeError
  end.

Definition py_neg (x : value) : result value :=
  match x with
  | Num a => Ok (Num (- a))
  | NaN => Ok NaN
  | Str _ => Raise TypeError
  end.

(** [x == y]: nan equals nothing, a text never equals a float. *)
Definition py_eq (x y : value) : bool :=
  match x, y with
  | Num a, Num b => a =? b
  | Str s, Str t => String.eqb s t
  | _, _ => false
  end.

(** [x > y] and [x <= y]: false as soon as a nan is involved. *)
Definition py_gt (x y : value) : result bool :=
  match x, y with
  | Num a, Num b => Ok (b <? a)
  | Num _, NaN | NaN, Num _ | NaN, NaN => Ok false
  | Str s, Str t => Ok (String.ltb t s)
  | _, _ => Raise TypeError
  end.

Definition py_le (x y : value) : result bool :=
  match x, y with
  | Num a, Num b => Ok (a <=? b)
  | Num _, NaN | NaN, Num _ | NaN, NaN => Ok false
  | Str s, Str t => Ok (String.leb s t)
  | _, _ => Raise TypeError
  end.

(** The builtin [max] over the values of a series: keeps the first value
    and replaces it by each later one that compares greater. *)
Fixpoint max_from (cur : value) (l : list value) : result value :=
  match l with
  | [] => Ok cur
  | x :: l' => b ← py_gt x cur; max_from (if b : bool then x else cur) l'
  end.

Definition py_max (l : list value) : result value :=
  match l with
  | [] => Raise ValueError
  | x :: l' => max_from x l'
  end.

(** [series.iloc[0]] *)
Definition iloc0 {A} (l : list A) : result A :=
  match l with
  | [] => Raise IndexError
  | x :: _ => Ok x
  end.

(** [type(v) == np.float64 and not np.isnan(v)] *)
Definition is_float (v : value) : bool :=
  match v with Num _ => true | _ => false end.

(** ** Dicts *)

Abbreviation dict := (gmap string value).

(** The value a dict literal holds under [k]: that of the last entry
    written with this key. *)
Fixpoint lit_get (k : string) (d : list (string * value)) : option value :=
  match d with
  | [] => None
  | (k', v) :: d' =>
      match lit_get k d' with
      | Some w => Some w
      | None => if String.eqb k' k then Some v else None
      end
  end.

(** [row.update(d)] for a literal [d]. *)
Definition update (row : dict) (d : list (string * value)) : dict :=
  foldl (λ m kv, <[kv.1 := kv.2]> m) row d.

(** [row[k]] *)
Definition getitem (row : dict) (k : string) : result value :=
  match row !! k with
  | Some v => Ok v
  | None => Raise KeyError
  end.

(** [k in row] *)
Definition has_key (row : dict) (k : string) : bool :=
  bool_decide (is_Some (row !! k)).

(** ** The broker's objects (ib_insync) *)

Inductive contract_type := Option | Stock | Bag | OtherContract.

#[global] Instance contract_type_eq_dec : EqDecision contract_type.
Proof. solve_decision. Defined.

Record ComboLeg := {
  ratio : Z;
  leg_action : string (* ComboLeg.action: 'BUY' or 'SELL' *)
}.

Record Contract := {
  ctype : contract_type;   (* type(contract) *)
  symbol : string;
  lastTradeDateOrContractMonth : string;
  strike : Z;
  multiplier : Z;          (* int(contract.multiplier) *)
  comboLegs : list ComboLeg
}.

Record Execution := {
  side : string;           (* 'BOT' or 'SLD' *)
  shares : Z;
  price : Z;
  exedate : string;        (* exe.time in New York, '%Y-%m-%d' *)
  exetime : string         (* exe.time in New York, '%H:%M' *)
}.

Record CommissionReport := {
  commission : Z;
  realizedPNL : Z
}.

Record Fill := {
  fill_contract : Contract;
  execution : Execution;
  commissionReport : CommissionReport
}.

Record Trade := {
  contract : Contract;
  fills : list Fill
}.

Record PortfolioItem := {
  pcontract : Contract;
  position : Z;
  marketPrice : Z;
  marketValue : Z;
  unrealizedPNL : Z
}.

(** A row of [positions.xlsx], yesterday's position sheet, with the
    columns the recorder reads. *)
Record yrow := {
  y_ticker : string;
  y_price : value;
  y_trade_price : value;
  y_leg_price : value;
  y_option_price : value;
  y_option_trade_price : value;
  y_underlying_size : value
}.

(** [yespos.loc[yespos['ticker'] == sym]] *)
Definition yloc (yespos : list yrow) (sym : string) : list yrow :=
  filter (λ y, y_ticker y = sym) yespos.

(** [sum(yespos['ticker'] == sym)] *)
Definition ycount (yespos : list yrow) (sym : string) : nat :=
  List.length (yloc yespos sym).

(** ** Combo classification (the head of the Bag branch) *)

Definition combo_action (qqq : Contract) : result string :=
  match comboLegs qqq with
  | leg0 :: leg1 :: _ =>
      if (ratio leg0 =? 1) && (ratio leg1 =? 1)
         && negb (String.eqb (leg_action leg0) (leg_action leg1))
      then Ok "ROLLOVER"
      else if (String.eqb (leg_action leg0) "BUY" && (ratio leg0 =? 100))
              || (String.eqb (leg_action leg1) "BUY" && (ratio leg1 =? 100))
      then Ok "BUY WRITE"
      else Ok "Unknown"
  | _ => Raise IndexError
  end.

(** ** The state of [recorder()] during the trade loop *)

(** The function-level names that one loop iteration may leave for the
    next one, and the trade loop for the portfolio loop. *)
Record locals := {
  v_action : option string;
  v_trade_price : option value;
  v_leg_price : option value;
  v_option_trade_price : option value
}.

Definition no_locals : locals :=
  {| v_action := None; v_trade_price := None; v_leg_price := None;
     v_option_trade_price := None |}.

Record tstate := {
  trades : gmap string dict;
  vars : locals
}.

(** Reading a local name. *)
Definition read {A} (x : option A) : result A :=
  match x with
  | Some a => Ok a
  | None => Raise UnboundLocalError
  end.

(** The right or left operand of [str + _]: it has to be a [str]. *)
Definition as_str (v : value) : result string :=
  match v with
  | Str s => Ok s
  | _ => Raise TypeError
  end.

(** [trades[key]] *)
Definition trades_getitem (trades : gmap string dict) (key : string)
  : result dict :=
  match trades !! key with
  | Some row => Ok row
  | None => Raise KeyError
  end.

(** [row[k] if k in row else 0] *)
Definition logged_or_zero (row : dict) (k : string) : result value :=
  if has_key row k then getitem row k else Ok (Num 0).

(** A [for] loop whose body may raise. *)
Fixpoint foldlM {A B} (f : A → B → result A) (a : A) (l : list B)
  : result A :=
  match l with
  | [] => Ok a
  | x :: l' => a' ← f a x; foldlM f a' l'
  end.

(** ** The trade loop: one fill of an option-only order (lines 195-232) *)

(** The action of an option fill and its option trade price
    (lines 202-218). *)
Definition option_action (yespos : list yrow) (sym : string)
    (exe : Execution) : result (string * value) :=
  let option_trade_price := Num (price exe) in
  if String.eqb (side exe) "SLD" then Ok ("SELL CC", option_trade_price)
  else if String.eqb (side exe) "BOT" then
    let filt := yloc yespos sym in
    if Nat.eqb (List.length filt) 1 then
      y ← iloc0 filt;
      if is_float (y_option_price y) && is_float (y_price y)
      then Ok ("CLOSE CC", y_option_trade_price y)
      else Ok ("BUY CALL", option_trade_price)
    else Ok ("BUY CALL", option_trade_price)
  else Ok ("UNKNOWN", option_trade_price).

(** The dict literal of lines 228-231. *)
Definition option_literal (account_value : Z) (qqq : Contract) (fill : Fill)
    (option_shares : Z) (action : string)
    (option_trade_price commission : value) : list (string * value) :=
  let exe := execution fill in
  [("DOE", Str (lastTradeDateOrContractMonth qqq));
   ("strike", Num (strike qqq));
   ("option price", Num (price exe));
   ("option trade price", option_trade_price);
   ("acct bal", Num account_value);
   ("Option size", Num option_shares);
   ("P/L option", Num (realizedPNL (commissionReport fill)));
   ("date", Str (exedate exe));
   ("time", Str (exetime exe));
   ("action", Str action);
   ("Commission", commission)].

Definition option_fill (yespos : list yrow) (account_value : Z)
    (qqq : Contract) (st : tstate) (fill : Fill) : result tstate :=
  let exe := execution fill in
  let option_shares :=
    if String.eqb (side exe) "SLD" then shares exe * -1 else shares exe in
  '(action, option_trade_price) ← option_action yespos (symbol qqq) exe;
  row ← trades_getitem (trades st) (symbol qqq);
  action ←
    (if has_key row "Underlying size" then
       logged ← getitem row "action";
       s ← as_str logged;
       Ok (s +:+ " " +:+ action)
     else Ok action);
  starter ← logged_or_zero row "Commission";
  commission ← py_add starter (Num (commission (commissionReport fill)));
  let d := option_literal account_value qqq fill option_shares action
             option_trade_price commission in
  Ok {| trades := <[symbol qqq := update row d]> (trades st);
        vars := {| v_action := Some action;
                   v_trade_price := v_trade_price (vars st);
                   v_leg_price := v_leg_price (vars st);
                   v_option_trade_price := Some option_trade_price |} |}.

(** ** One fill of a stock-only order (lines 239-308) *)

(** The basis of a stock fill, taken from the fill or from yesterday's
    sheet (lines 273-297). *)
Definition stock_basis (yespos : list yrow) (sym : string) (exe : Execution)
    (under_shares : value) : result (value * value) :=
  let filt := yloc yespos sym in
  if String.eqb (side exe) "BOT" then
    if Nat.eqb (List.length filt) 0 then Ok (Num (price exe), Num (price exe))
    else
      prev ← iloc0 (y_underlying_size <$> filt);
      opposite ← py_neg prev;
      if py_eq under_shares opposite then
        leg_price ← py_max (y_leg_price <$> filt);
        trade_price ← py_max (y_trade_price <$> filt);
        Ok (leg_price, trade_price)
      else Ok (Num (price exe), Num (price exe))
  else
    if Nat.leb 1 (List.length filt) then
      leg_price ← py_max (y_leg_price <$> filt);
      trade_price ← py_max (y_trade_price <$> filt);
      Ok (leg_price, trade_price)
    else Ok (Num (price exe), Num (price exe)).

(** The dict literal of lines 303-307.  Its first ["time": exe.time] entry
    is dropped: the later ["time": exetime] of the same literal replaces
    it. *)
Definition stock_literal (account_value : Z) (exe : Execution)
    (trade_price PNLunderlying under_shares : value) (action : string)
    (leg_price PNLunderlyingleg position_bal commission : value)
  : list (string * value) :=
  [("price", Num (price exe));
   ("trade price", trade_price);
   ("P/L underlying", PNLunderlying);
   ("Underlying size", under_shares);
   ("action", Str action);
   ("leg price", leg_price);
   ("P/L underlying leg", PNLunderlyingleg);
   ("acct bal", Num account_value);
   ("position bal", position_bal);
   ("Commission", commission);
   ("date", Str (exedate exe));
   ("time", Str (exetime exe))].

Definition stock_fill (yespos : list yrow) (account_value : Z)
    (qqq : Contract) (st : tstate) (fill : Fill) : result tstate :=
  let exe := execution fill in
  let this_shares :=
    if String.eqb (side exe) "SLD" then - shares exe else shares exe in
  row ← trades_getitem (trades st) (symbol qqq);
  under_shares ←
    (if has_key row "Underlying size" then
       logged ← getitem row "Underlying size";
       py_add logged (Num this_shares)
     else Ok (Num this_shares));
  PNLunderlyingleg ← logged_or_zero row "P/L underlying leg";
  PNLunderlying ← logged_or_zero row "P/L underlying";
  action ←
    (if has_key row "Option size" then
       logged ← getitem row "action";
       s ← as_str logged;
       Ok (side exe +:+ " " +:+ s)
     else Ok (side exe));
  starter ← logged_or_zero row "Commission";
  '(leg_price, trade_price) ← stock_basis yespos (symbol qqq) exe under_shares;
  diff ← py_sub (Num (price exe)) leg_price;
  leg_pnl ← py_mul diff (Num (shares exe));
  PNLunderlyingleg ← py_add PNLunderlyingleg leg_pnl;
  PNLunderlying ←
    py_add PNLunderlying (Num (realizedPNL (commissionReport fill)));
  commission ← py_add starter (Num (commission (commissionReport fill)));
  position_bal ← py_mul under_shares (Num (price exe));
  let d := stock_literal account_value exe trade_price PNLunderlying
             under_shares action leg_price PNLunderlyingleg position_bal
             commission in
  Ok {| trades := <[symbol qqq := update row d]> (trades st);
        vars := {| v_action := Some action;
                   v_trade_price := Some trade_price;
                   v_leg_price := Some leg_price;
                   v_option_trade_price := v_option_trade_price (vars st) |} |}.

(** ** One fill of a Bag order (lines 324-390)

    The loop carries [commission] and [position_bal], both reset to 0
    before the first fill of the order, next to the state. *)

Definition bag_option_leg (yespos : list yrow) (account_value : Z)
    (qqq : Contract) (s : tstate * Z * Z) (fill : Fill)
  : result (tstate * Z * Z) :=
  let '(st, commission0, position_bal0) := s in
  let con := fill_contract fill in
  let exe := execution fill in
  action ← read (v_action (vars st));
  let mysymbol := symbol qqq in
  let option_trade_price := Num (price exe) in
  let commission :=
    if String.eqb action "BUY WRITE"
    then commission0 + commission (commissionReport fill)
    else commission (commissionReport fill) in
  let option_shares := shares exe in
  '(option_shares, action, mysymbol, trades1, option_trade_price) ←
    (if String.eqb (side exe) "SLD" then
       let option_shares := option_shares * -1 in
       if String.prefix "ROLLOVER" action then
         let mysymbol := symbol qqq +:+ "*" in
         let trades1 :=
           match trades st !! mysymbol with
           | Some _ => trades st
           | None => <[mysymbol := {[ "ticker" := Str (symbol qqq) ]}]> (trades st)
           end in
         Ok (option_shares, "ROLLOVER WRITE", mysymbol, trades1,
             option_trade_price)
       else Ok (option_shares, action, mysymbol, trades st, option_trade_price)
     else
       if String.prefix "ROLLOVER" action then
         let filt := yloc yespos (symbol qqq) in
         if Nat.eqb (List.length filt) 1 then
           y ← iloc0 filt;
           Ok (option_shares, "ROLLOVER CLOSE", mysymbol, trades st,
               y_option_trade_price y)
         else Ok (option_shares, "ROLLOVER CLOSE", mysymbol, trades st,
                  option_trade_price)
       else Ok (option_shares, action, mysymbol, trades st, option_trade_price));
  let position_bal :=
    position_bal0 + price exe * option_shares * multiplier con in
  let d :=
    [("DOE", Str (lastTradeDateOrContractMonth con));
     ("strike", Num (strike con));
     ("option price", Num (price exe));
     ("option trade price", option_trade_price);
     ("date", Str (exedate exe));
     ("time", Str (exetime exe));
     ("Option size", Num option_shares);
     ("P/L option", Num (realizedPNL (commissionReport fill)));
     ("acct bal", Num account_value);
     ("Commission", Num commission);
     ("position bal", Num position_bal);
     ("action", Str action)] in
  row ← trades_getitem trades1 mysymbol;
  Ok ({| trades := <[mysymbol := update row d]> trades1;
         vars := {| v_action := Some action;
                    v_trade_price := v_trade_price (vars st);
                    v_leg_price := v_leg_price (vars st);
                    v_option_trade_price := Some option_trade_price |} |},
      commission, position_bal).

Definition bag_stock_leg (yespos : list yrow) (account_value : Z)
    (qqq : Contract) (s : tstate * Z * Z) (fill : Fill)
  : result (tstate * Z * Z) :=
  let '(st, commission0, position_bal0) := s in
  let con := fill_contract fill in
  let exe := execution fill in
  action ← read (v_action (vars st));
  let commission := commission0 + commission (commissionReport fill) in
  let position_bal := position_bal0 + shares exe * price exe in
  '(leg_price, trade_price) ←
    (if String.eqb (side exe) "BOT" then Ok (Num (price exe), Num (price exe))
     else
       let filt := yloc yespos (symbol con) in
       leg_price ← py_max (y_leg_price <$> filt);
       trade_price ← py_max (y_trade_price <$> filt);
       Ok (leg_price, trade_price));
  diff ← py_sub (Num (price exe)) leg_price;
  PNLunderlyingleg ← py_mul diff (Num (shares exe));
  let d :=
    [("price", Num (price exe));
     ("trade price", trade_price);
     ("date", Str (exedate exe));
     ("time", Str (exetime exe));
     ("leg price", leg_price);
     ("P/L underlying", Num (realizedPNL (commissionReport fill)));
     ("Underlying size", Num (shares exe));
     ("P/L underlying leg", PNLunderlyingleg);
     ("action", Str action);
     ("position bal", Num position_bal);
     ("acct bal", Num account_value);
     ("Commission", Num commission)] in
  row ← trades_getitem (trades st) (symbol qqq);
  Ok ({| trades := <[symbol qqq := update row d]> (trades st);
         vars := {| v_action := Some action;
                    v_trade_price := Some trade_price;
                    v_leg_price := Some leg_price;
                    v_option_trade_price := v_option_trade_price (vars st) |} |},
      commission, position_bal).

Definition bag_fill (yespos : list yrow) (account_value : Z)
    (qqq : Contract) (s : tstate * Z * Z) (fill : Fill)
  : result (tstate * Z * Z) :=
  match ctype (fill_contract fill) with
  | Option => bag_option_leg yespos account_value qqq s fill
  | Stock => bag_stock_leg yespos account_value qqq s fill
  | _ => Ok s
  end.

(** ** One order, and the loop over the day's orders (lines 188-396) *)

Definition set_action (a : string) (st : tstate) : tstate :=
  {| trades := trades st;
     vars := {| v_action := Some a;
                v_trade_price := v_trade_price (vars st);
                v_leg_price := v_leg_price (vars st);
                v_option_trade_price := v_option_trade_price (vars st) |} |}.

(** [if not (qqq.symbol in trades.keys()): trades[qqq.symbol] = {'ticker': ...}] *)
Definition open_row (sym : string) (st : tstate) : tstate :=
  match trades st !! sym with
  | Some _ => st
  | None =>
      {| trades := <[sym := {[ "ticker" := Str sym ]}]> (trades st);
         vars := vars st |}
  end.

Definition process_trade (yespos : list yrow) (account_value : Z)
    (st : tstate) (ttt : Trade) : result tstate :=
  let qqq := contract ttt in
  let st := open_row (symbol qqq) st in
  match ctype qqq with
  | Option => foldlM (option_fill yespos account_value qqq) st (fills ttt)
  | Stock => foldlM (stock_fill yespos account_value qqq) st (fills ttt)
  | Bag =>
      action ← combo_action qqq;
      '(st', _, _) ← foldlM (bag_fill yespos account_value qqq)
                        (set_action action st, 0, 0) (fills ttt);
      Ok st'
  | OtherContract => Ok st
  end.

Definition process_trades (yespos : list yrow) (account_value : Z)
    (st : tstate) (trds : list Trade) : result tstate :=
  foldlM (process_trade yespos account_value) st trds.

Definition start : tstate := {| trades := ∅; vars := no_locals |}.

(** The trade loop is entered only when one of the two flags is set and
    there are trades (line 188). *)
Definition trade_pass (read_trades_flag recover_trades_flag : bool)
    (yespos : list yrow) (account_value : Z) (trds : list Trade)
  : result tstate :=
  if (read_trades_flag || recover_trades_flag)
     && negb (Nat.eqb (List.length trds) 0)
  then process_trades yespos account_value start trds
  else Ok start.

(** ** The trades frame (lines 399-405)

    [trades_df] is the [trades] dict laid out with one row per key and
    the spreadsheet's columns; a column that a row's dict lacks reads
    as nan. *)

Definition columnTitles : list string :=
  ["date"; "time"; "action"; "ticker"; "price"; "trade price"; "leg price";
   "strike"; "DOE"; "option price"; "option trade price"; "Commission";
   "Option size"; "Underlying size"; "position bal"; "acct bal";
   "P/L underlying"; "P/L underlying leg"; "P/L option"; "delta"].

Definition cell (row : dict) (col : string) : value :=
  default NaN (row !! col).

(** [DataFrame.from_dict(_, orient='index').reindex(columns=columnTitles)],
    one row of it. *)
Definition reindex (row : dict) : dict :=
  list_to_map ((λ c, (c, cell row c)) <$> columnTitles).

(** [trades_df.loc[trades_df['ticker'] == sym]] *)
Definition tloc (trades : gmap string dict) (sym : string)
  : gmap string dict :=
  filter (λ kr, py_eq (cell kr.2 "ticker") (Str sym) = true) trades.

(** [sum(trades_df['ticker'] == sym)] *)
Definition tcount (trades : gmap string dict) (sym : string) : nat :=
  size (tloc trades sym).

(** [trades_df.loc[key][col]] *)
Definition df_loc (trades : gmap string dict) (key col : string)
  : result value :=
  row ← trades_getitem trades key;
  Ok (cell row col).

(** [trades_df.loc[filt, col][key]] *)
Definition series_getitem (trades : gmap string dict) (sym col key : string)
  : result value :=
  row ← trades_getitem (tloc trades sym) key;
  Ok (cell row col).

(** [trades_df.loc[filt, col].iloc[0]] *)
Definition series_iloc0 (trades : gmap string dict) (sym col : string)
  : result value :=
  iloc0 ((λ kr : string * dict, cell kr.2 col) <$> map_to_list (tloc trades sym)).

(** [a.startswith(p)]: only a [str] has the method. *)
Definition startswith (a : value) (p : string) : result bool :=
  match a with
  | Str s => Ok (String.prefix p s)
  | _ => Raise AttributeError
  end.

(** ** The portfolio loop (lines 417-537) *)

Definition with_action (a : string) (v : locals) : locals :=
  {| v_action := Some a; v_trade_price := v_trade_price v;
     v_leg_price := v_leg_price v;
     v_option_trade_price := v_option_trade_price v |}.

Definition with_trade_price (x : value) (v : locals) : locals :=
  {| v_action := v_action v; v_trade_price := Some x;
     v_leg_price := v_leg_price v;
     v_option_trade_price := v_option_trade_price v |}.

Definition with_leg_price (x : value) (v : locals) : locals :=
  {| v_action := v_action v; v_trade_price := v_trade_price v;
     v_leg_price := Some x;
     v_option_trade_price := v_option_trade_price v |}.

Definition with_option_trade_price (x : value) (v : locals) : locals :=
  {| v_action := v_action v; v_trade_price := v_trade_price v;
     v_leg_price := v_leg_price v;
     v_option_trade_price := Some x |}.

Record flags := {
  rollover_flag : bool;
  sell_CC_flag : bool;
  close_CC_flag : bool
}.

Definition no_flags : flags :=
  {| rollover_flag := false; sell_CC_flag := false; close_CC_flag := false |}.

(** [sum(filt2 == 0)], as lines 443 and 459 write it: the number of rows
    of yesterday's sheet whose ticker is another one. *)
Definition others (yespos : list yrow) (sym : string) : nat :=
  List.length (filter (λ y, y_ticker y ≠ sym) yespos).

(** The body of [if first:] up to the flags and the basis names it
    assigns (lines 424-513), for the ticker [sym]. *)
Definition resolve_basis (yespos : list yrow) (trades : gmap string dict)
    (sym : string) (v : locals) : result (locals * flags) :=
  let filt2 := yloc yespos sym in
  if Nat.eqb (tcount trades sym) 1 then
    logged ← df_loc trades sym "action";
    if py_eq logged (Str "SELL CC") then
      if Nat.eqb (List.length filt2) 1 then
        trade_price ← py_max (y_trade_price <$> filt2);
        option_trade_price ← df_loc trades sym "option trade price";
        Ok (with_option_trade_price option_trade_price
              (with_trade_price trade_price v),
            {| rollover_flag := false; sell_CC_flag := true;
               close_CC_flag := false |})
      else if negb (Nat.eqb (others yespos sym) 0) then
        option_trade_price ← df_loc trades sym "option trade price";
        Ok (with_action "UNMATCHED SELL CC"
              (with_option_trade_price option_trade_price
                 (with_trade_price (Num 0) v)),
            no_flags)
      else Ok (with_action "ERROR" v, no_flags)
    else if py_eq logged (Str "CLOSE CC") then
      if Nat.eqb (List.length filt2) 1 then
        trade_price ← iloc0 (y_trade_price <$> filt2);
        option_trade_price ← df_loc trades sym "option trade price";
        Ok (with_option_trade_price option_trade_price
              (with_trade_price trade_price v),
            {| rollover_flag := false; sell_CC_flag := false;
               close_CC_flag := true |})
      else if negb (Nat.eqb (others yespos sym) 0) then
        option_trade_price ← df_loc trades sym "option trade price";
        Ok (with_action "UNMATCHED CLOSE CC"
              (with_option_trade_price option_trade_price
                 (with_leg_price (Num 0) (with_trade_price (Num 0) v))),
            no_flags)
      else Ok (with_action "ERROR" v, no_flags)
    else
      bought ← (if py_eq logged (Str "BUY WRITE") then Ok true
                else startswith logged "BOT");
      if bought : bool then
        trade_price ← series_getitem trades sym "trade price" sym;
        leg_price ← series_getitem trades sym "leg price" sym;
        option_trade_price ← series_iloc0 trades sym "option trade price";
        Ok (with_option_trade_price option_trade_price
              (with_leg_price leg_price (with_trade_price trade_price v)),
            no_flags)
      else if py_eq logged (Str "SLD") then
        if Nat.eqb (List.length filt2) 1 then
          trade_price ← py_max (y_trade_price <$> filt2);
          leg_price ← series_getitem trades sym "leg price" sym;
          option_trade_price ← iloc0 (y_option_trade_price <$> filt2);
          Ok (with_option_trade_price option_trade_price
                (with_leg_price leg_price (with_trade_price trade_price v)),
              no_flags)
        else Ok (v, no_flags)
      else Ok (v, no_flags)
  else if Nat.eqb (tcount trades sym) 0 then
    if Nat.eqb (List.length filt2) 1 then
      trade_price ← py_max (y_trade_price <$> filt2);
      leg_price ← py_max (y_leg_price <$> filt2);
      option_trade_price ← py_max (y_option_trade_price <$> filt2);
      Ok (with_option_trade_price option_trade_price
            (with_leg_price leg_price (with_trade_price trade_price v)),
          no_flags)
    else if Nat.eqb (List.length filt2) 0 then
      Ok (with_option_trade_price (Num 0)
            (with_leg_price (Num 0) (with_trade_price (Num 0) v)),
          no_flags)
    else
      Ok (with_leg_price (Num (-9999)) (with_trade_price (Num (-9999)) v),
          no_flags)
  else if Nat.eqb (tcount trades sym) 2 then
    trade_price ← py_max (y_trade_price <$> filt2);
    option_trade_price ←
      series_getitem trades sym "option trade price" (sym +:+ "*");
    Ok (with_option_trade_price option_trade_price
          (with_trade_price trade_price v),
        {| rollover_flag := true; sell_CC_flag := false;
           close_CC_flag := false |})
  else
    Ok (with_leg_price (Num (-9999)) (with_trade_price (Num (-9999)) v),
        no_flags).

Record pstate := {
  first : bool;
  prevticker : string;
  pvars : locals;
  pflags : flags;
  positions : gmap string dict
}.

Section Portfolio.

(** [get_delt(ib, symbol, expiration, strike)] of [ibutil.py] asks the
    broker for the option's delta; here it is any function. *)
Variable get_delt : string → string → Z → value.

Variable yespos : list yrow.
Variable trades_df : gmap string dict.
Variable account_value : Z.

Definition stock_row (st : pstate) (ppp : PortfolioItem) : result pstate :=
  let sym := symbol (pcontract ppp) in
  let v := pvars st in
  let leg_price :=
    if rollover_flag (pflags st) || sell_CC_flag (pflags st)
       || close_CC_flag (pflags st)
    then Some (Num (marketPrice ppp)) else v_leg_price v in
  row ← trades_getitem (positions st) sym;
  logged ← getitem row "position bal";
  bal ← py_add (Num (marketValue ppp)) logged;
  trade_price ← read (v_trade_price v);
  leg_price' ← read leg_price;
  action ← read (v_action v);
  diff ← py_sub (Num (marketPrice ppp)) leg_price';
  leg_pnl ← py_mul (Num (position ppp)) diff;
  let d :=
    [("price", Num (marketPrice ppp));
     ("trade price", trade_price);
     ("leg price", leg_price');
     ("Commision", Num 0);
     ("Underlying size", Num (position ppp));
     ("position bal", bal);
     ("acct bal", Num account_value);
     ("action", Str action);
     ("P/L underlying", Num (unrealizedPNL ppp));
     ("P/L underlying leg", leg_pnl)] in
  Ok {| first := first st; prevticker := prevticker st;
        pvars := {| v_action := v_action v;
                    v_trade_price := v_trade_price v;
                    v_leg_price := leg_price;
                    v_option_trade_price := v_option_trade_price v |};
        pflags := pflags st;
        positions := <[sym := update row d]> (positions st) |}.

Definition option_row (st : pstate) (ppp : PortfolioItem) : result pstate :=
  let con := pcontract ppp in
  let sym := symbol con in
  let v := pvars st in
  let delta := get_delt sym (lastTradeDateOrContractMonth con) (strike con) in
  row ← trades_getitem (positions st) sym;
  logged ← getitem row "position bal";
  bal ← py_add logged (Num (marketValue ppp));
  option_trade_price ← read (v_option_trade_price v);
  action ← read (v_action v);
  let d :=
    [("DOE", Str (lastTradeDateOrContractMonth con));
     ("strike", Num (strike con));
     ("option price", Num (marketPrice ppp));
     ("option trade price", option_trade_price);
     ("position bal", bal);
     ("action", Str action);
     ("Option size", Num (position ppp));
     ("P/L option", Num (unrealizedPNL ppp));
     ("delta", delta)] in
  Ok {| first := first st; prevticker := prevticker st;
        pvars := v; pflags := pflags st;
        positions := <[sym := update row d]> (positions st) |}.

(** One iteration of [for ppp in port:]. *)
Definition portfolio_step (st : pstate) (ppp : PortfolioItem)
  : result pstate :=
  let sym := symbol (pcontract ppp) in
  let st :=
    if negb (String.eqb sym (prevticker st)) then
      {| first := true; prevticker := prevticker st;
         pvars := with_action "OBSERVE" (pvars st);
         pflags := pflags st; positions := positions st |}
    else st in
  st ←
    (if first st then
       '(v, fl) ← resolve_basis yespos trades_df sym (pvars st);
       Ok {| first := false; prevticker := sym; pvars := v; pflags := fl;
             positions := positions st |}
     else Ok st);
  match ctype (pcontract ppp) with
  | Stock => stock_row st ppp
  | Option => option_row st ppp
  | _ => Ok st
  end.

Definition portfolio_pass (st : pstate) (port : list PortfolioItem)
  : result pstate :=
  foldlM portfolio_step st port.

End Portfolio.

(** The stub rows of [positions], one per symbol of [ib.positions()]
    (lines 150-154). *)
Definition stub (sym log_date log_time : string) : dict :=
  update ∅ [("ticker", Str sym); ("date", Str log_date);
            ("time", Str log_time); ("action", Str "OBSERVE");
            ("position bal", Num 0)].

Definition stub_positions (log_date log_time : string) (pos : list string)
  : gmap string dict :=
  foldl (λ m sym,
           match m !! sym with
           | Some _ => m
           | None => <[sym := stub sym log_date log_time]> m
           end) ∅ pos.

(** The state in which the portfolio loop starts: the names the trade
    loop assigned are still bound. *)
Definition portfolio_start (v : locals) (positions : gmap string dict)
  : pstate :=
  {| first := true; prevticker := "not a real ticker"; pvars := v;
     pflags := no_flags; positions := positions |}.

(** ** The adjustment made after the close (lines 550-561) *)

Section PostClose.

(** [str(x)] of a float, as [astype(str)] renders it. *)
Variable str_of_float : Z → string.

(** [datetime.strptime(s, "%Y%m%d").date()] as a day number; [None] when
    [s] does not have the format (a [ValueError]). *)
Variable strptime : string → option Z.

Definition astype_str (v : value) : string :=
  match v with
  | Str s => s
  | NaN => "nan"
  | Num z => str_of_float z
  end.

(** The body of the loop for one row of [port_df], whose ['DOE'] column
    has been turned into text. *)
Definition adjust (today : Z) (row : dict) : result dict :=
  let DOE := astype_str (cell row "DOE") in
  let row := <["DOE" := Str DOE]> row in
  if negb (String.eqb DOE "nan") then
    match strptime DOE with
    | None => Raise ValueError
    | Some doe =>
        if doe <=? today then
          called ← py_le (cell row "strike") (cell row "price");
          if called : bool
          then Ok (<["action" := Str "Called Away"]> row)
          else Ok (<["action" := Str "Expire CC"]> row)
        else Ok row
    end
  else Ok row.

Fixpoint mapM {A B} (f : A → result B) (l : list A) : result (list B) :=
  match l with
  | [] => Ok []
  | x :: l' => y ← f x; ys ← mapM f l'; Ok (y :: ys)
  end.

(** [hour] is [datetime.today().hour], [today] the day number of
    [datetime.today().date()]. *)
Definition post_close (hour today : Z) (port_df : list dict)
  : result (list dict) :=
  if 16 <=? hour then mapM (adjust today) port_df else Ok port_df.

End PostClose.

(** ** Where the day's trades come from (lines 84-86 and 169-186) *)

(** The file the recovery branch opens. *)
Definition recover_file : string := "./data/trades-2023-07-20.pkl".

(** The file the day's trades are saved under. *)
Definition tradeslogfile (log_date : string) : string :=
  "./data/trades-" +:+ log_date +:+ ".pkl".

(** [recover_trades_flag] after line 86. *)
Definition effective_recover (read_trades_flag recover_trades_flag : bool)
  : bool :=
  if read_trades_flag then false else recover_trades_flag.

(** [files] holds the pickled trade lists by file name, [live] is what
    [ib.trades()] answers. *)
Definition load_trades (recover_trades_flag : bool)
    (files : gmap string (list Trade)) (live : list Trade)
  : result (list Trade) :=
  if recover_trades_flag then
    match files !! recover_file with
    | Some trds => Ok trds
    | None => Raise FileNotFoundError
    end
  else Ok live.

Definition save_trades (recover_trades_flag : bool) (log_date : string)
    (trds : list Trade) (files : gmap string (list Trade))
  : gmap string (list Trade) :=
  if Nat.eqb (List.length trds) 0 then files
  else if negb recover_trades_flag then <[tradeslogfile log_date := trds]> files
  else files.

(** ** [recorder(ib, read_trades_flag, recover_trades_flag)] *)

(** What a run finds outside: the clock, the calendar, the files and the
    broker's answers. *)
Record world := {
  log_date : string;             (* today, '%Y-%m-%d' *)
  log_time : string;
  today : Z;                     (* today as a day number *)
  hour : Z;
  weekday : Z;
  holiday : bool;                (* is_holiday(log_date, False) *)
  yespos : list yrow;            (* positions.xlsx *)
  account_value : Z;
  pos : list string;             (* the symbols of ib.positions() *)
  live : list Trade;             (* ib.trades() *)
  files : gmap string (list Trade);
  port : list PortfolioItem      (* ib.portfolio() *)
}.

Inductive outcome :=
| NoTrading
| Recorded (trades_df : gmap string dict) (port_df : list dict)
           (files : gmap string (list Trade)).

(** The keys of a dict in the order of their first insertion. *)
Fixpoint first_seen (seen l : list string) : list string :=
  match l with
  | [] => []
  | x :: l' =>
      if bool_decide (x ∈ seen) then first_seen seen l'
      else x :: first_seen (x :: seen) l'
  end.

Section Recorder.

Variable get_delt : string → string → Z → value.
Variable str_of_float : Z → string.
Variable strptime : string → option Z.

Definition recorder (w : world) (read_trades_flag recover_trades_flag : bool)
  : result outcome :=
  let recover_trades_flag :=
    effective_recover read_trades_flag recover_trades_flag in
  if holiday w || (5 <=? weekday w) then Ok NoTrading
  else
    let stubs := stub_positions (log_date w) (log_time w) (pos w) in
    trds ← load_trades recover_trades_flag (files w) (live w);
    let files' := save_trades recover_trades_flag (log_date w) trds (files w) in
    st ← trade_pass read_trades_flag recover_trades_flag (yespos w)
           (account_value w) trds;
    let trades_df := reindex <$> trades st in
    pst ← portfolio_pass get_delt (yespos w) trades_df (account_value w)
            (portfolio_start (vars st) stubs) (port w);
    let port_df :=
      omap (λ sym, reindex <$> positions pst !! sym) (first_seen [] (pos w)) in
    port_df ← post_close str_of_float strptime (hour w) (today w) port_df;
    Ok (Recorded trades_df port_df files').

End Recorder.

(** ** Cells that hold a float or nan *)

Definition numeric (v : value) : bool :=
  match v with Str _ => false | _ => true end.

Definition numeric_or_absent (row : dict) (k : string) : bool :=
  match row !! k with Some v => numeric v | None => true end.

(** The shape of a row of [trades] between two fills: the accumulators
    are floats, and a row that has a leg logged has a text as action. *)
Definition typed_row (row : dict) : bool :=
  numeric_or_absent row "Underlying size"
  && numeric_or_absent row "P/L underlying leg"
  && numeric_or_absent row "P/L underlying"
  && numeric_or_absent row "Commission"
  && (if has_key row "Option size" || has_key row "Underlying size"
      then match row !! "action" with Some (Str _) => true | _ => false end
      else true).

(** Yesterday's sheet with floats (or empty cells) in its number columns. *)
Definition typed_yrow (y : yrow) : bool :=
  numeric (y_price y) && numeric (y_trade_price y) && numeric (y_leg_price y)
  && numeric (y_option_price y) && numeric (y_option_trade_price y)
  && numeric (y_underlying_size y).

(** What a run has logged under [key], column [col]. *)
Definition logged (r : result tstate) (key col : string) : option value :=
  match r with
  | Ok st => trades st !! key ≫= (λ row : dict, row !! col)
  | Raise _ => None
  end.


(** ** Sample orders and positions, used by the examples below *)

Definition stock_of (sym : string) : Contract :=
  {| ctype := Stock; symbol := sym; lastTradeDateOrContractMonth := "";
     strike := 0; multiplier := 1; comboLegs := [] |}.

Definition call_of (sym doe : string) (k : Z) : Contract :=
  {| ctype := Option; symbol := sym; lastTradeDateOrContractMonth := doe;
     strike := k; multiplier := 100; comboLegs := [] |}.

Definition bag_of (sym : string) (legs : list ComboLeg) : Contract :=
  {| ctype := Bag; symbol := sym; lastTradeDateOrContractMonth := "";
     strike := 0; multiplier := 1; comboLegs := legs |}.

Definition fill_of (con : Contract) (sd : string) (sh pr : Z)
    (tm : string) (cm pnl : Z) : Fill :=
  {| fill_contract := con;
     execution := {| side := sd; shares := sh; price := pr;
                     exedate := "2023-07-21"; exetime := tm |};
     commissionReport := {| commission := cm; realizedPNL := pnl |} |}.

Definition rollover_legs : list ComboLeg :=
  [ {| ratio := 1; leg_action := "BUY" |};
    {| ratio := 1; leg_action := "SELL" |} ].

Definition buy_write_legs : list ComboLeg :=
  [ {| ratio := 100; leg_action := "BUY" |};
    {| ratio := 1; leg_action := "SELL" |} ].

(** ** Statements of the ledger's rules that the code is compared with *)

(** A stock sale without a row in yesterday's sheet is logged with zero
    basis and an action that starts with ERROR. *)
Definition unmatched_sale_flagged (yespos : list yrow) (account_value : Z)
    (qqq : Contract) (st : tstate) (fill : Fill) : Prop :=
  side (execution fill) = "SLD" →
  ycount yespos (symbol qqq) = 0%nat →
  ∃ st' row label,
    stock_fill yespos account_value qqq st fill = Ok st'
    ∧ trades st' !! symbol qqq = Some row
    ∧ row !! "trade price" = Some (Num 0)
    ∧ row !! "leg price" = Some (Num 0)
    ∧ row !! "action" = Some (Str label)
    ∧ String.prefix "ERROR" label = true.

Definition short_sale : Fill :=
  fill_of (stock_of "XYZ") "SLD" 100 20 "10:00" 1 0.

(** A ROLLOVER order logs two rows, its closing row priced from
    yesterday's entry for the ticker. *)
Definition rollover_closes_at_yesterday (yespos : list yrow)
    (account_value : Z) (st : tstate) (qqq : Contract)
    (buy_back write : Fill) : Prop :=
  ∃ st' close_row write_row y,
    process_trade yespos account_value st
      {| contract := qqq; fills := [buy_back; write] |} = Ok st'
    ∧ size (trades st') = S (S (size (trades st)))
    ∧ trades st' !! symbol qqq = Some close_row
    ∧ close_row !! "action" = Some (Str "ROLLOVER CLOSE")
    ∧ y ∈ yloc yespos (symbol qqq)
    ∧ close_row !! "option trade price" = Some (y_option_trade_price y)
    ∧ trades st' !! (symbol qqq +:+ "*") = Some write_row
    ∧ write_row !! "action" = Some (Str "ROLLOVER WRITE")
    ∧ write_row !! "option trade price"
      = Some (Num (price (execution write))).

Definition buy_back_leg : Fill :=
  fill_of (call_of "XYZ" "20230721" 55) "BOT" 1 3 "15:00" 1 0.

Definition write_leg : Fill :=
  fill_of (call_of "XYZ" "20230818" 55) "SLD" 1 2 "15:00" 1 0.

Definition held_xyz : yrow :=
  {| y_ticker := "XYZ"; y_price := Num 50; y_trade_price := Num 45;
     y_leg_price := Num 46; y_option_price := Num 3;
     y_option_trade_price := Num 4; y_underlying_size := Num 100 |}.

(** A buy to close filled in two parts, with commissions 1.00 and 0.50
    and realized P&L 10 and 5. *)
Definition close_in_two_fills : Trade :=
  {| contract := call_of "XYZ" "20230721" 55;
     fills := [ fill_of (call_of "XYZ" "20230721" 55) "BOT" 1 3 "10:00" 100 10;
                fill_of (call_of "XYZ" "20230721" 55) "BOT" 1 3 "10:01" 50 5 ] |}.

(** The same two parts on a stock sale. *)
Definition sale_in_two_fills : Trade :=
  {| contract := stock_of "XYZ";
     fills := [ fill_of (stock_of "XYZ") "SLD" 60 52 "10:00" 100 10;
                fill_of (stock_of "XYZ") "SLD" 40 52 "10:01" 50 5 ] |}.

(** Pickled trades of two days. *)
Definition trades_of_0720 : list Trade :=
  [ {| contract := stock_of "OLD";
       fills := [fill_of (stock_of "OLD") "BOT" 100 50 "10:00" 1 0] |} ].

Definition trades_of_0721 : list Trade := [close_in_two_fills].

(** A delta service without model greeks, and a calendar that knows the
    two expirations of the samples. *)
Definition no_greeks (sym exp : string) (k : Z) : value := Num (-99).

Definition sample_str_of_float (z : Z) : string := "0.0".

Definition sample_strptime (s : string) : option Z :=
  if String.eqb s "20230721" then Some 19559
  else if String.eqb s "20230818" then Some 19587
  else None.

Definition held_abc : yrow :=
  {| y_ticker := "ABC"; y_price := Num 50; y_trade_price := Num 10;
     y_leg_price := Num 11; y_option_price := NaN;
     y_option_trade_price := NaN; y_underlying_size := Num 100 |}.

Definition abc_shares : PortfolioItem :=
  {| pcontract := stock_of "ABC"; position := 100; marketPrice := 51;
     marketValue := 5100; unrealizedPNL := 4100 |}.

Definition abc_call : PortfolioItem :=
  {| pcontract := call_of "ABC" "20230818" 55; position := 1;
     marketPrice := 3; marketValue := 300; unrealizedPNL := 0 |}.

Definition xyz_short : PortfolioItem :=
  {| pcontract := stock_of "XYZ"; position := -100; marketPrice := 21;
     marketValue := -2100; unrealizedPNL := -100 |}.

(** Friday 2023-07-21, 15:00: ABC is held since yesterday and not traded,
    100 XYZ are sold short at 20. *)
Definition friday (port : list PortfolioItem) : world :=
  {| log_date := "2023-07-21"; log_time := "15:00:00"; today := 19559;
     hour := 15; weekday := 4; holiday := false;
     yespos := [held_abc]; account_value := 1000;
     pos := ["ABC"; "XYZ"];
     live := [ {| contract := stock_of "XYZ"; fills := [short_sale] |} ];
     files := ∅;
     port := port |}.

(** The same day, when the only trade is the purchase of one call on the
    ABC shares held since yesterday. *)
Definition friday_call : world :=
  {| log_date := "2023-07-21"; log_time := "15:00:00"; today := 19559;
     hour := 15; weekday := 4; holiday := false;
     yespos := [held_abc]; account_value := 1000;
     pos := ["ABC"];
     live := [ {| contract := call_of "ABC" "20230818" 55;
                  fills := [fill_of (call_of "ABC" "20230818" 55)
                              "BOT" 1 3 "10:00" 1 0] |} ];
     files := ∅;
     port := [abc_shares; abc_call] |}.

(** The cell of [port_df] in the row of ticker [sym], column [col]. *)
Definition observed (r : result outcome) (sym col : string) : option value :=
  match r with
  | Ok (Recorded _ port_df _) =>
      '(_, row) ← list_find (λ row : dict, row !! "ticker" = Some (Str sym))
                    port_df;
      row !! col
  | _ => None
  end.

(** ** The words of the post-close rule *)

(** The expiration of a row as text: ["nan"] when the row has no option. *)
Definition doe_text (str_of_float : Z → string) (row : dict) : string :=
  astype_str str_of_float (cell row "DOE").

Definition strike_le_price (row : dict) : Prop :=
  ∃ k p, cell row "strike" = Num k ∧ cell row "price" = Num p ∧ k ≤ p.

(** A row the loop can handle: without an option, or with an expiration
    in the format and floats (or nan) as strike and price. *)
Definition adjustable (str_of_float : Z → string)
    (strptime : string → option Z) (row : dict) : bool :=
  if String.eqb (doe_text str_of_float row) "nan" then true
  else match strptime (doe_text str_of_float row) with
       | Some _ => numeric (cell row "strike") && numeric (cell row "price")
       | None => false
       end.

(** What became of [row] in [row']: every column but the action and the
    text of the expiration is kept, and the action follows the rule for
    the day [today]. *)
Definition adjusted (str_of_float : Z → string)
    (strptime : string → option Z) (today : Z) (row row' : dict) : Prop :=
  (∀ k, k ≠ "action" → k ≠ "DOE" → row' !! k = row !! k)
  ∧ (doe_text str_of_float row = "nan" → row' !! "action" = row !! "action")
  ∧ (∀ doe, doe_text str_of_float row ≠ "nan" →
       strptime (doe_text str_of_float row) = Some doe →
       (today < doe → row' !! "action" = row !! "action")
       ∧ (doe ≤ today → strike_le_price row →
          row' !! "action" = Some (Str "Called Away"))
       ∧ (doe ≤ today → ¬ strike_le_price row →
          row' !! "action" = Some (Str "Expire CC"))).

(** A position with a call that expires on 2023-07-21, the underlying
    at 105. *)
Definition expiring (k : Z) : dict :=
  reindex (update ∅ [("ticker", Str "XYZ"); ("action", Str "OBSERVE");
                     ("price", Num 105); ("strike", Num k);
                     ("DOE", Str "20230721")]).

(** The action column of a frame. *)
Definition actions_after (r : result (list dict))
  : option (list (option value)) :=
  match r with
  | Ok rows => Some ((λ row : dict, row !! "action") <$> rows)
  | Raise _ => None
  end.

(** ** Two rows compared *)

(** The same row but for the clock columns. *)
Definition same_but_clock (r1 r2 : dict) : Prop :=
  ∀ k, k ≠ "date" → k ≠ "time" → r1 !! k = r2 !! k.

(** No column of [r] is missing in [r']. *)
Definition keeps (r r' : dict) : Prop :=
  ∀ k, is_Some (r !! k) → is_Some (r' !! k).

(** The two orders of arrival of a stock order and an option order log
    the same rows. *)
Definition legs_commute (yespos : list yrow) (account_value : Z)
    (st : tstate) (stock_order option_order : Trade) : Prop :=
  ∃ st1 st2,
    process_trades yespos account_value st [stock_order; option_order]
    = Ok st1
    ∧ process_trades yespos account_value st [option_order; stock_order]
      = Ok st2
    ∧ trades st1 = trades st2.

(** 100 XYZ bought at 10:00 and one call written on them at 10:05. *)
Definition morning_buy : Trade :=
  {| contract := stock_of "XYZ";
     fills := [fill_of (stock_of "XYZ") "BOT" 100 50 "10:00" 100 0] |}.

Definition later_write : Trade :=
  {| contract := call_of "XYZ" "20230818" 55;
     fills := [fill_of (call_of "XYZ" "20230818" 55) "SLD" 1 2 "10:05" 50 0] |}.

(** The columns a stock fill and an option fill write. *)
Definition stock_columns : list string :=
  ["price"; "trade price"; "P/L underlying"; "Underlying size"; "action";
   "leg price"; "P/L underlying leg"; "acct bal"; "position bal";
   "Commission"; "date"; "time"].

Definition option_columns : list string :=
  ["DOE"; "strike"; "option price"; "option trade price"; "acct bal";
   "Option size"; "P/L option"; "date"; "time"; "action"; "Commission"].

(** 100 XYZ in the portfolio, and the buy that closes the call written
    on them. *)
Definition xyz_shares : PortfolioItem :=
  {| pcontract := stock_of "XYZ"; position := 100; marketPrice := 52;
     marketValue := 5200; unrealizedPNL := 700 |}.

Definition buy_to_close : Fill :=
  fill_of (call_of "XYZ" "20230721" 55) "BOT" 1 1 "10:00" 1 200.

Definition observing_xyz : pstate :=
  portfolio_start no_locals (stub_positions "2023-07-21" "15:00:00" ["XYZ"]).

(** ** The position balance *)

(** The dollar value of a stock fill: its signed size times its price. *)
Definition fill_value (f : Fill) : Z :=
  (if String.eqb (side (execution f)) "SLD"
   then - shares (execution f) else shares (execution f))
  * price (execution f).

(** After a stock order, the position bal of its row is the sum of the
    dollar values of its fills. *)
Definition position_bal_is_sum (yespos : list yrow) (account_value : Z)
    (t : Trade) : Prop :=
  logged (process_trades yespos account_value start [t])
         (symbol (contract t)) "position bal"
  = Some (Num (foldr (λ f s, fill_value f + s) 0 (fills t))).

(** 100 XYZ bought in two parts, 50 at 10 and 50 at 11. *)
Definition buy_in_two_fills : Trade :=
  {| contract := stock_of "XYZ";
     fills := [ fill_of (stock_of "XYZ") "BOT" 50 10 "10:00" 1 0;
                fill_of (stock_of "XYZ") "BOT" 50 11 "10:01" 1 0 ] |}.

(** A portfolio record posts to its ticker's row when it is a stock or
    an option. *)
Definition posts (ppp : PortfolioItem) : bool :=
  match ctype (pcontract ppp) with
  | Stock | Option => true
  | _ => false
  end.

(** The market value that the records of [port] post to the row of
    [sym]. *)
Fixpoint posted (port : list PortfolioItem) (sym : string) : Z :=
  match port with
  | [] => 0
  | ppp :: port' =>
      (if posts ppp && String.eqb (symbol (pcontract ppp)) sym
       then marketValue ppp else 0)
      + posted port' sym
  end.

(** Every row of [positions] has the balance [base] says. *)
Definition bal_known (positions : gmap string dict) (base : string → Z)
  : Prop :=
  ∀ s row, positions !! s = Some row →
           row !! "position bal" = Some (Num (base s)).

(** The loop is either before its first record, or has the four names
    bound, the leg price to a float or nan. *)
Definition names_bound (pst : pstate) : Prop :=
  (first pst = true ∧ prevticker pst = "not a real ticker")
  ∨ (first pst = false
     ∧ ∃ a tp lp otp,
         pvars pst = {| v_action := Some a; v_trade_price := Some tp;
                        v_leg_price := Some lp;
                        v_option_trade_price := Some otp |}
         ∧ numeric lp = true
         ∧ pflags pst = no_flags).

(** A snapshot the loop takes in on a day without trades: real tickers,
    each with a stub row and at most one row in yesterday's sheet. *)
Definition quiet_snapshot (yespos : list yrow)
    (positions : gmap string dict) (port : list PortfolioItem) : Prop :=
  Forall (λ ppp,
            symbol (pcontract ppp) ≠ "not a real ticker"
            ∧ (ycount yespos (symbol (pcontract ppp)) ≤ 1)%nat
            ∧ is_Some (positions !! symbol (pcontract ppp))) port.

(** ** Rows of the trade loop, seen from outside *)

(** A column that is absent or holds a float that is not nan. *)
Definition num_or_absent (row : dict) (k : string) : bool :=
  match row !! k with
  | Some (Num _) | None => true
  | Some _ => false
  end.

(** The rows the trade loop builds: counters are floats, the leg P&L may
    be nan, and a row with a leg logged has a text as action. *)
Definition ledger_row (row : dict) : bool :=
  num_or_absent row "Underlying size"
  && numeric_or_absent row "P/L underlying leg"
  && num_or_absent row "P/L underlying"
  && num_or_absent row "Commission"
  && (if has_key row "Option size" || has_key row "Underlying size"
      then match row !! "action" with Some (Str _) => true | _ => false end
      else true).

(** The amount logged in a column, 0 when there is none. *)
Definition amount (row : dict) (k : string) : Z :=
  match row !! k with
  | Some (Num z) => z
  | _ => 0
  end.

(** The signed size of a stock fill and of an option fill. *)
Definition signed_shares (f : Fill) : Z :=
  if String.eqb (side (execution f)) "SLD"
  then - shares (execution f) else shares (execution f).

Definition sum_of (g : Fill → Z) (fs : list Fill) : Z :=
  foldr (λ f s, g f + s) 0 fs.

(** Every order of the list is a stock order or an option order. *)
Definition plain_order (t : Trade) : bool :=
  match ctype (contract t) with
  | Stock | Option => true
  | _ => false
  end.

(** Every row of [trades] is a row of the trade loop. *)
Definition ledger_all (trades : gmap string dict) : Prop :=
  ∀ key row, trades !! key = Some row → ledger_row row = true.

(** The counters of a stock leg are all there. *)
Definition counted (row : dict) : Prop :=
  is_Some (row !! "Underlying size") ∧ is_Some (row !! "Commission")
  ∧ is_Some (row !! "P/L underlying").

(** What today's trades hold for [sym] in column [k] before an order. *)
Definition prior (st : tstate) (sym k : string) : Z :=
  match trades st !! sym with
  | Some row => amount row k
  | None => 0
  end.

(** The columns the legs of a Bag order write (lines 355-360, 380-385). *)
Definition bag_option_columns : list string :=
  ["DOE"; "strike"; "option price"; "option trade price"; "date"; "time";
   "Option size"; "P/L option"; "acct bal"; "Commission"; "position bal";
   "action"].

Definition bag_stock_columns : list string :=
  ["price"; "trade price"; "date"; "time"; "leg price"; "P/L underlying";
   "Underlying size"; "P/L underlying leg"; "action"; "position bal";
   "acct bal"; "Commission"].

(** The size of an option fill as the trade loop logs it. *)
Definition option_size (f : Fill) : Z :=
  if String.eqb (side (execution f)) "SLD"
  then shares (execution f) * -1 else shares (execution f).

(** The dollar value of an option leg: price, signed size, multiplier. *)
Definition option_leg_value (f : Fill) : Z :=
  price (execution f) * option_size f * multiplier (fill_contract f).

(** A buy-write of 100 XYZ at 50 against one call sold at 2. *)
Definition buy_write_stock_leg : Fill :=
  fill_of (stock_of "XYZ") "BOT" 100 50 "10:00" 100 0.

Definition buy_write_option_leg : Fill :=
  fill_of (call_of "XYZ" "20230818" 55) "SLD" 1 2 "10:00" 50 0.

(** A Bag order that sells the shares: the stock leg of a closing combo. *)
Definition closing_stock_leg : Fill :=
  fill_of (stock_of "XYZ") "SLD" 100 50 "10:00" 100 0.

(** XYZ held short since yesterday: 100 shares sold at 48. *)
Definition short_xyz : yrow :=
  {| y_ticker := "XYZ"; y_price := Num 47; y_trade_price := Num 48;
     y_leg_price := Num 48; y_option_price := NaN;
     y_option_trade_price := NaN; y_underlying_size := Num (-100) |}.

(** ** The portfolio loop, seen from outside *)

(** The keys the portfolio loop writes into a row of [positions]
    (the two dict literals of lines 521-524 and 533-536). *)
Definition portfolio_columns : list string :=
  ["price"; "trade price"; "leg price"; "Commision"; "Underlying size";
   "position bal"; "acct bal"; "action"; "P/L underlying";
   "P/L underlying leg"; "DOE"; "strike"; "option price";
   "option trade price"; "Option size"; "P/L option"; "delta"].

(** [m'] has the rows of [m], changed in the loop's columns at most. *)
Definition framed (m m' : gmap string dict) : Prop :=
  ∀ s row', m' !! s = Some row' →
    ∃ row, m !! s = Some row
           ∧ ∀ k, k ∉ portfolio_columns → row' !! k = row !! k.

(** The loop in front of its first record, with the stubs of ABC. *)
Definition observing_abc : pstate :=
  portfolio_start no_locals (stub_positions "2023-07-21" "15:00:00" ["ABC"]).

(** ABC twice in yesterday's sheet. *)
Definition twice_abc : list yrow := [held_abc; held_abc].

(** The trades frame after a rollover of the XYZ call: the closing row
    under the ticker, the new call under the starred key. *)
Definition rolled_xyz : gmap string dict :=
  reindex <$>
    ({[ "XYZ" := update ∅ [("ticker", Str "XYZ");
                           ("action", Str "ROLLOVER CLOSE");
                           ("option trade price", Num 4)];
        "XYZ*" := update ∅ [("ticker", Str "XYZ");
                            ("action", Str "ROLLOVER WRITE");
                            ("option trade price", Num 2)] ]}
       : gmap string dict).

Definition xyz_call : PortfolioItem :=
  {| pcontract := call_of "XYZ" "20230818" 55; position := -1;
     marketPrice := 2; marketValue := -200; unrealizedPNL := 0 |}.

(** The trades frame after a call on XYZ was written and nothing else. *)
Definition written_xyz : gmap string dict :=
  reindex <$>
    ({[ "XYZ" := update ∅ [("ticker", Str "XYZ"); ("action", Str "SELL CC");
                           ("option trade price", Num 2)] ]}
       : gmap string dict).

(** The portfolio loop after a trade loop that left 7 as option trade
    price. *)
Definition after_write : pstate :=
  portfolio_start (with_option_trade_price (Num 7) no_locals)
    (stub_positions "2023-07-21" "15:00:00" ["XYZ"]).

(** An order for XYZ shares that has not been filled. *)
Definition resting_order : Trade :=
  {| contract := stock_of "XYZ"; fills := [] |}.

(** A Friday on which XYZ is held and the only order is not filled. *)
Definition friday_resting : world :=
  {| log_date := "2023-07-21"; log_time := "15:00:00"; today := 19559;
     hour := 15; weekday := 4; holiday := false;
     yespos := [held_xyz]; account_value := 1000;
     pos := ["XYZ"];
     live := [resting_order];
     files := ∅;
     port := [xyz_shares] |}.

(** The rows of [port_df] of a run. *)
Definition port_rows (r : result outcome) : list dict :=
  match r with
  | Ok (Recorded _ port_df _) => port_df
  | _ => []
  end.

(** The dollar value of an option leg of a Bag order: price times signed
    contracts times multiplier. *)
Definition leg_value (f : Fill) : Z :=
  price (execution f)
  * (if String.eqb (side (execution f)) "SLD"
     then shares (execution f) * -1 else shares (execution f))
  * multiplier (fill_contract f).

(** ** [main()] of [recorder.py] (lines 577-616)

    The command line has one switch, [--recover_trades]; the other flag
    is its negation. *)

Section Main.

Variable get_delt : string → string → Z → value.
Variable str_of_float : Z → string.
Variable strptime : string → option Z.

Definition main (recover_trades : bool) (w : world) : result outcome :=
  let recover_trades_flag := if recover_trades then true else false in
  let read_trades_flag := negb recover_trades_flag in
  recorder get_delt str_of_float strptime w read_trades_flag
    recover_trades_flag.

End Main.

(** The trades a run works on: the pickled ones of the recovery file, or
    the live ones. *)
Definition source_trades (recover_trades : bool) (w : world)
  : option (list Trade) :=
  if recover_trades then files w !! recover_file else Some (live w).

(** The trades frame after 100 XYZ were bought at 50. *)
Definition bought_xyz : gmap string dict :=
  reindex <$>
    ({[ "XYZ" := update ∅ [("ticker", Str "XYZ"); ("action", Str "BOT");
                           ("trade price", Num 50); ("leg price", Num 50)] ]}
       : gmap string dict).

(** ** A day without trades *)

Section Quiet.

Variable strptime : string → option Z.

(** An expiration the post-close loop can read. *)
Definition readable (exp : string) : Prop :=
  exp = "nan" ∨ is_Some (strptime exp).

(** A row of [positions] whose strike and price are floats (or empty)
    and whose expiration, if any, is readable. *)
Definition closable (row : dict) : Prop :=
  numeric (cell row "strike") = true
  ∧ numeric (cell row "price") = true
  ∧ (cell row "DOE" = NaN
     ∨ ∃ exp, cell row "DOE" = Str exp ∧ readable exp).

(** The snapshot of a day without trades: real tickers, all of them
    among the positions, each with at most one row in yesterday's sheet,
    the options with readable expirations. *)
Definition quiet_portfolio (w : world) : Prop :=
  Forall (λ ppp,
            symbol (pcontract ppp) ≠ "not a real ticker"
            ∧ (ycount (yespos w) (symbol (pcontract ppp)) ≤ 1)%nat
            ∧ symbol (pcontract ppp) ∈ pos w
            ∧ (ctype (pcontract ppp) = Option →
               readable (lastTradeDateOrContractMonth (pcontract ppp))))
         (port w).

End Quiet.

(** The Friday of the samples after the close, without any order. *)
Definition friday_evening : world :=
  {| log_date := "2023-07-21"; log_time := "16:30:00"; today := 19559;
     hour := 16; weekday := 4; holiday := false;
     yespos := [held_abc]; account_value := 1000;
     pos := ["ABC"; "ABC"];
     live := [];
     files := ∅;
     port := [abc_shares; abc_call] |}.

(** ** [is_holiday(datestr, half_day_flag=True)] of [ibutil.py]
    (lines 53-85)

    The two text files are given by their lines, [None] for a file that
    is not there; [strip] is [str.strip]. *)

Section Holidays.

Variable strip : string → string.


End Holidays.

(** A row with an expiration given as a contract month. *)
Definition monthly : dict :=
  reindex (update ∅ [("ticker", Str "XYZ"); ("action", Str "OBSERVE");
                     ("price", Num 105); ("strike", Num 100);
                     ("DOE", Str "202307")]).
(** * Properties *)

(** ** Reading dicts and running the monad *)

Arguments update : simpl never.
Arguments bag_option_leg : simpl never.
Arguments bag_stock_leg : simpl never.
Arguments option_fill : simpl never.
Arguments stock_fill : simpl never.

Lemma lookup_update (row : dict) (d : list (string * value)) (k : string) :
  update row d !! k =
  match lit_get k d with
  | Some v => Some v
  | None => row !! k
  end.
Proof.
  unfold update. revert row.
  induction d as [|[k' v] d IH]; intros row; simpl; [done|].
  rewrite IH. destruct (lit_get k d) as [w|]; [done|].
  destruct (String.eqb_spec k' k) as [->|Hne].
  - by rewrite lookup_insert_eq.
  - by rewrite lookup_insert_ne.
Qed.

Lemma has_key_true (row : dict) (k : string) (v : value) :
  row !! k = Some v → has_key row k = true.
Proof. intros H. unfold has_key. apply bool_decide_eq_true. eauto. Qed.

Lemma has_key_false (row : dict) (k : string) :
  row !! k = None → has_key row k = false.
Proof.
  intros H. unfold has_key. apply bool_decide_eq_false.
  rewrite H. by intros [? ?].
Qed.

Lemma bind_ok {A B} (m : result A) (f : A → result B) (a : A) :
  m = Ok a → (m ≫= f) = f a.
Proof. by intros ->. Qed.

Lemma bind_inv {A B} (m : result A) (f : A → result B) (b : B) :
  (m ≫= f) = Ok b → ∃ a, m = Ok a ∧ f a = Ok b.
Proof. destruct m as [a|e]; simpl; [eauto | discriminate]. Qed.


Lemma py_add_numeric (a b : value) :
  numeric a = true → numeric b = true →
  ∃ c, py_add a b = Ok c ∧ numeric c = true.
Proof. destruct a, b; simpl; intros; try discriminate; eauto. Qed.

Lemma py_sub_numeric (a b : value) :
  numeric a = true → numeric b = true →
  ∃ c, py_sub a b = Ok c ∧ numeric c = true.
Proof. destruct a, b; simpl; intros; try discriminate; eauto. Qed.

Lemma py_mul_numeric (a b : value) :
  numeric a = true → numeric b = true →
  ∃ c, py_mul a b = Ok c ∧ numeric c = true.
Proof. destruct a, b; simpl; intros; try discriminate; eauto. Qed.

Lemma py_neg_numeric (a : value) :
  numeric a = true → ∃ c, py_neg a = Ok c ∧ numeric c = true.
Proof. destruct a; simpl; intros; try discriminate; eauto. Qed.

Lemma max_from_numeric (l : list value) (cur : value) :
  numeric cur = true → Forall (λ v, numeric v = true) l →
  ∃ c, max_from cur l = Ok c ∧ numeric c = true.
Proof.
  revert cur. induction l as [|x l IH]; intros cur Hc Hl; simpl; [eauto|].
  inversion Hl as [|? ? Hx Hl']; subst.
  destruct x, cur; simpl in *; try discriminate;
    try (destruct (_ <? _)); by apply IH.
Qed.

Lemma py_max_numeric (l : list value) :
  l ≠ [] → Forall (λ v, numeric v = true) l →
  ∃ c, py_max l = Ok c ∧ numeric c = true.
Proof.
  destruct l as [|x l]; [done|]. intros _ Hl.
  inversion Hl; subst. by apply max_from_numeric.
Qed.

Lemma logged_or_zero_numeric (row : dict) (k : string) :
  numeric_or_absent row k = true →
  ∃ v, logged_or_zero row k = Ok v ∧ numeric v = true.
Proof.
  unfold numeric_or_absent, logged_or_zero, getitem.
  destruct (row !! k) as [v|] eqn:Hk; intros Hn.
  - rewrite (has_key_true _ _ _ Hk). eauto.
  - rewrite (has_key_false _ _ Hk). by exists (Num 0).
Qed.


(** ** Combo classification *)

(** C6. A two-leg Bag order is classified by its legs alone, in this
    priority: both ratios 1 and different actions give ROLLOVER;
    otherwise a leg with ratio 100 and action BUY gives BUY WRITE;
    otherwise the order is left as Unknown. *)
Theorem combo_action_priority (qqq : Contract) (leg0 leg1 : ComboLeg)
    (rest : list ComboLeg) :
  comboLegs qqq = leg0 :: leg1 :: rest →
  let rollover :=
    ratio leg0 = 1 ∧ ratio leg1 = 1 ∧ leg_action leg0 ≠ leg_action leg1 in
  let buy_write :=
    (leg_action leg0 = "BUY" ∧ ratio leg0 = 100)
    ∨ (leg_action leg1 = "BUY" ∧ ratio leg1 = 100) in
  (rollover → combo_action qqq = Ok "ROLLOVER")
  ∧ (¬ rollover → buy_write → combo_action qqq = Ok "BUY WRITE")
  ∧ (¬ rollover → ¬ buy_write → combo_action qqq = Ok "Unknown").
Proof.
  intros Hlegs rollover buy_write. unfold combo_action. rewrite Hlegs.
  assert (Hr : rollover ↔
    (ratio leg0 =? 1) && (ratio leg1 =? 1)
    && negb (String.eqb (leg_action leg0) (leg_action leg1)) = true).
  { unfold rollover.
    rewrite !andb_true_iff, negb_true_iff, !Z.eqb_eq, String.eqb_neq.
    tauto. }
  assert (Hb : buy_write ↔
    (String.eqb (leg_action leg0) "BUY" && (ratio leg0 =? 100))
    || (String.eqb (leg_action leg1) "BUY" && (ratio leg1 =? 100)) = true).
  { unfold buy_write.
    rewrite orb_true_iff, !andb_true_iff, !Z.eqb_eq, !String.eqb_eq.
    tauto. }
  destruct ((ratio leg0 =? 1) && (ratio leg1 =? 1)
            && negb (String.eqb (leg_action leg0) (leg_action leg1))).
  - split; [done|]. split; intros Hn; exfalso; apply Hn; by apply Hr.
  - split; [intros H; apply Hr in H; discriminate|].
    destruct ((String.eqb (leg_action leg0) "BUY" && (ratio leg0 =? 100))
              || (String.eqb (leg_action leg1) "BUY" && (ratio leg1 =? 100))).
    + split; [done|]. intros _ Hn. exfalso. apply Hn. by apply Hb.
    + split; [|done]. intros _ H. apply Hb in H. discriminate.
Qed.

Lemma combo_action_priority_witness :
  combo_action (bag_of "XYZ" rollover_legs) = Ok "ROLLOVER"
  ∧ combo_action (bag_of "XYZ" buy_write_legs) = Ok "BUY WRITE"
  ∧ combo_action (bag_of "XYZ" [ {| ratio := 1; leg_action := "BUY" |};
                                 {| ratio := 2; leg_action := "SELL" |} ])
    = Ok "Unknown".
Proof.
  split; [|split].
  - apply (combo_action_priority (bag_of "XYZ" rollover_legs) _ _ [] eq_refl).
    simpl. repeat split; discriminate.
  - apply (combo_action_priority (bag_of "XYZ" buy_write_legs) _ _ [] eq_refl).
    + simpl. intros (H & _). discriminate.
    + simpl. by left.
  - apply (combo_action_priority (bag_of "XYZ" _) _ _ [] eq_refl).
    + simpl. intros (_ & H & _). discriminate.
    + simpl. intros [[_ H]|[H _]]; discriminate.
Defined.

(** ** A stock sale without a row in yesterday's sheet *)

Lemma stock_basis_unmatched_sale (yespos : list yrow) (sym : string)
    (exe : Execution) (under_shares : value) :
  side exe = "SLD" → ycount yespos sym = 0%nat →
  stock_basis yespos sym exe under_shares
  = Ok (Num (price exe), Num (price exe)).
Proof.
  intros Hside Hcount. unfold stock_basis, ycount in *.
  rewrite Hside, Hcount. reflexivity.
Qed.

(** The code at a sale of 100 XYZ at 20 with an empty sheet: the basis is
    the execution price and the action is the side, so the rule
    [unmatched_sale_flagged] does not hold of it. *)
Lemma unmatched_sale_not_flagged :
  logged (process_trades [] 1000 start
            [ {| contract := stock_of "XYZ"; fills := [short_sale] |} ])
         "XYZ" "trade price" = Some (Num 20)
  ∧ logged (process_trades [] 1000 start
              [ {| contract := stock_of "XYZ"; fills := [short_sale] |} ])
           "XYZ" "action" = Some (Str "SLD")
  ∧ ¬ unmatched_sale_flagged [] 1000 (stock_of "XYZ")
        (open_row "XYZ" start) short_sale.
Proof.
  split; [vm_compute; reflexivity|].
  split; [vm_compute; reflexivity|].
  intros H.
  destruct (H eq_refl eq_refl) as (st' & row & label & Hrun & Hrow & Htp & _).
  assert (E : logged (stock_fill [] 1000 (stock_of "XYZ")
                        (open_row "XYZ" start) short_sale)
                     "XYZ" "trade price" = Some (Num 20))
    by (vm_compute; reflexivity).
  rewrite Hrun in E. simpl in E, Hrow. rewrite Hrow in E. simpl in E.
  rewrite Htp in E. discriminate.
Qed.

(** C1, as the code has it. A stock SELL fill whose ticker has no row in
    yesterday's sheet is logged with trade price and leg price both equal
    to the execution price of the fill, and with an action that starts
    with the side SLD (followed by the option label already logged for
    the ticker, if any); the action never starts with ERROR. *)
Theorem unmatched_sale_takes_execution_price (yespos : list yrow)
    (account_value : Z) (qqq : Contract) (st : tstate) (fill : Fill)
    (row : dict) :
  side (execution fill) = "SLD" →
  ycount yespos (symbol qqq) = 0%nat →
  trades st !! symbol qqq = Some row →
  typed_row row = true →
  ∃ st' row' label,
    stock_fill yespos account_value qqq st fill = Ok st'
    ∧ trades st' !! symbol qqq = Some row'
    ∧ row' !! "trade price" = Some (Num (price (execution fill)))
    ∧ row' !! "leg price" = Some (Num (price (execution fill)))
    ∧ row' !! "action" = Some (Str label)
    ∧ String.prefix "SLD" label = true
    ∧ String.prefix "ERROR" label = false.
Proof.
  intros Hside Hcount Hrow Htyped.
  unfold typed_row in Htyped.
  apply andb_true_iff in Htyped as [Htyped Hact].
  apply andb_true_iff in Htyped as [Htyped Hcomm].
  apply andb_true_iff in Htyped as [Htyped Hpl].
  apply andb_true_iff in Htyped as [Hsize Hleg].
  unfold stock_fill, trades_getitem. rewrite Hrow, Hside. simpl.
  (* the cumulated size *)
  assert (∃ u, (if has_key row "Underlying size"
                then getitem row "Underlying size"
                       ≫= (λ logged, py_add logged (Num (- shares (execution fill))))
                else Ok (Num (- shares (execution fill)))) = Ok u
               ∧ numeric u = true) as (u & -> & Hu).
  { unfold numeric_or_absent, getitem in *.
    destruct (row !! "Underlying size") as [v|] eqn:Hv.
    - rewrite (has_key_true _ _ _ Hv). simpl.
      destruct (py_add_numeric v (Num (- shares (execution fill))) Hsize eq_refl)
        as (c & -> & Hc). eauto.
    - rewrite (has_key_false _ _ Hv). eauto. }
  simpl.
  destruct (logged_or_zero_numeric _ _ Hleg) as (pl & -> & Hplv). simpl.
  destruct (logged_or_zero_numeric _ _ Hpl) as (pu & -> & Hpuv). simpl.
  (* the action *)
  assert (∃ label, (if has_key row "Option size"
                    then getitem row "action" ≫= (λ logged,
                           as_str logged ≫= (λ s, Ok ("SLD" +:+ " " +:+ s)))
                    else Ok "SLD") = Ok label
                   ∧ String.prefix "SLD" label = true
                   ∧ String.prefix "ERROR" label = false)
    as (label & -> & Hsld & Herr).
  { destruct (has_key row "Option size"); simpl in *; [|eauto].
    unfold getitem. destruct (row !! "action") as [[| |s]|]; try discriminate.
    simpl. eauto. }
  simpl.
  destruct (logged_or_zero_numeric _ _ Hcomm) as (cm & -> & Hcmv). simpl.
  rewrite (stock_basis_unmatched_sale _ _ _ _ Hside Hcount). simpl.
  rewrite Z.sub_diag. simpl.
  destruct (py_add_numeric pl (Num (0 * shares (execution fill))) Hplv eq_refl)
    as (pl' & -> & _). simpl.
  destruct (py_add_numeric pu (Num (realizedPNL (commissionReport fill)))
              Hpuv eq_refl) as (pu' & -> & _). simpl.
  destruct (py_add_numeric cm (Num (commission (commissionReport fill)))
              Hcmv eq_refl) as (cm' & -> & _). simpl.
  destruct (py_mul_numeric u (Num (price (execution fill))) Hu eq_refl)
    as (bal & -> & _). simpl.
  eexists _, _, label. split; [reflexivity|]. simpl.
  rewrite lookup_insert_eq. split; [reflexivity|].
  repeat split; try done; rewrite lookup_update; reflexivity.
Qed.

Lemma unmatched_sale_takes_execution_price_witness :
  ∃ st' row' label,
    stock_fill [] 1000 (stock_of "XYZ") (open_row "XYZ" start) short_sale
    = Ok st'
    ∧ trades st' !! "XYZ" = Some row'
    ∧ row' !! "trade price" = Some (Num 20)
    ∧ row' !! "leg price" = Some (Num 20)
    ∧ row' !! "action" = Some (Str label)
    ∧ String.prefix "SLD" label = true
    ∧ String.prefix "ERROR" label = false.
Proof.
  apply (unmatched_sale_takes_execution_price [] 1000 (stock_of "XYZ")
           (open_row "XYZ" start) short_sale {[ "ticker" := Str "XYZ" ]}).
  - reflexivity.
  - reflexivity.
  - vm_compute. reflexivity.
  - vm_compute. reflexivity.
Defined.

(** ** A ROLLOVER order *)

Lemma starred_ne (s : string) : s ≠ s +:+ "*".
Proof.
  induction s as [|a s IH]; simpl; [discriminate|].
  intros H. injection H as H. by apply IH.
Qed.

(** The buy-back leg of a rollover, on the row of the ticker. *)
Lemma rollover_close_leg (yespos : list yrow) (account_value : Z)
    (qqq : Contract) (st : tstate) (c p : Z) (fill : Fill) (label : string)
    (row : dict) :
  v_action (vars st) = Some label →
  String.prefix "ROLLOVER" label = true →
  String.eqb (side (execution fill)) "SLD" = false →
  trades st !! symbol qqq = Some row →
  ∃ st' c' p' row',
    bag_option_leg yespos account_value qqq (st, c, p) fill
    = Ok (st', c', p')
    ∧ trades st' = <[symbol qqq := row']> (trades st)
    ∧ v_action (vars st') = Some "ROLLOVER CLOSE"
    ∧ row' !! "action" = Some (Str "ROLLOVER CLOSE")
    ∧ row' !! "option trade price"
      = Some (match yloc yespos (symbol qqq) with
              | [y] => y_option_trade_price y
              | _ => Num (price (execution fill))
              end).
Proof.
  intros Hact Hpre Hside Hrow.
  unfold bag_option_leg. rewrite Hact. simpl. rewrite Hside, Hpre.
  destruct (yloc yespos (symbol qqq)) as [|y [|y' l]] eqn:Hy; simpl;
    unfold trades_getitem; rewrite Hrow; simpl;
    eexists _, _, _, _; (split; [reflexivity|]); simpl;
    (split; [reflexivity|]); (split; [reflexivity|]);
    split; rewrite lookup_update; reflexivity.
Qed.

(** The write leg of a rollover, on the starred row. *)
Lemma rollover_write_leg (yespos : list yrow) (account_value : Z)
    (qqq : Contract) (st : tstate) (c p : Z) (fill : Fill) (label : string) :
  v_action (vars st) = Some label →
  String.prefix "ROLLOVER" label = true →
  side (execution fill) = "SLD" →
  trades st !! (symbol qqq +:+ "*") = None →
  ∃ st' c' p' row',
    bag_option_leg yespos account_value qqq (st, c, p) fill
    = Ok (st', c', p')
    ∧ trades st' = <[symbol qqq +:+ "*" := row']> (trades st)
    ∧ v_action (vars st') = Some "ROLLOVER WRITE"
    ∧ row' !! "action" = Some (Str "ROLLOVER WRITE")
    ∧ row' !! "option trade price" = Some (Num (price (execution fill))).
Proof.
  intros Hact Hpre Hside Hnone.
  unfold bag_option_leg. rewrite Hact. simpl. rewrite Hside, Hpre. simpl.
  rewrite Hnone. unfold trades_getitem. rewrite lookup_insert_eq. simpl.
  eexists _, _, _, _. split; [reflexivity|]. simpl.
  rewrite insert_insert_eq.
  split; [reflexivity|]. split; [reflexivity|].
  split; rewrite lookup_update; reflexivity.
Qed.

(** The code at a rollover of XYZ when yesterday's sheet has no row for
    XYZ: the closing row carries the execution price of the buy-back. *)
Lemma rollover_not_closed_at_yesterday :
  logged (process_trades [] 1000 start
            [ {| contract := bag_of "XYZ" rollover_legs;
                 fills := [buy_back_leg; write_leg] |} ])
         "XYZ" "option trade price"
  = Some (Num (price (execution buy_back_leg)))
  ∧ ¬ rollover_closes_at_yesterday [] 1000 start
        (bag_of "XYZ" rollover_legs) buy_back_leg write_leg.
Proof.
  split; [vm_compute; reflexivity|].
  intros (st' & close_row & write_row & y & _ & _ & _ & _ & Hy & _).
  simpl in Hy. by apply elem_of_nil in Hy.
Qed.

(** C2, as the code has it. A Bag order classified ROLLOVER whose fills
    are a buy-back option leg and a new-write option leg, for a ticker
    that has no row yet in today's trades, adds exactly two rows: the
    ticker row with action ROLLOVER CLOSE, whose option trade price is
    that of yesterday's row for the ticker when yesterday's sheet has
    exactly one such row and the buy-back's execution price otherwise,
    and the starred row with action ROLLOVER WRITE, whose option trade
    price is the write leg's execution price. *)
Theorem rollover_logs_two_rows (yespos : list yrow) (account_value : Z)
    (st : tstate) (qqq : Contract) (buy_back write : Fill)
    (fs : list Fill) :
  ctype qqq = Bag →
  combo_action qqq = Ok "ROLLOVER" →
  ctype (fill_contract buy_back) = Option →
  side (execution buy_back) = "BOT" →
  ctype (fill_contract write) = Option →
  side (execution write) = "SLD" →
  fs = [buy_back; write] ∨ fs = [write; buy_back] →
  trades st !! symbol qqq = None →
  trades st !! (symbol qqq +:+ "*") = None →
  ∃ st' close_row write_row,
    process_trade yespos account_value st {| contract := qqq; fills := fs |}
    = Ok st'
    ∧ dom (trades st')
      = {[ symbol qqq; symbol qqq +:+ "*" ]} ∪ dom (trades st)
    ∧ size (trades st') = S (S (size (trades st)))
    ∧ trades st' !! symbol qqq = Some close_row
    ∧ close_row !! "action" = Some (Str "ROLLOVER CLOSE")
    ∧ close_row !! "option trade price"
      = Some (match yloc yespos (symbol qqq) with
              | [y] => y_option_trade_price y
              | _ => Num (price (execution buy_back))
              end)
    ∧ trades st' !! (symbol qqq +:+ "*") = Some write_row
    ∧ write_row !! "action" = Some (Str "ROLLOVER WRITE")
    ∧ write_row !! "option trade price"
      = Some (Num (price (execution write))).
Proof.
  intros Hbag Hcombo Hcb Hsb Hcw Hsw Hfs Hnone Hnone'.
  pose proof (starred_ne (symbol qqq)) as Hne.
  assert (Hbot : String.eqb (side (execution buy_back)) "SLD" = false)
    by (by rewrite Hsb).
  unfold process_trade. simpl. rewrite Hbag, Hcombo. simpl.
  unfold open_row. rewrite Hnone.
  set (st0 := set_action "ROLLOVER" _).
  assert (Hst0 : trades st0
                 = <[symbol qqq := {[ "ticker" := Str (symbol qqq) ]}]> (trades st))
    by reflexivity.
  assert (Hact0 : v_action (vars st0) = Some "ROLLOVER") by reflexivity.
  destruct Hfs as [-> | ->]; simpl; unfold bag_fill.
  - rewrite Hcb.
    destruct (rollover_close_leg yespos account_value qqq st0 0 0 buy_back
                "ROLLOVER" {[ "ticker" := Str (symbol qqq) ]})
      as (st1 & c1 & p1 & crow & -> & Htr1 & Hact1 & Hca & Hcp);
      [done | done | done | by rewrite Hst0, lookup_insert_eq |].
    simpl. rewrite Hcw.
    destruct (rollover_write_leg yespos account_value qqq st1 c1 p1 write
                "ROLLOVER CLOSE")
      as (st2 & c2 & p2 & wrow & -> & Htr2 & Hact2 & Hwa & Hwp);
      [done | done | done | |].
    { rewrite Htr1, Hst0, insert_insert_eq.
      by rewrite lookup_insert_ne. }
    simpl. exists st2, crow, wrow.
    rewrite Htr2, Htr1, Hst0, insert_insert_eq.
    split; [reflexivity|]. split.
    { rewrite !dom_insert_L. apply set_eq. intros x.
      rewrite !elem_of_union. tauto. }
    split.
    { rewrite !map_size_insert_None; [done | done |].
      by rewrite lookup_insert_ne. }
    split; [by rewrite lookup_insert_ne, lookup_insert_eq|].
    split; [done|]. split; [done|].
    split; [by rewrite lookup_insert_eq|]. done.
  - rewrite Hcw.
    destruct (rollover_write_leg yespos account_value qqq st0 0 0 write
                "ROLLOVER")
      as (st1 & c1 & p1 & wrow & -> & Htr1 & Hact1 & Hwa & Hwp);
      [done | done | done | |].
    { rewrite Hst0. by rewrite lookup_insert_ne. }
    simpl. rewrite Hcb.
    destruct (rollover_close_leg yespos account_value qqq st1 c1 p1 buy_back
                "ROLLOVER WRITE" {[ "ticker" := Str (symbol qqq) ]})
      as (st2 & c2 & p2 & crow & -> & Htr2 & Hact2 & Hca & Hcp);
      [done | done | done | |].
    { rewrite Htr1, Hst0.
      by rewrite lookup_insert_ne, lookup_insert_eq. }
    simpl. exists st2, crow, wrow.
    rewrite Htr2, Htr1, Hst0.
    split; [reflexivity|]. split.
    { rewrite !dom_insert_L. apply set_eq. intros x.
      rewrite !elem_of_union. tauto. }
    split.
    { rewrite (insert_insert_ne _ (symbol qqq)) by done.
      rewrite insert_insert_eq.
      rewrite !map_size_insert_None; [done | done |].
      by rewrite lookup_insert_ne. }
    split; [by rewrite lookup_insert_eq|].
    split; [done|]. split; [done|].
    split; [by rewrite lookup_insert_ne, lookup_insert_eq|]. done.
Qed.

Lemma rollover_logs_two_rows_witness :
  ∃ st' close_row write_row,
    process_trade [held_xyz] 1000 start
      {| contract := bag_of "XYZ" rollover_legs;
         fills := [buy_back_leg; write_leg] |} = Ok st'
    ∧ dom (trades st') = {[ "XYZ"; "XYZ*" ]} ∪ dom (trades start)
    ∧ size (trades st') = S (S (size (trades start)))
    ∧ trades st' !! "XYZ" = Some close_row
    ∧ close_row !! "action" = Some (Str "ROLLOVER CLOSE")
    ∧ close_row !! "option trade price" = Some (Num 4)
    ∧ trades st' !! "XYZ*" = Some write_row
    ∧ write_row !! "action" = Some (Str "ROLLOVER WRITE")
    ∧ write_row !! "option trade price" = Some (Num 2).
Proof.
  apply (rollover_logs_two_rows [held_xyz] 1000 start
           (bag_of "XYZ" rollover_legs) buy_back_leg write_leg
           [buy_back_leg; write_leg]).
  - reflexivity.
  - reflexivity.
  - reflexivity.
  - reflexivity.
  - reflexivity.
  - reflexivity.
  - by left.
  - reflexivity.
  - reflexivity.
Defined.

(** ** Several fills of one leg *)

(** C3. The code on an option order filled in two parts, with
    commissions 1.00 and 0.50 and realized P&L 10 and 5: the commissions
    are summed to 1.50, the row's P/L option is the P&L of the last fill
    alone.  The same two parts on a stock order are summed in both
    columns. *)
Theorem option_fills_overwrite_realized_pnl :
  logged (process_trades [held_xyz] 1000 start [close_in_two_fills])
         "XYZ" "Commission" = Some (Num 150)
  ∧ logged (process_trades [held_xyz] 1000 start [close_in_two_fills])
           "XYZ" "P/L option" = Some (Num 5)
  ∧ logged (process_trades [held_xyz] 1000 start [sale_in_two_fills])
           "XYZ" "Commission" = Some (Num 150)
  ∧ logged (process_trades [held_xyz] 1000 start [sale_in_two_fills])
           "XYZ" "P/L underlying" = Some (Num 15).
Proof. repeat split; vm_compute; reflexivity. Qed.

(** ** Where a recovery run takes its trades from *)

Lemma read_trades_has_priority (recover_trades_flag : bool) :
  effective_recover true recover_trades_flag = false.
Proof. reflexivity. Qed.

(** C9. The code in recovery mode on 2023-07-21: the trades come from
    the file of 2023-07-20 although the file saved for the run date is
    there, and without the file of 2023-07-20 the run stops on a missing
    file; when both modes are asked for, the recovery is switched off. *)
Theorem recovery_reads_a_fixed_file :
  let files : gmap string (list Trade) :=
    {[ tradeslogfile "2023-07-20" := trades_of_0720;
       tradeslogfile "2023-07-21" := trades_of_0721 ]} in
  files !! tradeslogfile "2023-07-21" = Some trades_of_0721
  ∧ load_trades (effective_recover false true) files [] = Ok trades_of_0720
  ∧ load_trades (effective_recover false true)
      ({[ tradeslogfile "2023-07-21" := trades_of_0721 ]}) []
    = Raise FileNotFoundError
  ∧ effective_recover true true = false.
Proof. repeat split; vm_compute; reflexivity. Qed.

(** ** The basis names in the portfolio loop *)

(** C10. The code on a day when ABC is held and untouched and XYZ is
    sold short without a row in yesterday's sheet.  With ABC before XYZ in
    the portfolio, the XYZ row carries the trade price and leg price that
    were resolved for ABC; with XYZ first it carries what the trade loop
    left in the names.  On a day whose only trade is the purchase of a
    call on shares held since yesterday, the names are read unbound and
    the run stops. *)
Theorem stale_basis_in_portfolio_rows :
  observed (recorder no_greeks sample_str_of_float sample_strptime
              (friday [abc_shares; xyz_short]) true false)
           "XYZ" "trade price" = Some (y_trade_price held_abc)
  ∧ observed (recorder no_greeks sample_str_of_float sample_strptime
                (friday [abc_shares; xyz_short]) true false)
             "XYZ" "leg price" = Some (y_leg_price held_abc)
  ∧ observed (recorder no_greeks sample_str_of_float sample_strptime
                (friday [xyz_short; abc_shares]) true false)
             "XYZ" "trade price" = Some (Num 20)
  ∧ recorder no_greeks sample_str_of_float sample_strptime friday_call
      true false = Raise UnboundLocalError.
Proof. repeat split; vm_compute; reflexivity. Qed.

(** ** The adjustment after the close *)

Lemma mapM_Forall2 {A B} (f : A → result B) (l : list A) (out : list B) :
  mapM f l = Ok out → Forall2 (λ x y, f x = Ok y) l out.
Proof.
  revert out. induction l as [|x l IH]; intros out; simpl.
  - intros [= <-]. constructor.
  - destruct (f x) as [y|e] eqn:Hx; simpl; [|discriminate].
    destruct (mapM f l) as [ys|e] eqn:Hl; simpl; [|discriminate].
    intros [= <-]. constructor; [done | by apply IH].
Qed.

Lemma mapM_total {A B} (f : A → result B) (l : list A) :
  Forall (λ x, ∃ y, f x = Ok y) l → ∃ out, mapM f l = Ok out.
Proof.
  induction 1 as [|x l [y Hy] _ [ys Hys]]; simpl; [eauto|].
  rewrite Hy. simpl. rewrite Hys. simpl. eauto.
Qed.

Lemma py_le_numeric (a b : value) :
  numeric a = true → numeric b = true →
  ∃ c, py_le a b = Ok c
       ∧ (c = true ↔ ∃ k p, a = Num k ∧ b = Num p ∧ k ≤ p).
Proof.
  destruct a as [k| |], b as [p| |]; simpl; intros; try discriminate.
  - exists (k <=? p). split; [done|]. rewrite Z.leb_le. split.
    + intros. by exists k, p.
    + intros (? & ? & [= <-] & [= <-] & ?). done.
  - exists false. split; [done|]. split; [done|].
    intros (? & ? & _ & ? & _). discriminate.
  - exists false. split; [done|]. split; [done|].
    intros (? & ? & ? & _). discriminate.
  - exists false. split; [done|]. split; [done|].
    intros (? & ? & ? & _). discriminate.
Qed.

Lemma cell_insert_ne (row : dict) (k col : string) (v : value) :
  k ≠ col → cell (<[k := v]> row) col = cell row col.
Proof. intros H. unfold cell. by rewrite lookup_insert_ne. Qed.

Lemma adjust_adjusted (str_of_float : Z → string)
    (strptime : string → option Z) (today : Z) (row : dict) :
  adjustable str_of_float strptime row = true →
  ∃ row', adjust str_of_float strptime today row = Ok row'
          ∧ adjusted str_of_float strptime today row row'.
Proof.
  unfold adjustable, adjust, adjusted, doe_text.
  set (text := astype_str str_of_float (cell row "DOE")).
  destruct (String.eqb_spec text "nan") as [Hnan|Hopt]; simpl.
  - intros _. eexists. split; [reflexivity|].
    split; [intros k _ Hk; by rewrite lookup_insert_ne|].
    split; [intros _; by rewrite lookup_insert_ne|].
    intros doe Hn. done.
  - destruct (strptime text) as [doe|] eqn:Hdoe; [|discriminate].
    intros [Hk Hp]%andb_true_iff.
    rewrite !cell_insert_ne by discriminate.
    destruct (py_le_numeric _ _ Hk Hp) as (c & Hle & Hc).
    destruct (Z.leb_spec doe today) as [Hexp|Hlater].
    + rewrite Hle. simpl. destruct c.
      * eexists. split; [reflexivity|].
        split; [intros k Ha Hd; by rewrite !lookup_insert_ne|].
        split; [done|]. intros doe' _ [= <-].
        split; [lia|]. split; [intros; by rewrite lookup_insert_eq|].
        intros _ Hn. exfalso. apply Hn. by apply Hc.
      * eexists. split; [reflexivity|].
        split; [intros k Ha Hd; by rewrite !lookup_insert_ne|].
        split; [done|]. intros doe' _ [= <-].
        split; [lia|]. split; [|intros; by rewrite lookup_insert_eq].
        intros _ Hs. apply Hc in Hs. discriminate.
    + eexists. split; [reflexivity|].
      split; [intros k Ha Hd; by rewrite lookup_insert_ne|].
      split; [done|]. intros doe' _ [= <-].
      split; [intros; by rewrite lookup_insert_ne|]. split; lia.
Qed.

(** C8. Before 16:00 the rows are left as they are.  From 16:00 on, the
    loop ends on every frame whose rows are [adjustable], and then: a
    row whose expiration is on or before today gets the action "Called
    Away" when its strike is at most the price of the underlying and
    "Expire CC" otherwise; a row with a later expiration or without an
    option keeps its action. *)
Theorem post_close_marks_expired (str_of_float : Z → string)
    (strptime : string → option Z) (hour today : Z) (port_df : list dict) :
  (hour < 16 →
   post_close str_of_float strptime hour today port_df = Ok port_df)
  ∧ (16 ≤ hour →
     Forall (λ row, adjustable str_of_float strptime row = true) port_df →
     ∃ out,
       post_close str_of_float strptime hour today port_df = Ok out
       ∧ List.length out = List.length port_df
       ∧ ∀ i row, port_df !! i = Some row →
           ∃ row', out !! i = Some row'
                   ∧ adjusted str_of_float strptime today row row').
Proof.
  unfold post_close. split.
  - intros Hh. destruct (Z.leb_spec 16 hour); [lia | done].
  - intros Hh Hrows. destruct (Z.leb_spec 16 hour); [|lia].
    destruct (mapM_total (adjust str_of_float strptime today) port_df)
      as [out Hout].
    { eapply Forall_impl; [exact Hrows|]. intros row Hrow. simpl.
      destruct (adjust_adjusted _ _ today _ Hrow) as (row' & Hr & _). eauto. }
    exists out. split; [done|].
    apply mapM_Forall2 in Hout.
    split; [symmetry; by eapply Forall2_length|].
    intros i row Hi.
    destruct (Forall2_lookup_l _ _ _ _ _ Hout Hi) as (row' & Hi' & Hadj).
    exists row'. split; [done|].
    rewrite Forall_forall in Hrows.
    destruct (adjust_adjusted str_of_float strptime today row) as (r & Hr & Ha).
    { apply Hrows. by eapply list_elem_of_lookup_2. }
    rewrite Hr in Hadj. by injection Hadj as <-.
Qed.

Lemma post_close_marks_expired_witness :
  post_close sample_str_of_float sample_strptime 15 19559
    [expiring 100; expiring 110] = Ok [expiring 100; expiring 110]
  ∧ ∃ out,
      post_close sample_str_of_float sample_strptime 16 19559
        [expiring 100; expiring 110] = Ok out
      ∧ List.length out = 2%nat
      ∧ ∀ i row, [expiring 100; expiring 110] !! i = Some row →
          ∃ row', out !! i = Some row'
                  ∧ adjusted sample_str_of_float sample_strptime 19559 row row'.
Proof.
  split.
  - apply (post_close_marks_expired sample_str_of_float sample_strptime
             15 19559 [expiring 100; expiring 110]). lia.
  - apply (post_close_marks_expired sample_str_of_float sample_strptime
             16 19559 [expiring 100; expiring 110]); [lia|].
    repeat constructor.
Defined.

(** Scenario D of the sheet, run: strike 100 under a price of 105 is
    called away, strike 110 expires. *)
Lemma scenario_called_away_or_expired :
  actions_after (post_close sample_str_of_float sample_strptime 16 19559
                   [expiring 100; expiring 110])
  = Some [Some (Str "Called Away"); Some (Str "Expire CC")].
Proof. vm_compute. reflexivity. Qed.

(** ** A stock leg and an option leg of one ticker *)

Lemma getitem_update (row : dict) (d : list (string * value)) (k : string) :
  getitem (update row d) k =
  match lit_get k d with Some v => Ok v | None => getitem row k end.
Proof.
  unfold getitem. rewrite lookup_update. by destruct (lit_get k d).
Qed.

Lemma has_key_update (row : dict) (d : list (string * value)) (k : string) :
  has_key (update row d) k =
  match lit_get k d with Some _ => true | None => has_key row k end.
Proof.
  unfold has_key. rewrite lookup_update.
  destruct (lit_get k d); [|done]. apply bool_decide_eq_true. eauto.
Qed.

Lemma logged_or_zero_update (row : dict) (d : list (string * value))
    (k : string) :
  logged_or_zero (update row d) k =
  match lit_get k d with Some v => Ok v | None => logged_or_zero row k end.
Proof.
  unfold logged_or_zero. rewrite has_key_update, getitem_update.
  by destruct (lit_get k d).
Qed.

Lemma has_key_stub (sym k : string) :
  k ≠ "ticker" → has_key {[ "ticker" := Str sym ]} k = false.
Proof. intros H. apply has_key_false. by apply lookup_singleton_ne. Qed.

Lemma logged_or_zero_stub (sym k : string) :
  k ≠ "ticker" → logged_or_zero {[ "ticker" := Str sym ]} k = Ok (Num 0).
Proof. intros H. unfold logged_or_zero. by rewrite has_key_stub. Qed.

Lemma lit_get_None (k : string) (d : list (string * value)) :
  k ∉ d.*1 → lit_get k d = None.
Proof.
  induction d as [|[k' v] d IH]; simpl; [done|].
  intros H. apply not_elem_of_cons in H as [Hne Hd].
  rewrite (IH Hd). destruct (String.eqb_spec k' k); congruence.
Qed.

Lemma yloc_typed (yespos : list yrow) (sym : string) :
  Forall (λ y, typed_yrow y = true) yespos →
  Forall (λ y, typed_yrow y = true) (yloc yespos sym).
Proof.
  rewrite !Forall_forall. intros H y Hy. apply H.
  unfold yloc in Hy. by apply list_elem_of_filter in Hy as [_ ?].
Qed.

Lemma typed_column (f : yrow → value) (l : list yrow) :
  (∀ y, typed_yrow y = true → numeric (f y) = true) →
  Forall (λ y, typed_yrow y = true) l →
  Forall (λ v, numeric v = true) (f <$> l).
Proof. intros Hf Hl. apply Forall_fmap. eapply Forall_impl; eauto. Qed.

Lemma typed_yrow_leg (y : yrow) :
  typed_yrow y = true → numeric (y_leg_price y) = true.
Proof. unfold typed_yrow. rewrite !andb_true_iff. tauto. Qed.

Lemma typed_yrow_trade (y : yrow) :
  typed_yrow y = true → numeric (y_trade_price y) = true.
Proof. unfold typed_yrow. rewrite !andb_true_iff. tauto. Qed.

Lemma typed_yrow_size (y : yrow) :
  typed_yrow y = true → numeric (y_underlying_size y) = true.
Proof. unfold typed_yrow. rewrite !andb_true_iff. tauto. Qed.

Lemma typed_yrow_option_trade (y : yrow) :
  typed_yrow y = true → numeric (y_option_trade_price y) = true.
Proof. unfold typed_yrow. rewrite !andb_true_iff. tauto. Qed.

(** On a typed sheet the basis of a stock fill is found, and is a float
    or nan. *)
Lemma stock_basis_typed (yespos : list yrow) (sym : string) (exe : Execution)
    (under_shares : value) :
  Forall (λ y, typed_yrow y = true) yespos →
  ∃ leg_price trade_price,
    stock_basis yespos sym exe under_shares = Ok (leg_price, trade_price)
    ∧ numeric leg_price = true ∧ numeric trade_price = true.
Proof.
  intros Hy. apply (yloc_typed _ sym) in Hy.
  unfold stock_basis. destruct (yloc yespos sym) as [|y l] eqn:Hl.
  - destruct (side exe =? "BOT")%string; simpl; eauto.
  - assert (Hmax : ∃ lp tp,
              py_max (y_leg_price <$> y :: l) = Ok lp
              ∧ py_max (y_trade_price <$> y :: l) = Ok tp
              ∧ numeric lp = true ∧ numeric tp = true).
    { destruct (py_max_numeric (y_leg_price <$> y :: l)) as (lp & Hlp & ?);
        [done | by apply typed_column; [apply typed_yrow_leg|] |].
      destruct (py_max_numeric (y_trade_price <$> y :: l)) as (tp & Htp & ?);
        [done | by apply typed_column; [apply typed_yrow_trade|] |].
      eauto 10. }
    destruct Hmax as (lp & tp & Hlp & Htp & Hnl & Hnt).
    inversion Hy as [|? ? Hty _]; subst.
    destruct (py_neg_numeric _ (typed_yrow_size _ Hty)) as (o & Ho & _).
    simpl in Hlp, Htp.
    destruct (side exe =? "BOT")%string; simpl.
    + rewrite Ho. simpl.
      destruct (py_eq under_shares o); [|eauto].
      rewrite Hlp. simpl. rewrite Htp. simpl. eauto.
    + rewrite Hlp. simpl. rewrite Htp. simpl. eauto.
Qed.

Lemma option_action_total (yespos : list yrow) (sym : string)
    (exe : Execution) :
  ∃ label option_trade_price,
    option_action yespos sym exe = Ok (label, option_trade_price).
Proof.
  unfold option_action.
  destruct (side exe =? "SLD")%string; [eauto|].
  destruct (side exe =? "BOT")%string; [|eauto].
  destruct (yloc yespos sym) as [|y [|y' l]]; simpl; eauto.
  destruct (is_float (y_option_price y) && is_float (y_price y)); eauto.
Qed.

(** An option fill on a row whose commission so far is [c0]. *)
Lemma option_fill_runs (yespos : list yrow) (account_value : Z)
    (qqq : Contract) (st : tstate) (fill : Fill) (row : dict)
    (label label' : string) (otp : value) (c0 : Z) :
  trades st !! symbol qqq = Some row →
  option_action yespos (symbol qqq) (execution fill) = Ok (label, otp) →
  (if has_key row "Underlying size"
   then ∃ a, row !! "action" = Some (Str a) ∧ label' = a +:+ " " +:+ label
   else label' = label) →
  logged_or_zero row "Commission" = Ok (Num c0) →
  option_fill yespos account_value qqq st fill
  = Ok {| trades :=
            <[symbol qqq :=
                update row
                  (option_literal account_value qqq fill
                     (if (side (execution fill) =? "SLD")%string
                      then shares (execution fill) * -1
                      else shares (execution fill))
                     label' otp
                     (Num (c0 + commission (commissionReport fill))))]>
              (trades st);
          vars := {| v_action := Some label';
                     v_trade_price := v_trade_price (vars st);
                     v_leg_price := v_leg_price (vars st);
                     v_option_trade_price := Some otp |} |}.
Proof.
  intros Hrow Hlabel Hact Hcomm.
  unfold option_fill, trades_getitem. rewrite Hlabel, Hrow. simpl.
  destruct (has_key row "Underlying size").
  - destruct Hact as (a & Ha & ->). unfold getitem. rewrite Ha. simpl.
    rewrite Hcomm. reflexivity.
  - subst label'. rewrite Hcomm. reflexivity.
Qed.

(** The first stock fill on a row whose commission so far is [c0]. *)
Lemma stock_fill_runs (yespos : list yrow) (account_value : Z)
    (qqq : Contract) (st : tstate) (fill : Fill) (row : dict)
    (label : string) (lp tp : value) (c0 : Z) :
  let exe := execution fill in
  let this :=
    if (side exe =? "SLD")%string then - shares exe else shares exe in
  trades st !! symbol qqq = Some row →
  has_key row "Underlying size" = false →
  has_key row "P/L underlying leg" = false →
  has_key row "P/L underlying" = false →
  (if has_key row "Option size"
   then ∃ a, row !! "action" = Some (Str a)
             ∧ label = side exe +:+ " " +:+ a
   else label = side exe) →
  logged_or_zero row "Commission" = Ok (Num c0) →
  stock_basis yespos (symbol qqq) exe (Num this) = Ok (lp, tp) →
  numeric lp = true →
  stock_fill yespos account_value qqq st fill
  = Ok {| trades :=
            <[symbol qqq :=
                update row
                  (stock_literal account_value exe tp
                     (Num (0 + realizedPNL (commissionReport fill)))
                     (Num this) label lp
                     (match lp with
                      | Num l => Num (0 + (price exe - l) * shares exe)
                      | _ => NaN
                      end)
                     (Num (this * price exe))
                     (Num (c0 + commission (commissionReport fill))))]>
              (trades st);
          vars := {| v_action := Some label;
                     v_trade_price := Some tp;
                     v_leg_price := Some lp;
                     v_option_trade_price := v_option_trade_price (vars st) |} |}.
Proof.
  intros exe this Hrow Hsize Hleg Hpl Hact Hcomm Hbasis Hlp.
  unfold stock_fill, trades_getitem, logged_or_zero in *.
  rewrite Hrow. simpl. rewrite Hsize, Hleg, Hpl. simpl.
  assert ((if has_key row "Option size"
           then getitem row "action" ≫= (λ logged,
                  as_str logged ≫= (λ s, Ok (side (execution fill) +:+ " " +:+ s)))
           else Ok (side (execution fill))) = Ok label) as ->.
  { destruct (has_key row "Option size"); [|by subst].
    destruct Hact as (a & Ha & ->). unfold getitem. by rewrite Ha. }
  simpl. rewrite Hcomm. simpl. fold exe. fold this. rewrite Hbasis. simpl.
  destruct lp as [l| |]; try discriminate; reflexivity.
Qed.

Lemma keeps_update (row : dict) (d : list (string * value)) :
  keeps row (update row d).
Proof.
  intros k Hk. rewrite lookup_update. destruct (lit_get k d); eauto.
Qed.

(** The code when 100 XYZ are bought at 10:00 and a call is written at
    10:05: the row carries the time of the order that is processed
    last, so the two orders of arrival do not log the same row. *)
Lemma legs_do_not_commute :
  logged (process_trades [] 1000 start [morning_buy; later_write])
         "XYZ" "time" = Some (Str "10:05")
  ∧ logged (process_trades [] 1000 start [later_write; morning_buy])
           "XYZ" "time" = Some (Str "10:00")
  ∧ ¬ legs_commute [] 1000 start morning_buy later_write.
Proof.
  assert (E1 : logged (process_trades [] 1000 start [morning_buy; later_write])
                      "XYZ" "time" = Some (Str "10:05"))
    by (vm_compute; reflexivity).
  assert (E2 : logged (process_trades [] 1000 start [later_write; morning_buy])
                      "XYZ" "time" = Some (Str "10:00"))
    by (vm_compute; reflexivity).
  split; [done|]. split; [done|].
  intros (st1 & st2 & H1 & H2 & Heq).
  rewrite H1 in E1. rewrite H2 in E2. simpl in E1, E2.
  rewrite Heq, E2 in E1. discriminate.
Qed.

Ltac str_ne := apply String.eqb_neq; vm_compute; reflexivity.

Lemma bind_ret {A} (m : result A) : (m ≫= λ a, Ok a) = m.
Proof. by destruct m. Qed.

Lemma process_trades_one (yespos : list yrow) (account_value : Z)
    (st : tstate) (t : Trade) :
  process_trades yespos account_value st [t]
  = process_trade yespos account_value st t.
Proof. unfold process_trades. cbn [foldlM]. apply bind_ret. Qed.

Lemma process_trades_two (yespos : list yrow) (account_value : Z)
    (st : tstate) (t1 t2 : Trade) :
  process_trades yespos account_value st [t1; t2]
  = process_trade yespos account_value st t1
    ≫= λ st', process_trade yespos account_value st' t2.
Proof.
  unfold process_trades. cbn [foldlM].
  destruct (process_trade yespos account_value st t1); [|done].
  cbn [mbind result_bind]. apply bind_ret.
Qed.

Lemma process_stock_order (yespos : list yrow) (account_value : Z)
    (st : tstate) (q : Contract) (f : Fill) :
  ctype q = Stock →
  process_trade yespos account_value st {| contract := q; fills := [f] |}
  = stock_fill yespos account_value q (open_row (symbol q) st) f.
Proof.
  intros Hq. unfold process_trade. cbn [contract fills]. rewrite Hq.
  cbn [foldlM]. apply bind_ret.
Qed.

Lemma process_option_order (yespos : list yrow) (account_value : Z)
    (st : tstate) (q : Contract) (f : Fill) :
  ctype q = Option →
  process_trade yespos account_value st {| contract := q; fills := [f] |}
  = option_fill yespos account_value q (open_row (symbol q) st) f.
Proof.
  intros Hq. unfold process_trade. cbn [contract fills]. rewrite Hq.
  cbn [foldlM]. apply bind_ret.
Qed.

Lemma open_row_known (sym : string) (st : tstate) (row : dict) :
  trades st !! sym = Some row → open_row sym st = st.
Proof. intros H. unfold open_row. by rewrite H. Qed.

Lemma stock_literal_columns a e tp pu u l lp pl b c :
  (stock_literal a e tp pu u l lp pl b c).*1 = stock_columns.
Proof. reflexivity. Qed.

Lemma option_literal_columns a q f s l otp c :
  (option_literal a q f s l otp c).*1 = option_columns.
Proof. reflexivity. Qed.

Lemma stock_literal_get a e tp pu u l lp pl b c :
  lit_get "Underlying size" (stock_literal a e tp pu u l lp pl b c) = Some u
  ∧ lit_get "action" (stock_literal a e tp pu u l lp pl b c) = Some (Str l)
  ∧ lit_get "Commission" (stock_literal a e tp pu u l lp pl b c) = Some c
  ∧ lit_get "Option size" (stock_literal a e tp pu u l lp pl b c) = None.
Proof. repeat split; reflexivity. Qed.

Lemma option_literal_get a q f s l otp c :
  lit_get "Option size" (option_literal a q f s l otp c) = Some (Num s)
  ∧ lit_get "action" (option_literal a q f s l otp c) = Some (Str l)
  ∧ lit_get "Commission" (option_literal a q f s l otp c) = Some c
  ∧ lit_get "Underlying size" (option_literal a q f s l otp c) = None
  ∧ lit_get "P/L underlying leg" (option_literal a q f s l otp c) = None
  ∧ lit_get "P/L underlying" (option_literal a q f s l otp c) = None.
Proof. repeat split; reflexivity. Qed.

(** The two fills on a row that has only its ticker, in both orders. *)
Lemma two_legs_on_fresh_row (yespos : list yrow) (account_value : Z)
    (qs qo : Contract) (fs fo : Fill) (st0 : tstate) (stub : dict) :
  Forall (λ y, typed_yrow y = true) yespos →
  symbol qo = symbol qs →
  trades st0 !! symbol qs = Some stub →
  (∀ k, k ≠ "ticker" → stub !! k = None) →
  ∃ st_s st_o st1 st2 r_s r_o r1 r2,
    stock_fill yespos account_value qs st0 fs = Ok st_s
    ∧ option_fill yespos account_value qo st0 fo = Ok st_o
    ∧ option_fill yespos account_value qo st_s fo = Ok st1
    ∧ stock_fill yespos account_value qs st_o fs = Ok st2
    ∧ trades st_s = <[symbol qs := r_s]> (trades st0)
    ∧ trades st_o = <[symbol qs := r_o]> (trades st0)
    ∧ trades st1 = <[symbol qs := r1]> (trades st0)
    ∧ trades st2 = <[symbol qs := r2]> (trades st0)
    ∧ same_but_clock r1 r2
    ∧ r1 !! "time" = Some (Str (exetime (execution fo)))
    ∧ r1 !! "date" = Some (Str (exedate (execution fo)))
    ∧ r2 !! "time" = Some (Str (exetime (execution fs)))
    ∧ r2 !! "date" = Some (Str (exedate (execution fs)))
    ∧ keeps r_s r1 ∧ keeps r_o r2.
Proof.
  intros Hy Hsym Hst0 Hstub.
  set (this := if (side (execution fs) =? "SLD")%string
               then - shares (execution fs) else shares (execution fs)).
  destruct (stock_basis_typed yespos (symbol qs) (execution fs) (Num this) Hy)
    as (lp & tp & Hbasis & Hlp & Htp).
  destruct (option_action_total yespos (symbol qs) (execution fo))
    as (label & otp & Hlabel).
  rewrite <- Hsym in Hlabel.
  assert (Hfresh : ∀ k, k ≠ "ticker" → has_key stub k = false)
    by (intros k Hk; apply has_key_false; by apply Hstub).
  assert (Hzero : logged_or_zero stub "Commission" = Ok (Num 0)).
  { unfold logged_or_zero. rewrite Hfresh; [done | str_ne]. }
  (* the stock leg first *)
  assert (Hs_act : if has_key stub "Option size"
                   then ∃ a, stub !! "action" = Some (Str a)
                             ∧ side (execution fs)
                               = side (execution fs) +:+ " " +:+ a
                   else side (execution fs) = side (execution fs)).
  { rewrite Hfresh; [done | str_ne]. }
  pose proof (stock_fill_runs yespos account_value qs st0 fs stub
                (side (execution fs)) lp tp 0 Hst0
                (Hfresh "Underlying size" ltac:(str_ne))
                (Hfresh "P/L underlying leg" ltac:(str_ne))
                (Hfresh "P/L underlying" ltac:(str_ne))
                Hs_act Hzero Hbasis Hlp) as Hs.
  cbv zeta in Hs. fold this in Hs.
  match type of Hs with
  | _ = Ok {| trades := <[_ := update _ ?d]> _; vars := ?v |} =>
      set (d_s := d) in Hs; set (v_s := v) in Hs
  end.
  destruct (stock_literal_get account_value (execution fs) tp
              (Num (0 + realizedPNL (commissionReport fs))) (Num this)
              (side (execution fs)) lp
              (match lp with
               | Num l => Num (0 + (price (execution fs) - l)
                                   * shares (execution fs))
               | _ => NaN
               end)
              (Num (this * price (execution fs)))
              (Num (0 + commission (commissionReport fs))))
    as (Hs_size & Hs_action & Hs_comm & Hs_opt).
  fold d_s in Hs_size, Hs_action, Hs_comm, Hs_opt.
  set (r_s := update stub d_s) in *.
  set (st_s := {| trades := <[symbol qs := r_s]> (trades st0); vars := v_s |})
    in *.
  assert (Hst_s : trades st_s !! symbol qo = Some r_s).
  { rewrite Hsym. unfold st_s. cbn [trades]. apply lookup_insert_eq. }
  assert (Hso_act : if has_key r_s "Underlying size"
                    then ∃ a, r_s !! "action" = Some (Str a)
                              ∧ side (execution fs) +:+ " " +:+ label
                                = a +:+ " " +:+ label
                    else side (execution fs) +:+ " " +:+ label = label).
  { unfold r_s. rewrite has_key_update, Hs_size.
    exists (side (execution fs)). by rewrite lookup_update, Hs_action. }
  assert (Hso_comm : logged_or_zero r_s "Commission"
                     = Ok (Num (0 + commission (commissionReport fs)))).
  { unfold r_s. by rewrite logged_or_zero_update, Hs_comm. }
  pose proof (option_fill_runs yespos account_value qo st_s fo r_s label
                (side (execution fs) +:+ " " +:+ label) otp
                (0 + commission (commissionReport fs)) Hst_s Hlabel
                Hso_act Hso_comm) as Hso.
  match type of Hso with
  | _ = Ok {| trades := <[_ := update _ ?d]> _; vars := ?v |} =>
      set (d_so := d) in Hso; set (v_so := v) in Hso
  end.
  (* the option leg first *)
  assert (Hst0' : trades st0 !! symbol qo = Some stub) by (by rewrite Hsym).
  assert (Ho_act : if has_key stub "Underlying size"
                   then ∃ a, stub !! "action" = Some (Str a)
                             ∧ label = a +:+ " " +:+ label
                   else label = label).
  { rewrite Hfresh; [done | str_ne]. }
  pose proof (option_fill_runs yespos account_value qo st0 fo stub label
                label otp 0 Hst0' Hlabel Ho_act Hzero) as Ho.
  match type of Ho with
  | _ = Ok {| trades := <[_ := update _ ?d]> _; vars := ?v |} =>
      set (d_o := d) in Ho; set (v_o := v) in Ho
  end.
  destruct (option_literal_get account_value qo fo
              (if (side (execution fo) =? "SLD")%string
               then shares (execution fo) * -1 else shares (execution fo))
              label otp (Num (0 + commission (commissionReport fo))))
    as (Ho_opt & Ho_action & Ho_comm & Ho_size & Ho_leg & Ho_pl).
  fold d_o in Ho_opt, Ho_action, Ho_comm, Ho_size, Ho_leg, Ho_pl.
  set (r_o := update stub d_o) in *.
  set (st_o := {| trades := <[symbol qo := r_o]> (trades st0); vars := v_o |})
    in *.
  assert (Hst_o : trades st_o !! symbol qs = Some r_o).
  { rewrite <- Hsym. unfold st_o. cbn [trades]. apply lookup_insert_eq. }
  assert (Hos_act : if has_key r_o "Option size"
                    then ∃ a, r_o !! "action" = Some (Str a)
                              ∧ side (execution fs) +:+ " " +:+ label
                                = side (execution fs) +:+ " " +:+ a
                    else side (execution fs) +:+ " " +:+ label
                         = side (execution fs)).
  { unfold r_o. rewrite has_key_update, Ho_opt.
    exists label. by rewrite lookup_update, Ho_action. }
  assert (Hos_comm : logged_or_zero r_o "Commission"
                     = Ok (Num (0 + commission (commissionReport fo)))).
  { unfold r_o. by rewrite logged_or_zero_update, Ho_comm. }
  assert (Hos_1 : has_key r_o "Underlying size" = false).
  { unfold r_o. rewrite has_key_update, Ho_size. apply Hfresh. str_ne. }
  assert (Hos_2 : has_key r_o "P/L underlying leg" = false).
  { unfold r_o. rewrite has_key_update, Ho_leg. apply Hfresh. str_ne. }
  assert (Hos_3 : has_key r_o "P/L underlying" = false).
  { unfold r_o. rewrite has_key_update, Ho_pl. apply Hfresh. str_ne. }
  pose proof (stock_fill_runs yespos account_value qs st_o fs r_o
                (side (execution fs) +:+ " " +:+ label) lp tp
                (0 + commission (commissionReport fo)) Hst_o
                Hos_1 Hos_2 Hos_3 Hos_act Hos_comm Hbasis Hlp) as Hos.
  cbv zeta in Hos. fold this in Hos.
  match type of Hos with
  | _ = Ok {| trades := <[_ := update _ ?d]> _; vars := ?v |} =>
      set (d_os := d) in Hos; set (v_os := v) in Hos
  end.
  exists st_s, st_o. eexists _, _.
  exists r_s, r_o, (update r_s d_so), (update r_o d_os).
  split; [exact Hs|]. split; [exact Ho|]. split; [exact Hso|].
  split; [exact Hos|].
  split; [reflexivity|].
  split; [unfold st_o; cbn [trades]; by rewrite Hsym|].
  split; [unfold st_s; cbn [trades]; by rewrite Hsym, insert_insert_eq|].
  split; [unfold st_o; cbn [trades]; by rewrite Hsym, insert_insert_eq|].
  split; [|split; [|split; [|split; [|split; [|split]]]]].
  - intros k Hd Ht. unfold r_s, r_o. rewrite !lookup_update.
    destruct (decide (k ∈ (stock_columns ++ option_columns)%list))
      as [Hin|Hout].
    + unfold stock_columns, option_columns in Hin. cbn [app] in Hin.
      repeat (apply elem_of_cons in Hin as [-> | Hin]);
        try (by apply elem_of_nil in Hin);
        try (exfalso; apply Hd; reflexivity);
        try (exfalso; apply Ht; reflexivity);
        unfold d_s, d_so, d_o, d_os; simpl;
        try reflexivity; do 2 f_equal; lia.
    + apply not_elem_of_app in Hout as [Hstock Hoption].
      rewrite !lit_get_None; [done | | | |];
        unfold d_s, d_so, d_o, d_os;
        rewrite ?stock_literal_columns, ?option_literal_columns; done.
  - rewrite lookup_update. reflexivity.
  - rewrite lookup_update. reflexivity.
  - rewrite lookup_update. reflexivity.
  - rewrite lookup_update. reflexivity.
  - apply keeps_update.
  - apply keeps_update.
Qed.

(** C5, as the code has it. For a ticker without a row yet in today's
    trades, on a typed sheet, a stock order and an option order of one
    fill each are logged in either order of arrival, and the two merged
    rows agree on every column (the concatenated action included) except
    date and time, which are those of the fill processed last; the second
    leg drops no column that the first leg had written. *)
Theorem legs_commute_but_clock (yespos : list yrow) (account_value : Z)
    (st : tstate) (qs qo : Contract) (fs fo : Fill) :
  Forall (λ y, typed_yrow y = true) yespos →
  ctype qs = Stock → ctype qo = Option → symbol qo = symbol qs →
  trades st !! symbol qs = None →
  let stock_order := {| contract := qs; fills := [fs] |} in
  let option_order := {| contract := qo; fills := [fo] |} in
  ∃ st_s st_o st1 st2 r_s r_o r1 r2,
    process_trades yespos account_value st [stock_order] = Ok st_s
    ∧ process_trades yespos account_value st [option_order] = Ok st_o
    ∧ process_trades yespos account_value st [stock_order; option_order]
      = Ok st1
    ∧ process_trades yespos account_value st [option_order; stock_order]
      = Ok st2
    ∧ trades st_s = <[symbol qs := r_s]> (trades st)
    ∧ trades st_o = <[symbol qs := r_o]> (trades st)
    ∧ trades st1 = <[symbol qs := r1]> (trades st)
    ∧ trades st2 = <[symbol qs := r2]> (trades st)
    ∧ same_but_clock r1 r2
    ∧ r1 !! "action" = r2 !! "action"
    ∧ r1 !! "time" = Some (Str (exetime (execution fo)))
    ∧ r1 !! "date" = Some (Str (exedate (execution fo)))
    ∧ r2 !! "time" = Some (Str (exetime (execution fs)))
    ∧ r2 !! "date" = Some (Str (exedate (execution fs)))
    ∧ keeps r_s r1 ∧ keeps r_o r2.
Proof.
  intros Hy Hcs Hco Hsym Hnone stock_order option_order.
  pose (st0 := {| trades := <[symbol qs := {[ "ticker" := Str (symbol qs) ]}]>
                              (trades st);
                  vars := vars st |}).
  assert (Hopen : open_row (symbol qs) st = st0)
    by (unfold open_row; by rewrite Hnone).
  destruct (two_legs_on_fresh_row yespos account_value qs qo fs fo st0
              {[ "ticker" := Str (symbol qs) ]} Hy Hsym)
    as (st_s & st_o & st1 & st2 & r_s & r_o & r1 & r2 & Hs & Ho & Hso & Hos
        & Hts & Hto & Ht1 & Ht2 & Hsame & Hclock).
  { unfold st0. cbn [trades]. apply lookup_insert_eq. }
  { intros k Hk. by apply lookup_singleton_ne. }
  assert (Hst0 : trades st0 = <[symbol qs := {[ "ticker" := Str (symbol qs) ]}]>
                                (trades st)) by reflexivity.
  clearbody st0.
  exists st_s, st_o, st1, st2, r_s, r_o, r1, r2.
  unfold stock_order, option_order.
  rewrite !process_trades_one, !process_trades_two.
  rewrite (process_stock_order _ _ _ _ _ Hcs),
          (process_option_order _ _ _ _ _ Hco).
  rewrite Hsym, Hopen, Hs, Ho. cbn [mbind result_bind].
  rewrite (process_stock_order _ _ _ _ _ Hcs),
          (process_option_order _ _ _ _ _ Hco).
  rewrite Hsym.
  rewrite (open_row_known (symbol qs) st_s r_s)
    by (rewrite Hts; apply lookup_insert_eq).
  rewrite (open_row_known (symbol qs) st_o r_o)
    by (rewrite Hto; apply lookup_insert_eq).
  rewrite Hts, Hto, Ht1, Ht2, Hst0, !insert_insert_eq.
  repeat (split; [done|]).
  split; [apply Hsame; str_ne|]. exact Hclock.
Qed.

Lemma legs_commute_but_clock_witness :
  ∃ st_s st_o st1 st2 r_s r_o r1 r2,
    process_trades [held_xyz] 1000 start [morning_buy] = Ok st_s
    ∧ process_trades [held_xyz] 1000 start [later_write] = Ok st_o
    ∧ process_trades [held_xyz] 1000 start [morning_buy; later_write]
      = Ok st1
    ∧ process_trades [held_xyz] 1000 start [later_write; morning_buy]
      = Ok st2
    ∧ trades st_s = <[ "XYZ" := r_s]> (trades start)
    ∧ trades st_o = <[ "XYZ" := r_o]> (trades start)
    ∧ trades st1 = <[ "XYZ" := r1]> (trades start)
    ∧ trades st2 = <[ "XYZ" := r2]> (trades start)
    ∧ same_but_clock r1 r2
    ∧ r1 !! "action" = r2 !! "action"
    ∧ r1 !! "time" = Some (Str "10:05")
    ∧ r1 !! "date" = Some (Str "2023-07-21")
    ∧ r2 !! "time" = Some (Str "10:00")
    ∧ r2 !! "date" = Some (Str "2023-07-21")
    ∧ keeps r_s r1 ∧ keeps r_o r2.
Proof.
  apply (legs_commute_but_clock [held_xyz] 1000 start (stock_of "XYZ")
           (call_of "XYZ" "20230818" 55)
           (fill_of (stock_of "XYZ") "BOT" 100 50 "10:00" 100 0)
           (fill_of (call_of "XYZ" "20230818" 55) "SLD" 1 2 "10:05" 50 0)).
  - repeat constructor.
  - reflexivity.
  - reflexivity.
  - reflexivity.
  - reflexivity.
Defined.

(** ** The trades frame *)

Ltac column := unfold columnTitles;
  repeat first [ apply list_elem_of_here | apply list_elem_of_further ].

Lemma lookup_tabulate (f : string → value) (l : list string) (c : string) :
  c ∈ l →
  (list_to_map ((λ c, (c, f c)) <$> l) : dict) !! c = Some (f c).
Proof.
  induction l as [|x l IH]; [by intros ?%elem_of_nil|].
  intros Hc. cbn [fmap list_fmap list_to_map foldr].
  destruct (decide (x = c)) as [->|Hne].
  - apply lookup_insert_eq.
  - rewrite lookup_insert_ne by done. apply IH.
    apply elem_of_cons in Hc as [?|?]; [congruence | done].
Qed.

Lemma reindex_cell (row : dict) (c : string) :
  c ∈ columnTitles → cell (reindex row) c = cell row c.
Proof.
  intros Hc. unfold cell at 1. unfold reindex.
  by rewrite (lookup_tabulate (cell row) columnTitles c Hc).
Qed.

Lemma df_loc_reindex (trades : gmap string dict) (key col : string)
    (row : dict) :
  trades !! key = Some row → col ∈ columnTitles →
  df_loc (reindex <$> trades) key col = Ok (cell row col).
Proof.
  intros Hk Hc. unfold df_loc, trades_getitem.
  rewrite lookup_fmap, Hk. cbn [fmap option_fmap option_map mbind result_bind].
  by rewrite reindex_cell.
Qed.

Lemma tloc_reindex (trades : gmap string dict) (sym : string) :
  tloc (reindex <$> trades) sym = reindex <$> tloc trades sym.
Proof.
  unfold tloc. rewrite map_filter_fmap.
  apply (f_equal (fmap reindex)).
  apply map_filter_ext. intros i x _. cbn [snd].
  by rewrite reindex_cell by column.
Qed.

Lemma tcount_reindex (trades : gmap string dict) (sym : string) :
  tcount (reindex <$> trades) sym = tcount trades sym.
Proof. unfold tcount. by rewrite tloc_reindex, map_size_fmap. Qed.

(** A first row for a ticker that today's trades do not mention. *)
Lemma tloc_insert_first (trades : gmap string dict) (key sym : string)
    (row : dict) :
  tcount trades sym = 0%nat → cell row "ticker" = Str sym →
  tloc (<[key := row]> trades) sym = {[ key := row ]}.
Proof.
  intros Hnone Hticker. unfold tcount in Hnone.
  apply map_size_empty_inv in Hnone. unfold tloc in *.
  rewrite map_filter_insert_True.
  - by rewrite Hnone, insert_empty.
  - cbn [snd]. rewrite Hticker. cbn [py_eq]. apply String.eqb_refl.
Qed.

Lemma series_getitem_reindex (trades : gmap string dict)
    (sym col key : string) (row : dict) :
  tloc trades sym !! key = Some row → col ∈ columnTitles →
  series_getitem (reindex <$> trades) sym col key = Ok (cell row col).
Proof.
  intros Hk Hc. unfold series_getitem, trades_getitem.
  rewrite tloc_reindex, lookup_fmap, Hk.
  cbn [fmap option_fmap option_map mbind result_bind].
  by rewrite reindex_cell.
Qed.

(** ** Closing a covered call *)

Arguments resolve_basis : simpl never.
Arguments stock_row : simpl never.
Arguments option_row : simpl never.

Lemma option_action_close (yespos : list yrow) (sym : string)
    (exe : Execution) (y : yrow) :
  side exe = "BOT" → yloc yespos sym = [y] →
  is_float (y_option_price y) = true → is_float (y_price y) = true →
  option_action yespos sym exe = Ok ("CLOSE CC", y_option_trade_price y).
Proof.
  intros Hside Hy Ho Hp. unfold option_action.
  rewrite Hside, Hy. simpl. by rewrite Ho, Hp.
Qed.

Lemma resolve_basis_close_cc (yespos : list yrow)
    (trades_df : gmap string dict) (sym : string) (v : locals) (y : yrow)
    (otp : value) :
  tcount trades_df sym = 1%nat →
  df_loc trades_df sym "action" = Ok (Str "CLOSE CC") →
  df_loc trades_df sym "option trade price" = Ok otp →
  yloc yespos sym = [y] →
  resolve_basis yespos trades_df sym v
  = Ok (with_option_trade_price otp (with_trade_price (y_trade_price y) v),
        {| rollover_flag := false; sell_CC_flag := false;
           close_CC_flag := true |}).
Proof.
  intros Hn Ha Ho Hy. unfold resolve_basis.
  rewrite Hn, Ha, Hy. simpl. rewrite Ho. reflexivity.
Qed.

(** The first record of a ticker in the portfolio, when it is a stock. *)
Lemma portfolio_step_stock (get_delt : string → string → Z → value)
    (yespos : list yrow) (trades_df : gmap string dict) (account_value : Z)
    (pst : pstate) (ppp : PortfolioItem) (v : locals) (fl : flags)
    (prow : dict) (b : Z) (tp lp : value) :
  ctype (pcontract ppp) = Stock →
  String.eqb (symbol (pcontract ppp)) (prevticker pst) = false →
  resolve_basis yespos trades_df (symbol (pcontract ppp))
    (with_action "OBSERVE" (pvars pst)) = Ok (v, fl) →
  positions pst !! symbol (pcontract ppp) = Some prow →
  prow !! "position bal" = Some (Num b) →
  v_trade_price v = Some tp →
  (if rollover_flag fl || sell_CC_flag fl || close_CC_flag fl
   then Some (Num (marketPrice ppp)) else v_leg_price v) = Some lp →
  numeric lp = true →
  (∃ a, v_action v = Some a) →
  ∃ pst' prow',
    portfolio_step get_delt yespos trades_df account_value pst ppp = Ok pst'
    ∧ positions pst' = <[symbol (pcontract ppp) := prow']> (positions pst)
    ∧ prow' !! "trade price" = Some tp
    ∧ prow' !! "leg price" = Some lp
    ∧ prow' !! "position bal" = Some (Num (marketValue ppp + b)).
Proof.
  intros Hc Hnew Hres Hrow Hbal Htp Hlp Hnum [a Ha].
  unfold portfolio_step. rewrite Hnew. cbn [negb first pvars positions].
  rewrite Hres. cbn [mbind result_bind]. rewrite Hc.
  unfold stock_row, trades_getitem, getitem.
  cbn [pvars pflags positions]. rewrite Hrow. cbn [mbind result_bind].
  rewrite Hbal. cbn [mbind result_bind py_add]. rewrite Htp, Hlp, Ha.
  cbn [read mbind result_bind].
  destruct (py_sub_numeric (Num (marketPrice ppp)) lp eq_refl Hnum)
    as (diff & -> & Hdiff). cbn [mbind result_bind].
  destruct (py_mul_numeric (Num (position ppp)) diff eq_refl Hdiff)
    as (pnl & -> & _). cbn [mbind result_bind].
  eexists _, _. split; [reflexivity|]. cbn [positions].
  split; [reflexivity|].
  repeat split; rewrite lookup_update; reflexivity.
Qed.

(** The first record of a ticker in the portfolio, when it is an option. *)
Lemma portfolio_step_option (get_delt : string → string → Z → value)
    (yespos : list yrow) (trades_df : gmap string dict) (account_value : Z)
    (pst : pstate) (ppp : PortfolioItem) (v : locals) (fl : flags)
    (prow : dict) (b : Z) (otp : value) :
  ctype (pcontract ppp) = Option →
  String.eqb (symbol (pcontract ppp)) (prevticker pst) = false →
  resolve_basis yespos trades_df (symbol (pcontract ppp))
    (with_action "OBSERVE" (pvars pst)) = Ok (v, fl) →
  positions pst !! symbol (pcontract ppp) = Some prow →
  prow !! "position bal" = Some (Num b) →
  v_option_trade_price v = Some otp →
  (∃ a, v_action v = Some a) →
  ∃ pst' prow',
    portfolio_step get_delt yespos trades_df account_value pst ppp = Ok pst'
    ∧ positions pst' = <[symbol (pcontract ppp) := prow']> (positions pst)
    ∧ prow' !! "option trade price" = Some otp
    ∧ prow' !! "position bal" = Some (Num (b + marketValue ppp)).
Proof.
  intros Hc Hnew Hres Hrow Hbal Hotp [a Ha].
  unfold portfolio_step. rewrite Hnew. cbn [negb first pvars positions].
  rewrite Hres. cbn [mbind result_bind]. rewrite Hc.
  unfold option_row, trades_getitem, getitem.
  cbn [pvars pflags positions]. rewrite Hrow. cbn [mbind result_bind].
  rewrite Hbal. cbn [mbind result_bind py_add]. rewrite Hotp, Ha.
  cbn [read mbind result_bind].
  eexists _, _. split; [reflexivity|]. cbn [positions].
  split; [reflexivity|].
  repeat split; rewrite lookup_update; reflexivity.
Qed.

(** C7. When the only trade of a ticker is one option BUY fill and
    yesterday's sheet has exactly one row for the ticker, with option
    price and price filled in, the trade row gets the action CLOSE CC
    and yesterday's option trade price, and no trade price of its own;
    in the portfolio loop the ticker's stock row then gets yesterday's
    trade price and its option row yesterday's option trade price. *)
Theorem close_cc_basis_from_yesterday
    (get_delt : string → string → Z → value) (yespos : list yrow)
    (account_value : Z) (st : tstate) (qqq : Contract) (fill : Fill)
    (y : yrow) (pst : pstate) (ppp : PortfolioItem) (prow : dict) (b : Z) :
  ctype qqq = Option →
  side (execution fill) = "BOT" →
  yloc yespos (symbol qqq) = [y] →
  is_float (y_option_price y) = true →
  is_float (y_price y) = true →
  trades st !! symbol qqq = None →
  tcount (trades st) (symbol qqq) = 0%nat →
  symbol (pcontract ppp) = symbol qqq →
  String.eqb (symbol qqq) (prevticker pst) = false →
  positions pst !! symbol qqq = Some prow →
  prow !! "position bal" = Some (Num b) →
  ∃ st' row,
    process_trade yespos account_value st
      {| contract := qqq; fills := [fill] |} = Ok st'
    ∧ trades st' !! symbol qqq = Some row
    ∧ row !! "action" = Some (Str "CLOSE CC")
    ∧ row !! "option trade price" = Some (y_option_trade_price y)
    ∧ row !! "trade price" = None
    ∧ (ctype (pcontract ppp) = Stock →
       ∃ pst' prow',
         portfolio_step get_delt yespos (reindex <$> trades st')
           account_value pst ppp = Ok pst'
         ∧ positions pst' !! symbol qqq = Some prow'
         ∧ prow' !! "trade price" = Some (y_trade_price y))
    ∧ (ctype (pcontract ppp) = Option →
       ∃ pst' prow',
         portfolio_step get_delt yespos (reindex <$> trades st')
           account_value pst ppp = Ok pst'
         ∧ positions pst' !! symbol qqq = Some prow'
         ∧ prow' !! "option trade price" = Some (y_option_trade_price y)).
Proof.
  intros Hc Hside Hy Hfo Hfp Hnone Hcount Hsym Hnew Hprow Hbal.
  pose (stub := ({[ "ticker" := Str (symbol qqq) ]} : dict)).
  assert (Hstub : ∀ k, k ≠ "ticker" → stub !! k = None)
    by (intros k Hk; by apply lookup_singleton_ne).
  assert (Hticker : stub !! "ticker" = Some (Str (symbol qqq)))
    by apply lookup_singleton_eq.
  pose (st0 := {| trades := <[symbol qqq := stub]> (trades st);
                  vars := vars st |}).
  assert (Hopen : open_row (symbol qqq) st = st0)
    by (unfold open_row; by rewrite Hnone).
  assert (Hst0 : trades st0 !! symbol qqq = Some stub)
    by apply lookup_insert_eq.
  assert (Htr0 : trades st0 = <[symbol qqq := stub]> (trades st))
    by reflexivity.
  clearbody st0 stub.
  assert (Hact : if has_key stub "Underlying size"
                 then ∃ a, stub !! "action" = Some (Str a)
                           ∧ "CLOSE CC" = a +:+ " " +:+ "CLOSE CC"
                 else "CLOSE CC" = "CLOSE CC").
  { rewrite has_key_false; [done|]. apply Hstub. str_ne. }
  assert (Hzero : logged_or_zero stub "Commission" = Ok (Num 0)).
  { unfold logged_or_zero. rewrite has_key_false; [done|].
    apply Hstub. str_ne. }
  pose proof (option_fill_runs yespos account_value qqq st0 fill stub
                "CLOSE CC" "CLOSE CC" (y_option_trade_price y) 0 Hst0
                (option_action_close _ _ _ _ Hside Hy Hfo Hfp) Hact Hzero)
    as Hrun.
  match type of Hrun with
  | _ = Ok {| trades := <[_ := update _ ?lit]> _; vars := ?v |} =>
      set (d := lit) in Hrun; set (v' := v) in Hrun
  end.
  assert (Hd_action : lit_get "action" d = Some (Str "CLOSE CC"))
    by reflexivity.
  assert (Hd_otp : lit_get "option trade price" d
                   = Some (y_option_trade_price y)) by reflexivity.
  assert (Hd_tp : lit_get "trade price" d = None) by reflexivity.
  assert (Hd_ticker : lit_get "ticker" d = None) by reflexivity.
  clearbody d v'.
  set (row := update stub d) in *.
  assert (Hrow_action : row !! "action" = Some (Str "CLOSE CC"))
    by (unfold row; by rewrite lookup_update, Hd_action).
  assert (Hrow_otp : row !! "option trade price"
                     = Some (y_option_trade_price y))
    by (unfold row; by rewrite lookup_update, Hd_otp).
  assert (Hrow_tp : row !! "trade price" = None).
  { unfold row. rewrite lookup_update, Hd_tp. apply Hstub. str_ne. }
  assert (Hrow_ticker : cell row "ticker" = Str (symbol qqq)).
  { unfold cell, row. by rewrite lookup_update, Hd_ticker, Hticker. }
  clearbody row.
  eexists _, row.
  rewrite (process_option_order _ _ _ _ _ Hc), Hopen, Hrun.
  split; [reflexivity|]. cbn [trades].
  rewrite Htr0, insert_insert_eq.
  split; [apply lookup_insert_eq|].
  split; [done|]. split; [done|]. split; [done|].
  set (trades_df := reindex <$> <[symbol qqq := row]> (trades st)).
  assert (Hloc : tloc (<[symbol qqq := row]> (trades st)) (symbol qqq)
                 = {[ symbol qqq := row ]})
    by (by apply tloc_insert_first).
  assert (Hn : tcount trades_df (symbol qqq) = 1%nat).
  { unfold trades_df. rewrite tcount_reindex. unfold tcount.
    rewrite Hloc. apply map_size_singleton. }
  assert (Ha : df_loc trades_df (symbol qqq) "action"
               = Ok (Str "CLOSE CC")).
  { unfold trades_df.
    rewrite (df_loc_reindex _ _ _ row) by (apply lookup_insert_eq || column).
    unfold cell. by rewrite Hrow_action. }
  assert (Ho : df_loc trades_df (symbol qqq) "option trade price"
               = Ok (y_option_trade_price y)).
  { unfold trades_df.
    rewrite (df_loc_reindex _ _ _ row) by (apply lookup_insert_eq || column).
    unfold cell. by rewrite Hrow_otp. }
  clearbody trades_df.
  pose proof (resolve_basis_close_cc yespos trades_df (symbol qqq)
                (with_action "OBSERVE" (pvars pst)) y _ Hn Ha Ho Hy) as Hres.
  rewrite <- Hsym in Hres, Hnew, Hprow.
  split.
  - intros Hstock.
    destruct (portfolio_step_stock get_delt yespos trades_df account_value
                pst ppp _ _ prow b (y_trade_price y) (Num (marketPrice ppp))
                Hstock Hnew Hres Hprow Hbal eq_refl eq_refl eq_refl)
      as (pst' & prow' & Hstep & Hpos & Htp & _); [by eexists|].
    exists pst', prow'. split; [done|]. rewrite Hpos, <- Hsym.
    split; [apply lookup_insert_eq | done].
  - intros Hoption.
    destruct (portfolio_step_option get_delt yespos trades_df account_value
                pst ppp _ _ prow b (y_option_trade_price y)
                Hoption Hnew Hres Hprow Hbal eq_refl)
      as (pst' & prow' & Hstep & Hpos & Hotp & _); [by eexists|].
    exists pst', prow'. split; [done|]. rewrite Hpos, <- Hsym.
    split; [apply lookup_insert_eq | done].
Qed.

Lemma close_cc_basis_from_yesterday_witness :
  ∃ st' row,
    process_trade [held_xyz] 1000 start
      {| contract := call_of "XYZ" "20230721" 55; fills := [buy_to_close] |}
    = Ok st'
    ∧ trades st' !! "XYZ" = Some row
    ∧ row !! "action" = Some (Str "CLOSE CC")
    ∧ row !! "option trade price" = Some (Num 4)
    ∧ row !! "trade price" = None
    ∧ (ctype (pcontract xyz_shares) = Stock →
       ∃ pst' prow',
         portfolio_step no_greeks [held_xyz] (reindex <$> trades st') 1000
           observing_xyz xyz_shares = Ok pst'
         ∧ positions pst' !! "XYZ" = Some prow'
         ∧ prow' !! "trade price" = Some (Num 45))
    ∧ (ctype (pcontract xyz_shares) = Option →
       ∃ pst' prow',
         portfolio_step no_greeks [held_xyz] (reindex <$> trades st') 1000
           observing_xyz xyz_shares = Ok pst'
         ∧ positions pst' !! "XYZ" = Some prow'
         ∧ prow' !! "option trade price" = Some (Num 4)).
Proof.
  apply (close_cc_basis_from_yesterday no_greeks [held_xyz] 1000 start
           (call_of "XYZ" "20230721" 55) buy_to_close held_xyz
           observing_xyz xyz_shares (stub "XYZ" "2023-07-21" "15:00:00") 0).
  - reflexivity.
  - reflexivity.
  - reflexivity.
  - reflexivity.
  - reflexivity.
  - reflexivity.
  - vm_compute. reflexivity.
  - reflexivity.
  - vm_compute. reflexivity.
  - vm_compute. reflexivity.
  - vm_compute. reflexivity.
Defined.

(** ** The position balance *)

Arguments py_add : simpl never.

(** What one record does to the balances. *)
Lemma portfolio_step_bal (get_delt : string → string → Z → value)
    (yespos : list yrow) (trades_df : gmap string dict) (account_value : Z)
    (pst pst' : pstate) (ppp : PortfolioItem) (base : string → Z) :
  bal_known (positions pst) base →
  portfolio_step get_delt yespos trades_df account_value pst ppp = Ok pst' →
  dom (positions pst') = dom (positions pst)
  ∧ bal_known (positions pst')
      (λ s, base s + (if posts ppp && String.eqb (symbol (pcontract ppp)) s
                      then marketValue ppp else 0)).
Proof.
  intros Hbase Hstep. unfold portfolio_step in Hstep.
  apply bind_inv in Hstep as (st1 & Hst1 & Hstep).
  assert (Hpos1 : positions st1 = positions pst).
  { destruct (negb _); cbn [first pvars positions] in Hst1.
    - apply bind_inv in Hst1 as ([v fl] & _ & Hst1).
      by injection Hst1 as <-.
    - destruct (first pst).
      + apply bind_inv in Hst1 as ([v fl] & _ & Hst1).
        by injection Hst1 as <-.
      + by injection Hst1 as <-. }
  rewrite <- Hpos1 in *. clear Hst1 Hpos1.
  unfold posts. destruct (ctype (pcontract ppp)).
  - (* an option *)
    unfold option_row in Hstep.
    apply bind_inv in Hstep as (row & Hrow & Hstep).
    apply bind_inv in Hstep as (b0 & Hb0 & Hstep).
    apply bind_inv in Hstep as (bal & Hbal & Hstep).
    apply bind_inv in Hstep as (otp & _ & Hstep).
    apply bind_inv in Hstep as (a & _ & Hstep).
    injection Hstep as <-. cbn [positions].
    unfold trades_getitem in Hrow.
    destruct (positions st1 !! symbol (pcontract ppp)) as [r|] eqn:Hr;
      [|discriminate]. injection Hrow as ->.
    unfold getitem in Hb0. rewrite (Hbase _ _ Hr) in Hb0.
    injection Hb0 as <-. injection Hbal as <-.
    split.
    + rewrite dom_insert_L. apply set_eq. intros x.
      rewrite elem_of_union, elem_of_singleton, !elem_of_dom.
      split; [intros [->|?]; eauto | eauto].
    + intros s r'. destruct (String.eqb_spec (symbol (pcontract ppp)) s)
        as [<-|Hne]; cbn [andb].
      * rewrite lookup_insert_eq. intros [= <-].
        rewrite lookup_update. reflexivity.
      * rewrite lookup_insert_ne by done. intros Hs.
        rewrite (Hbase _ _ Hs). do 2 f_equal. lia.
  - (* a stock *)
    unfold stock_row in Hstep.
    apply bind_inv in Hstep as (row & Hrow & Hstep).
    apply bind_inv in Hstep as (b0 & Hb0 & Hstep).
    apply bind_inv in Hstep as (bal & Hbal & Hstep).
    apply bind_inv in Hstep as (tp & _ & Hstep).
    apply bind_inv in Hstep as (lp & _ & Hstep).
    apply bind_inv in Hstep as (a & _ & Hstep).
    apply bind_inv in Hstep as (diff & _ & Hstep).
    apply bind_inv in Hstep as (pnl & _ & Hstep).
    injection Hstep as <-. cbn [positions].
    unfold trades_getitem in Hrow.
    destruct (positions st1 !! symbol (pcontract ppp)) as [r|] eqn:Hr;
      [|discriminate]. injection Hrow as ->.
    unfold getitem in Hb0. rewrite (Hbase _ _ Hr) in Hb0.
    injection Hb0 as <-. injection Hbal as <-.
    split.
    + rewrite dom_insert_L. apply set_eq. intros x.
      rewrite elem_of_union, elem_of_singleton, !elem_of_dom.
      split; [intros [->|?]; eauto | eauto].
    + intros s r'. destruct (String.eqb_spec (symbol (pcontract ppp)) s)
        as [<-|Hne]; cbn [andb].
      * rewrite lookup_insert_eq. intros [= <-].
        rewrite lookup_update. cbn [lit_get String.eqb]. do 2 f_equal. lia.
      * rewrite lookup_insert_ne by done. intros Hs.
        rewrite (Hbase _ _ Hs). do 2 f_equal. lia.
  - injection Hstep as <-. split; [done|]. intros s r' Hs.
    rewrite (Hbase _ _ Hs). cbn [andb]. do 2 f_equal. lia.
  - injection Hstep as <-. split; [done|]. intros s r' Hs.
    rewrite (Hbase _ _ Hs). cbn [andb]. do 2 f_equal. lia.
Qed.

Lemma portfolio_pass_bal (get_delt : string → string → Z → value)
    (yespos : list yrow) (trades_df : gmap string dict) (account_value : Z)
    (port : list PortfolioItem) (pst pst' : pstate) (base : string → Z) :
  bal_known (positions pst) base →
  portfolio_pass get_delt yespos trades_df account_value pst port = Ok pst' →
  dom (positions pst') = dom (positions pst)
  ∧ bal_known (positions pst') (λ s, base s + posted port s).
Proof.
  unfold portfolio_pass. revert pst base.
  induction port as [|ppp port IH]; intros pst base Hbase Hrun.
  - injection Hrun as <-. split; [done|]. intros s row Hs.
    rewrite (Hbase _ _ Hs). cbn [posted]. do 2 f_equal. lia.
  - cbn [foldlM] in Hrun. apply bind_inv in Hrun as (pst1 & Hstep & Hrun).
    destruct (portfolio_step_bal _ _ _ _ _ _ _ _ Hbase Hstep)
      as [Hdom1 Hbase1].
    destruct (IH _ _ Hbase1 Hrun) as [Hdom Hbase'].
    split; [congruence|]. intros s row Hs.
    rewrite (Hbase' _ _ Hs). cbn [posted]. do 2 f_equal. lia.
Qed.

Lemma tcount_empty (sym : string) : tcount ∅ sym = 0%nat.
Proof. unfold tcount, tloc. by rewrite map_filter_empty, map_size_empty. Qed.

(** On a day without trades the basis of a ticker with at most one row
    in a typed sheet is resolved, all three names are assigned. *)
Lemma resolve_basis_quiet (yespos : list yrow) (sym : string) (v : locals) :
  Forall (λ y, typed_yrow y = true) yespos →
  (ycount yespos sym ≤ 1)%nat →
  ∃ tp lp otp,
    resolve_basis yespos ∅ sym v
    = Ok ({| v_action := v_action v; v_trade_price := Some tp;
             v_leg_price := Some lp; v_option_trade_price := Some otp |},
          no_flags)
    ∧ numeric lp = true.
Proof.
  intros Hy Hcount. apply (yloc_typed _ sym) in Hy.
  unfold resolve_basis, ycount in *. rewrite tcount_empty.
  cbn [Nat.eqb].
  destruct (yloc yespos sym) as [|y [|y' l]]; cbn [List.length] in *;
    [| |lia].
  - cbn [Nat.eqb]. exists (Num 0), (Num 0), (Num 0). done.
  - cbn [Nat.eqb]. inversion Hy as [|? ? Hty _]; subst.
    exists (y_trade_price y), (y_leg_price y), (y_option_trade_price y).
    split; [reflexivity|]. by apply typed_yrow_leg.
Qed.

Lemma portfolio_step_quiet (get_delt : string → string → Z → value)
    (yespos : list yrow) (account_value : Z) (pst : pstate)
    (ppp : PortfolioItem) (base : string → Z) :
  Forall (λ y, typed_yrow y = true) yespos →
  names_bound pst →
  bal_known (positions pst) base →
  symbol (pcontract ppp) ≠ "not a real ticker" →
  (ycount yespos (symbol (pcontract ppp)) ≤ 1)%nat →
  is_Some (positions pst !! symbol (pcontract ppp)) →
  ∃ pst',
    portfolio_step get_delt yespos ∅ account_value pst ppp = Ok pst'
    ∧ names_bound pst'.
Proof.
  intros Hy Hnames Hbase Hreal Hcount [row Hrow].
  pose proof (Hbase _ _ Hrow) as Hbal.
  unfold portfolio_step.
  (* the names after the head of the iteration *)
  assert (∃ st1,
    (let st := if negb (String.eqb (symbol (pcontract ppp)) (prevticker pst))
               then {| first := true; prevticker := prevticker pst;
                       pvars := with_action "OBSERVE" (pvars pst);
                       pflags := pflags pst; positions := positions pst |}
               else pst in
     if first st
     then resolve_basis yespos ∅ (symbol (pcontract ppp)) (pvars st)
          ≫= (λ '(v, fl), Ok {| first := false;
                                prevticker := symbol (pcontract ppp);
                                pvars := v; pflags := fl;
                                positions := positions st |})
     else Ok st) = Ok st1
    ∧ positions st1 = positions pst
    ∧ first st1 = false
    ∧ pflags st1 = no_flags
    ∧ ∃ a tp lp otp,
        pvars st1 = {| v_action := Some a; v_trade_price := Some tp;
                       v_leg_price := Some lp;
                       v_option_trade_price := Some otp |}
        ∧ numeric lp = true) as (st1 & Hst1 & Hpos & Hfirst & Hfl & Hv).
  { cbv zeta.
    destruct (String.eqb_spec (symbol (pcontract ppp)) (prevticker pst))
      as [Hsame|Hnew]; cbn [negb].
    - destruct Hnames as [[_ Hdummy]|(Hf & a & tp & lp & otp & Hv & Hlp & Hfl)];
        [congruence|].
      rewrite Hf. exists pst. eauto 12.
    - cbn [first pvars positions].
      destruct (resolve_basis_quiet yespos (symbol (pcontract ppp))
                  (with_action "OBSERVE" (pvars pst)) Hy Hcount)
        as (tp & lp & otp & -> & Hlp).
      cbn [mbind result_bind]. eexists. split; [reflexivity|].
      cbn [positions first pflags pvars with_action v_action].
      eauto 12. }
  cbv zeta in Hst1. rewrite Hst1. cbn [mbind result_bind].
  destruct Hv as (a & tp & lp & otp & Hv & Hlp).
  rewrite <- Hpos in Hrow.
  destruct (ctype (pcontract ppp)).
  - unfold option_row, trades_getitem, getitem.
    rewrite Hrow. cbn [mbind result_bind]. rewrite Hbal.
    cbn [mbind result_bind]. rewrite Hv. cbn [v_option_trade_price v_action].
    cbn [read mbind result_bind py_add].
    eexists. split; [reflexivity|]. right.
    cbn [first pvars pflags]. split; [done|]. rewrite Hfl. eauto 10.
  - unfold stock_row, trades_getitem, getitem.
    rewrite Hrow. cbn [mbind result_bind]. rewrite Hbal.
    cbn [mbind result_bind]. rewrite Hv, Hfl.
    cbn [rollover_flag sell_CC_flag close_CC_flag no_flags orb
         v_trade_price v_leg_price v_option_trade_price v_action].
    cbn [read mbind result_bind py_add].
    destruct (py_sub_numeric (Num (marketPrice ppp)) lp eq_refl Hlp)
      as (diff & -> & Hdiff). cbn [mbind result_bind].
    destruct (py_mul_numeric (Num (position ppp)) diff eq_refl Hdiff)
      as (pnl & -> & _). cbn [mbind result_bind].
    eexists. split; [reflexivity|]. right.
    cbn [first pvars pflags]. eauto 12.
  - exists st1. split; [done|]. right. rewrite Hv. eauto 12.
  - exists st1. split; [done|]. right. rewrite Hv. eauto 12.
Qed.

Lemma portfolio_pass_quiet (get_delt : string → string → Z → value)
    (yespos : list yrow) (account_value : Z) (port : list PortfolioItem)
    (pst : pstate) (base : string → Z) :
  Forall (λ y, typed_yrow y = true) yespos →
  names_bound pst →
  bal_known (positions pst) base →
  quiet_snapshot yespos (positions pst) port →
  ∃ pst', portfolio_pass get_delt yespos ∅ account_value pst port = Ok pst'.
Proof.
  intros Hy. unfold portfolio_pass, quiet_snapshot. revert pst base.
  induction port as [|ppp port IH]; intros pst base Hnames Hbase Hport.
  - eexists. reflexivity.
  - inversion Hport as [|? ? (Hreal & Hcount & Hsome) Hrest]; subst.
    destruct (portfolio_step_quiet get_delt yespos account_value pst ppp base
                Hy Hnames Hbase Hreal Hcount Hsome) as (pst1 & Hstep & Hn1).
    cbn [foldlM]. rewrite Hstep. cbn [mbind result_bind].
    destruct (portfolio_step_bal _ _ _ _ _ _ _ _ Hbase Hstep)
      as [Hdom Hbase1].
    eapply IH; [exact Hn1 | exact Hbase1 |].
    eapply Forall_impl; [exact Hrest|].
    intros p (? & ? & Hp). repeat split; try done.
    apply elem_of_dom. rewrite Hdom. by apply elem_of_dom.
Qed.

Lemma stub_bal (sym log_date log_time : string) :
  stub sym log_date log_time !! "position bal" = Some (Num 0).
Proof. unfold stub. rewrite lookup_update. reflexivity. Qed.

Lemma stub_positions_bal (log_date log_time : string) (pos : list string) :
  bal_known (stub_positions log_date log_time pos) (λ _, 0).
Proof.
  unfold stub_positions.
  assert (H : ∀ m : gmap string dict, bal_known m (λ _, 0) →
            bal_known
              (foldl (λ m sym,
                        match m !! sym with
                        | Some _ => m
                        | None => <[sym := stub sym log_date log_time]> m
                        end) m pos) (λ _, 0)).
  { induction pos as [|sym pos IH]; intros m Hm; [done|].
    cbn [foldl]. apply IH. destruct (m !! sym) eqn:Hs; [done|].
    intros s row. destruct (decide (sym = s)) as [->|Hne].
    - rewrite lookup_insert_eq. intros [= <-]. apply stub_bal.
    - rewrite lookup_insert_ne by done. apply Hm. }
  apply H. intros s row Hs. by rewrite lookup_empty in Hs.
Qed.

(** What a stock fill writes as position bal: the cumulated size of the
    row times the price of this fill. *)
Lemma stock_fill_position_bal (yespos : list yrow) (account_value : Z)
    (qqq : Contract) (st st' : tstate) (fill : Fill) :
  stock_fill yespos account_value qqq st fill = Ok st' →
  ∃ row' size bal,
    trades st' !! symbol qqq = Some row'
    ∧ row' !! "Underlying size" = Some size
    ∧ py_mul size (Num (price (execution fill))) = Ok bal
    ∧ row' !! "position bal" = Some bal.
Proof.
  unfold stock_fill. intros H.
  apply bind_inv in H as (row & _ & H).
  apply bind_inv in H as (u & _ & H).
  apply bind_inv in H as (pl & _ & H).
  apply bind_inv in H as (pu & _ & H).
  apply bind_inv in H as (label & _ & H).
  apply bind_inv in H as (starter & _ & H).
  apply bind_inv in H as ([lp tp] & _ & H).
  apply bind_inv in H as (diff & _ & H).
  apply bind_inv in H as (leg_pnl & _ & H).
  apply bind_inv in H as (pl' & _ & H).
  apply bind_inv in H as (pu' & _ & H).
  apply bind_inv in H as (cm & _ & H).
  apply bind_inv in H as (bal & Hbal & H).
  injection H as <-. cbn [trades]. rewrite lookup_insert_eq.
  eexists _, u, bal. split; [reflexivity|].
  repeat split; try done; rewrite lookup_update; reflexivity.
Qed.

(** The code at a stock order filled in two parts, 50 at 10 and 50 at
    11: the row's position bal is 100 times 11, not 500 plus 550. *)
Lemma position_bal_overwritten :
  logged (process_trades [] 1000 start [buy_in_two_fills])
         "XYZ" "position bal" = Some (Num 1100)
  ∧ ¬ position_bal_is_sum [] 1000 buy_in_two_fills.
Proof.
  assert (E : logged (process_trades [] 1000 start [buy_in_two_fills])
                     "XYZ" "position bal" = Some (Num 1100))
    by (vm_compute; reflexivity).
  split; [done|]. unfold position_bal_is_sum.
  change (symbol (contract buy_in_two_fills)) with "XYZ".
  rewrite E. vm_compute. intros [=].
Qed.

(** C4, as the code has it. In the portfolio loop the position bal of a
    ticker's row is, after any number of records, its value before the
    loop plus the sum of the market values of the stock and option
    records posted to the row so far: each record adds to what is there.
    The loop returns on every snapshot of a day without trades whose
    tickers have at most one row in a typed sheet.  In the trade loop a
    stock fill does not add: it sets position bal to the cumulated size
    of the row times the price of that fill. *)
Theorem position_bal_accumulates_in_portfolio
    (get_delt : string → string → Z → value) (yespos : list yrow)
    (trades_df : gmap string dict) (account_value : Z)
    (port : list PortfolioItem) (pst : pstate) (base : string → Z) :
  bal_known (positions pst) base →
  (∀ pst',
     portfolio_pass get_delt yespos trades_df account_value pst port
     = Ok pst' →
     dom (positions pst') = dom (positions pst)
     ∧ bal_known (positions pst') (λ s, base s + posted port s))
  ∧ (Forall (λ y, typed_yrow y = true) yespos →
     names_bound pst →
     quiet_snapshot yespos (positions pst) port →
     ∃ pst',
       portfolio_pass get_delt yespos ∅ account_value pst port = Ok pst')
  ∧ (∀ qqq st st' fill,
       stock_fill yespos account_value qqq st fill = Ok st' →
       ∃ row' size bal,
         trades st' !! symbol qqq = Some row'
         ∧ row' !! "Underlying size" = Some size
         ∧ py_mul size (Num (price (execution fill))) = Ok bal
         ∧ row' !! "position bal" = Some bal).
Proof.
  intros Hbase. split; [|split].
  - intros pst' Hrun. by eapply portfolio_pass_bal.
  - intros Hy Hnames Hquiet. by eapply portfolio_pass_quiet.
  - intros qqq st st' fill. apply stock_fill_position_bal.
Qed.

Lemma position_bal_accumulates_in_portfolio_witness :
  ∃ pst',
    portfolio_pass no_greeks [held_abc] ∅ 1000
      (portfolio_start no_locals
         (stub_positions "2023-07-21" "15:00:00" ["ABC"]))
      [abc_shares; abc_call] = Ok pst'
    ∧ bal_known (positions pst')
        (λ s, 0 + posted [abc_shares; abc_call] s).
Proof.
  pose proof (position_bal_accumulates_in_portfolio no_greeks [held_abc] ∅
                1000 [abc_shares; abc_call]
                (portfolio_start no_locals
                   (stub_positions "2023-07-21" "15:00:00" ["ABC"]))
                (λ _, 0) (stub_positions_bal _ _ _)) as (Hsum & Hruns & _).
  destruct Hruns as [pst' Hrun].
  - repeat constructor.
  - left. split; reflexivity.
  - assert (Hitem : ∀ ppp, symbol (pcontract ppp) = "ABC" →
              symbol (pcontract ppp) ≠ "not a real ticker"
              ∧ (ycount [held_abc] (symbol (pcontract ppp)) ≤ 1)%nat
              ∧ is_Some (positions
                           (portfolio_start no_locals
                              (stub_positions "2023-07-21" "15:00:00" ["ABC"]))
                         !! symbol (pcontract ppp))).
    { intros ppp ->. split; [str_ne|]. split; [vm_compute; lia|].
      eexists. vm_compute. reflexivity. }
    constructor; [by apply Hitem|]. constructor; [by apply Hitem|].
    constructor.
  - exists pst'. split; [exact Hrun|]. by apply Hsum.
Defined.

(** * Further properties of the recorder *)

(** ** The trade loop on stock and option orders *)

Lemma ledger_row_inv (row : dict) :
  ledger_row row = true →
  num_or_absent row "Underlying size" = true
  ∧ numeric_or_absent row "P/L underlying leg" = true
  ∧ num_or_absent row "P/L underlying" = true
  ∧ num_or_absent row "Commission" = true
  ∧ (has_key row "Option size" = true ∨ has_key row "Underlying size" = true →
     ∃ a, row !! "action" = Some (Str a)).
Proof.
  unfold ledger_row. rewrite !andb_true_iff.
  intros ((((H1 & H2) & H3) & H4) & H5). repeat split; try done.
  intros Hk.
  assert (has_key row "Option size" || has_key row "Underlying size" = true)
    as Hor by (apply orb_true_iff; tauto).
  rewrite Hor in H5. destruct (row !! "action") as [[| |a]|]; try discriminate.
  eauto.
Qed.

Lemma num_or_absent_logged (row : dict) (k : string) :
  num_or_absent row k = true →
  logged_or_zero row k = Ok (Num (amount row k)).
Proof.
  unfold num_or_absent, logged_or_zero, amount, getitem.
  destruct (row !! k) as [[z| |s]|] eqn:Hk; try discriminate; intros _.
  - by rewrite (has_key_true _ _ _ Hk).
  - by rewrite (has_key_false _ _ Hk).
Qed.

Lemma num_or_absent_size (row : dict) (this : Z) :
  num_or_absent row "Underlying size" = true →
  (if has_key row "Underlying size"
   then getitem row "Underlying size" ≫= (λ logged, py_add logged (Num this))
   else Ok (Num this))
  = Ok (Num (amount row "Underlying size" + this)).
Proof.
  unfold num_or_absent, amount, getitem.
  destruct (row !! "Underlying size") as [[z| |s]|] eqn:Hk;
    try discriminate; intros _.
  - by rewrite (has_key_true _ _ _ Hk).
  - by rewrite (has_key_false _ _ Hk).
Qed.

Lemma ledger_row_stub (sym : string) :
  ledger_row {[ "ticker" := Str sym ]} = true.
Proof.
  unfold ledger_row, num_or_absent, numeric_or_absent.
  rewrite !lookup_singleton_ne by str_ne.
  rewrite !has_key_stub by str_ne. reflexivity.
Qed.

Lemma num_or_absent_update (row : dict) (d : list (string * value))
    (k : string) :
  num_or_absent (update row d) k =
  match lit_get k d with
  | Some (Num _) => true
  | Some _ => false
  | None => num_or_absent row k
  end.
Proof.
  unfold num_or_absent. rewrite lookup_update. by destruct (lit_get k d).
Qed.

Lemma numeric_or_absent_update (row : dict) (d : list (string * value))
    (k : string) :
  numeric_or_absent (update row d) k =
  match lit_get k d with
  | Some v => numeric v
  | None => numeric_or_absent row k
  end.
Proof.
  unfold numeric_or_absent. rewrite lookup_update. by destruct (lit_get k d).
Qed.

(** One stock fill on a row of the trade loop. *)
Lemma stock_fill_ledger (yespos : list yrow) (account_value : Z)
    (qqq : Contract) (st : tstate) (fill : Fill) (row : dict) :
  Forall (λ y, typed_yrow y = true) yespos →
  trades st !! symbol qqq = Some row →
  ledger_row row = true →
  ∃ st' row',
    stock_fill yespos account_value qqq st fill = Ok st'
    ∧ trades st' = <[symbol qqq := row']> (trades st)
    ∧ ledger_row row' = true
    ∧ row' !! "Underlying size"
      = Some (Num (amount row "Underlying size" + signed_shares fill))
    ∧ row' !! "Commission"
      = Some (Num (amount row "Commission"
                   + commission (commissionReport fill)))
    ∧ row' !! "P/L underlying"
      = Some (Num (amount row "P/L underlying"
                   + realizedPNL (commissionReport fill)))
    ∧ row' !! "position bal"
      = Some (Num ((amount row "Underlying size" + signed_shares fill)
                   * price (execution fill)))
    ∧ (∀ k, k ∉ stock_columns → row' !! k = row !! k).
Proof.
  intros Hy Hrow Hledger.
  destruct (ledger_row_inv _ Hledger) as (Hsize & Hleg & Hpl & Hcomm & Hact).
  unfold stock_fill, trades_getitem. rewrite Hrow.
  cbn [mbind result_bind]. cbv zeta.
  fold (signed_shares fill).
  rewrite (num_or_absent_size _ _ Hsize). cbn [mbind result_bind].
  destruct (logged_or_zero_numeric _ _ Hleg) as (pl & -> & Hplv).
  cbn [mbind result_bind].
  rewrite (num_or_absent_logged _ _ Hpl). cbn [mbind result_bind].
  assert (∃ label,
            (if has_key row "Option size"
             then getitem row "action" ≫= (λ logged,
                    as_str logged ≫= (λ s,
                      Ok (side (execution fill) +:+ " " +:+ s)))
             else Ok (side (execution fill))) = Ok label) as (label & ->).
  { destruct (has_key row "Option size") eqn:Hk; [|eauto].
    destruct Hact as (a & Ha); [by left|].
    unfold getitem. rewrite Ha. cbn. eauto. }
  cbn [mbind result_bind].
  rewrite (num_or_absent_logged _ _ Hcomm). cbn [mbind result_bind].
  destruct (stock_basis_typed yespos (symbol qqq) (execution fill)
              (Num (amount row "Underlying size" + signed_shares fill)) Hy)
    as (lp & tp & -> & Hlp & Htp).
  cbn [mbind result_bind].
  destruct (py_sub_numeric (Num (price (execution fill))) lp eq_refl Hlp)
    as (diff & -> & Hdiff). cbn [mbind result_bind].
  destruct (py_mul_numeric diff (Num (shares (execution fill))) Hdiff eq_refl)
    as (leg_pnl & -> & Hleg_pnl). cbn [mbind result_bind].
  destruct (py_add_numeric pl leg_pnl Hplv Hleg_pnl) as (pl' & -> & Hpl').
  cbn [mbind result_bind]. unfold py_add at 1 2, py_mul.
  cbn [mbind result_bind].
  eexists _, _. split; [reflexivity|]. cbn [trades].
  split; [reflexivity|].
  split.
  { unfold ledger_row.
    rewrite !num_or_absent_update, numeric_or_absent_update,
      !has_key_update, lookup_update.
    cbn [lit_get stock_literal String.eqb Ascii.eqb Bool.eqb andb].
    rewrite Hpl', orb_true_r. reflexivity. }
  repeat split; try (rewrite lookup_update; reflexivity).
  intros k Hk. rewrite lookup_update, lit_get_None; [done|].
  by rewrite stock_literal_columns.
Qed.

(** One option fill on a row of the trade loop. *)
Lemma option_fill_ledger (yespos : list yrow) (account_value : Z)
    (qqq : Contract) (st : tstate) (fill : Fill) (row : dict) :
  trades st !! symbol qqq = Some row →
  ledger_row row = true →
  ∃ st' row' label otp,
    option_action yespos (symbol qqq) (execution fill) = Ok (label, otp)
    ∧ option_fill yespos account_value qqq st fill = Ok st'
    ∧ trades st' = <[symbol qqq := row']> (trades st)
    ∧ ledger_row row' = true
    ∧ row' !! "Commission"
      = Some (Num (amount row "Commission"
                   + commission (commissionReport fill)))
    ∧ row' !! "Option size"
      = Some (Num (if (side (execution fill) =? "SLD")%string
                   then shares (execution fill) * -1
                   else shares (execution fill)))
    ∧ row' !! "P/L option" = Some (Num (realizedPNL (commissionReport fill)))
    ∧ row' !! "option trade price" = Some otp
    ∧ (∀ k, k ∉ option_columns → row' !! k = row !! k).
Proof.
  intros Hrow Hledger.
  destruct (ledger_row_inv _ Hledger) as (Hsize & Hleg & Hpl & Hcomm & Hact).
  destruct (option_action_total yespos (symbol qqq) (execution fill))
    as (label & otp & Hlabel).
  assert (∃ label',
            if has_key row "Underlying size"
            then ∃ a, row !! "action" = Some (Str a)
                      ∧ label' = a +:+ " " +:+ label
            else label' = label) as (label' & Hlabel').
  { destruct (has_key row "Underlying size") eqn:Hk; [|eauto].
    destruct Hact as (a & Ha); [by right|]. eauto. }
  pose proof (option_fill_runs yespos account_value qqq st fill row label
                label' otp (amount row "Commission") Hrow Hlabel Hlabel'
                (num_or_absent_logged _ _ Hcomm)) as Hrun.
  eexists _, _, label, otp. split; [exact Hlabel|].
  split; [exact Hrun|]. cbn [trades]. split; [reflexivity|].
  split.
  { unfold ledger_row.
    rewrite !num_or_absent_update, numeric_or_absent_update,
      !has_key_update, lookup_update.
    cbn [lit_get option_literal String.eqb Ascii.eqb Bool.eqb andb orb].
    rewrite Hsize, Hleg, Hpl. reflexivity. }
  repeat split; try (rewrite lookup_update; reflexivity).
  intros k Hk. rewrite lookup_update, lit_get_None; [done|].
  by rewrite option_literal_columns.
Qed.

Lemma ledger_all_insert (trades : gmap string dict) (key : string)
    (row : dict) :
  ledger_all trades → ledger_row row = true →
  ledger_all (<[key := row]> trades).
Proof.
  intros Hall Hrow k r. destruct (decide (key = k)) as [->|Hne].
  - rewrite lookup_insert_eq. by intros [= <-].
  - rewrite lookup_insert_ne by done. apply Hall.
Qed.

(** All the fills of a stock order. *)
Lemma stock_fills_ledger (yespos : list yrow) (account_value : Z)
    (qqq : Contract) (fs : list Fill) (st : tstate) (row : dict) :
  Forall (λ y, typed_yrow y = true) yespos →
  trades st !! symbol qqq = Some row →
  ledger_row row = true →
  ∃ st' row',
    foldlM (stock_fill yespos account_value qqq) st fs = Ok st'
    ∧ trades st' = <[symbol qqq := row']> (trades st)
    ∧ ledger_row row' = true
    ∧ amount row' "Underlying size"
      = amount row "Underlying size" + sum_of signed_shares fs
    ∧ amount row' "Commission"
      = amount row "Commission"
        + sum_of (λ f, commission (commissionReport f)) fs
    ∧ amount row' "P/L underlying"
      = amount row "P/L underlying"
        + sum_of (λ f, realizedPNL (commissionReport f)) fs
    ∧ (∀ k, k ∉ stock_columns → row' !! k = row !! k)
    ∧ (counted row ∨ fs ≠ [] → counted row').
Proof.
  intros Hy. revert st row.
  induction fs as [|f fs IH]; intros st row Hrow Hledger.
  - exists st, row. cbn [foldlM sum_of foldr].
    rewrite insert_id by done. rewrite !Z.add_0_r.
    do 7 (split; [done|]). intros [H|H]; [done|]. exfalso. by apply H.
  - destruct (stock_fill_ledger yespos account_value qqq st f row Hy Hrow
                Hledger)
      as (st1 & row1 & Hrun & Htr & Hl1 & Hsz & Hcm & Hpl & _ & Hkeep).
    assert (Hrow1 : trades st1 !! symbol qqq = Some row1)
      by (rewrite Htr; apply lookup_insert_eq).
    destruct (IH st1 row1 Hrow1 Hl1)
      as (st' & row' & Hrun' & Htr' & Hl' & Hsz' & Hcm' & Hpl' & Hkeep'
          & Hcounted).
    exists st', row'. cbn [foldlM]. rewrite Hrun. cbn [mbind result_bind].
    split; [exact Hrun'|].
    split; [by rewrite Htr', Htr, insert_insert_eq|].
    split; [done|].
    assert (Hc1 : counted row1) by (unfold counted; rewrite Hsz, Hcm, Hpl; eauto).
    unfold amount in Hsz', Hcm', Hpl' |- * at 1 3 5.
    rewrite Hsz, Hcm, Hpl in *. cbn [sum_of foldr].
    fold (sum_of signed_shares fs).
    fold (sum_of (λ f, commission (commissionReport f)) fs).
    fold (sum_of (λ f, realizedPNL (commissionReport f)) fs).
    repeat split; try lia.
    + intros k Hk. rewrite Hkeep' by done. by apply Hkeep.
    + apply Hcounted. by left.
    + apply Hcounted. by left.
    + apply Hcounted. by left.
Qed.

Lemma counted_amount (row : dict) (k : string) :
  num_or_absent row k = true → is_Some (row !! k) →
  row !! k = Some (Num (amount row k)).
Proof.
  unfold num_or_absent, amount. intros Hn [v Hv]. rewrite Hv in *.
  by destruct v.
Qed.

(** All the fills of an option order. *)
Lemma option_fills_ledger (yespos : list yrow) (account_value : Z)
    (qqq : Contract) (fs : list Fill) (st : tstate) (row : dict) :
  trades st !! symbol qqq = Some row →
  ledger_row row = true →
  ∃ st' row',
    foldlM (option_fill yespos account_value qqq) st fs = Ok st'
    ∧ trades st' = <[symbol qqq := row']> (trades st)
    ∧ ledger_row row' = true
    ∧ amount row' "Commission"
      = amount row "Commission"
        + sum_of (λ f, commission (commissionReport f)) fs
    ∧ (∀ k, k ∉ option_columns → row' !! k = row !! k)
    ∧ (fs ≠ [] → is_Some (row' !! "Commission")).
Proof.
  revert st row.
  induction fs as [|f fs IH]; intros st row Hrow Hledger.
  - exists st, row. cbn [foldlM sum_of foldr].
    rewrite insert_id by done. rewrite !Z.add_0_r.
    do 5 (split; [done|]). intros H. exfalso. by apply H.
  - destruct (option_fill_ledger yespos account_value qqq st f row Hrow
                Hledger)
      as (st1 & row1 & label & otp & _ & Hrun & Htr & Hl1 & Hcm & _ & _ & _
          & Hkeep).
    assert (Hrow1 : trades st1 !! symbol qqq = Some row1)
      by (rewrite Htr; apply lookup_insert_eq).
    destruct (IH st1 row1 Hrow1 Hl1)
      as (st' & row' & Hrun' & Htr' & Hl' & Hcm' & Hkeep' & Hsome).
    exists st', row'. cbn [foldlM]. rewrite Hrun. cbn [mbind result_bind].
    split; [exact Hrun'|].
    split; [by rewrite Htr', Htr, insert_insert_eq|].
    split; [done|].
    split.
    { rewrite Hcm'. unfold amount at 1. rewrite Hcm. cbn [sum_of foldr].
      fold (sum_of (λ f, commission (commissionReport f)) fs). lia. }
    split.
    { intros k Hk. rewrite Hkeep' by done. by apply Hkeep. }
    intros _. destruct fs as [|f' fs'].
    + cbn [foldlM] in Hrun'. injection Hrun' as <-.
      rewrite Htr' in Hrow1. rewrite lookup_insert_eq in Hrow1.
      injection Hrow1 as ->. rewrite Hcm. eauto.
    + by apply Hsome.
Qed.

Lemma open_row_ledger (sym : string) (st : tstate) :
  ledger_all (trades st) →
  ∃ row, trades (open_row sym st) !! sym = Some row
         ∧ ledger_row row = true
         ∧ ledger_all (trades (open_row sym st))
         ∧ (∀ k, amount row k = prior st sym k)
         ∧ (∀ key, key ≠ sym →
              trades (open_row sym st) !! key = trades st !! key).
Proof.
  intros Hall. unfold open_row, prior.
  destruct (trades st !! sym) as [row|] eqn:Hs.
  - exists row. split; [done|]. split; [by eapply Hall|]. done.
  - exists {[ "ticker" := Str sym ]}. cbn [trades].
    split; [apply lookup_insert_eq|].
    split; [apply ledger_row_stub|].
    split; [apply ledger_all_insert; [done | apply ledger_row_stub]|].
    split.
    + intros k. unfold amount.
      destruct (decide (k = "ticker")) as [->|Hne].
      * by rewrite lookup_singleton_eq.
      * by rewrite lookup_singleton_ne.
    + intros key Hne. by rewrite lookup_insert_ne.
Qed.

Lemma ledger_all_start : ledger_all (trades start).
Proof. intros key row Hk. cbn [start trades] in Hk. by rewrite lookup_empty in Hk. Qed.

(** X1. A stock order sums its fills into the ticker's row: on a typed
    sheet, whatever today's trades hold so far, the order is logged
    without an exception, and the row's underlying size, commission and
    realized P&L are what was there before plus the sums over the fills
    (sizes signed, sales negative); the other rows are untouched. *)
Theorem stock_order_accumulates (yespos : list yrow) (account_value : Z)
    (st : tstate) (qqq : Contract) (fs : list Fill) :
  Forall (λ y, typed_yrow y = true) yespos →
  ledger_all (trades st) →
  ctype qqq = Stock →
  fs ≠ [] →
  ∃ st' row',
    process_trade yespos account_value st {| contract := qqq; fills := fs |}
    = Ok st'
    ∧ trades st' !! symbol qqq = Some row'
    ∧ row' !! "Underlying size"
      = Some (Num (prior st (symbol qqq) "Underlying size"
                   + sum_of signed_shares fs))
    ∧ row' !! "Commission"
      = Some (Num (prior st (symbol qqq) "Commission"
                   + sum_of (λ f, commission (commissionReport f)) fs))
    ∧ row' !! "P/L underlying"
      = Some (Num (prior st (symbol qqq) "P/L underlying"
                   + sum_of (λ f, realizedPNL (commissionReport f)) fs))
    ∧ (∀ key, key ≠ symbol qqq → trades st' !! key = trades st !! key)
    ∧ ledger_all (trades st').
Proof.
  intros Hy Hall Hc Hfs.
  destruct (open_row_ledger (symbol qqq) st Hall)
    as (row & Hrow & Hledger & Hall0 & Hprior & Hother).
  destruct (stock_fills_ledger yespos account_value qqq fs _ row Hy Hrow
              Hledger)
    as (st' & row' & Hrun & Htr & Hl' & Hsz & Hcm & Hpl & _ & Hcounted).
  destruct (Hcounted (or_intror Hfs)) as (Hs1 & Hs2 & Hs3).
  destruct (ledger_row_inv _ Hl') as (Hn1 & _ & Hn3 & Hn4 & _).
  exists st', row'. unfold process_trade. cbn [contract fills].
  rewrite Hc. split; [exact Hrun|]. rewrite Htr.
  split; [apply lookup_insert_eq|].
  rewrite (counted_amount _ _ Hn1 Hs1), (counted_amount _ _ Hn4 Hs2),
    (counted_amount _ _ Hn3 Hs3), Hsz, Hcm, Hpl, !Hprior.
  repeat split.
  - intros key Hne. rewrite lookup_insert_ne by done. by apply Hother.
  - by apply ledger_all_insert.
Qed.

Lemma stock_order_accumulates_witness :
  ∃ st' row',
    process_trade [held_xyz] 1000 start sale_in_two_fills = Ok st'
    ∧ trades st' !! "XYZ" = Some row'
    ∧ row' !! "Underlying size" = Some (Num (0 + (-60 + (-40 + 0))))
    ∧ row' !! "Commission" = Some (Num (0 + (100 + (50 + 0))))
    ∧ row' !! "P/L underlying" = Some (Num (0 + (10 + (5 + 0))))
    ∧ (∀ key, key ≠ "XYZ" → trades st' !! key = trades start !! key)
    ∧ ledger_all (trades st').
Proof.
  apply (stock_order_accumulates [held_xyz] 1000 start (stock_of "XYZ")
           (fills sale_in_two_fills)).
  - repeat constructor.
  - apply ledger_all_start.
  - reflexivity.
  - discriminate.
Defined.

(** X2. An option order sums the commissions of its fills into the
    ticker's row, on top of what the row held; it never raises. *)
Theorem option_order_accumulates_commission (yespos : list yrow)
    (account_value : Z) (st : tstate) (qqq : Contract) (fs : list Fill) :
  ledger_all (trades st) →
  ctype qqq = Option →
  fs ≠ [] →
  ∃ st' row',
    process_trade yespos account_value st {| contract := qqq; fills := fs |}
    = Ok st'
    ∧ trades st' !! symbol qqq = Some row'
    ∧ row' !! "Commission"
      = Some (Num (prior st (symbol qqq) "Commission"
                   + sum_of (λ f, commission (commissionReport f)) fs))
    ∧ (∀ key, key ≠ symbol qqq → trades st' !! key = trades st !! key)
    ∧ ledger_all (trades st').
Proof.
  intros Hall Hc Hfs.
  destruct (open_row_ledger (symbol qqq) st Hall)
    as (row & Hrow & Hledger & Hall0 & Hprior & Hother).
  destruct (option_fills_ledger yespos account_value qqq fs _ row Hrow
              Hledger)
    as (st' & row' & Hrun & Htr & Hl' & Hcm & _ & Hsome).
  destruct (ledger_row_inv _ Hl') as (_ & _ & _ & Hn4 & _).
  exists st', row'. unfold process_trade. cbn [contract fills].
  rewrite Hc. split; [exact Hrun|]. rewrite Htr.
  split; [apply lookup_insert_eq|].
  rewrite (counted_amount _ _ Hn4 (Hsome Hfs)), Hcm, Hprior.
  repeat split.
  - intros key Hne. rewrite lookup_insert_ne by done. by apply Hother.
  - by apply ledger_all_insert.
Qed.

Lemma option_order_accumulates_commission_witness :
  ∃ st' row',
    process_trade [held_xyz] 1000 start close_in_two_fills = Ok st'
    ∧ trades st' !! "XYZ" = Some row'
    ∧ row' !! "Commission" = Some (Num (0 + (100 + (50 + 0))))
    ∧ (∀ key, key ≠ "XYZ" → trades st' !! key = trades start !! key)
    ∧ ledger_all (trades st').
Proof.
  apply (option_order_accumulates_commission [held_xyz] 1000 start
           (call_of "XYZ" "20230721" 55) (fills close_in_two_fills)).
  - apply ledger_all_start.
  - reflexivity.
  - discriminate.
Defined.

Lemma process_trade_plain (yespos : list yrow) (account_value : Z)
    (st : tstate) (t : Trade) :
  Forall (λ y, typed_yrow y = true) yespos →
  ledger_all (trades st) →
  plain_order t = true →
  ∃ st', process_trade yespos account_value st t = Ok st'
         ∧ ledger_all (trades st').
Proof.
  intros Hy Hall Hplain. unfold plain_order in Hplain.
  destruct (open_row_ledger (symbol (contract t)) st Hall)
    as (row & Hrow & Hledger & Hall0 & _ & _).
  unfold process_trade.
  destruct (ctype (contract t)); try discriminate.
  - destruct (option_fills_ledger yespos account_value (contract t) (fills t)
                _ row Hrow Hledger) as (st' & row' & Hrun & Htr & Hl' & _).
    exists st'. split; [exact Hrun|]. rewrite Htr.
    by apply ledger_all_insert.
  - destruct (stock_fills_ledger yespos account_value (contract t) (fills t)
                _ row Hy Hrow Hledger) as (st' & row' & Hrun & Htr & Hl' & _).
    exists st'. split; [exact Hrun|]. rewrite Htr.
    by apply ledger_all_insert.
Qed.

(** X3. On a sheet whose number columns hold floats or nothing, the
    trade loop goes through any list of stock and option orders without
    an exception, from any state it can have reached, and leaves rows of
    the same shape. *)
Theorem trade_loop_runs_on_plain_orders (yespos : list yrow)
    (account_value : Z) (trds : list Trade) (st : tstate) :
  Forall (λ y, typed_yrow y = true) yespos →
  ledger_all (trades st) →
  Forall (λ t, plain_order t = true) trds →
  ∃ st', process_trades yespos account_value st trds = Ok st'
         ∧ ledger_all (trades st').
Proof.
  intros Hy. unfold process_trades. revert st.
  induction trds as [|t trds IH]; intros st Hall Hplain.
  - exists st. done.
  - inversion Hplain as [|? ? Ht Hrest]; subst.
    destruct (process_trade_plain yespos account_value st t Hy Hall Ht)
      as (st1 & Hrun & Hall1).
    cbn [foldlM]. rewrite Hrun. cbn [mbind result_bind]. by apply IH.
Qed.

Lemma trade_loop_runs_on_plain_orders_witness :
  ∃ st', process_trades [held_xyz] 1000 start
           [morning_buy; later_write; sale_in_two_fills] = Ok st'
         ∧ ledger_all (trades st').
Proof.
  apply (trade_loop_runs_on_plain_orders [held_xyz] 1000
           [morning_buy; later_write; sale_in_two_fills] start).
  - repeat constructor.
  - apply ledger_all_start.
  - repeat constructor.
Defined.

(** ** Bag orders *)

Ltac not_col :=
  unfold bag_option_columns, bag_stock_columns, stock_columns, option_columns;
  repeat (apply not_elem_of_cons; split; [str_ne|]); apply not_elem_of_nil.

(** The stock leg of a Bag order when it is a purchase. *)
Lemma bag_stock_leg_buy (yespos : list yrow) (account_value : Z)
    (qqq : Contract) (st : tstate) (c p : Z) (fill : Fill) (a : string)
    (row : dict) :
  v_action (vars st) = Some a →
  side (execution fill) = "BOT" →
  trades st !! symbol qqq = Some row →
  ∃ st' row',
    bag_stock_leg yespos account_value qqq (st, c, p) fill
    = Ok (st', c + commission (commissionReport fill),
          p + shares (execution fill) * price (execution fill))
    ∧ trades st' = <[symbol qqq := row']> (trades st)
    ∧ v_action (vars st') = Some a
    ∧ row' !! "action" = Some (Str a)
    ∧ row' !! "Underlying size" = Some (Num (shares (execution fill)))
    ∧ row' !! "trade price" = Some (Num (price (execution fill)))
    ∧ row' !! "leg price" = Some (Num (price (execution fill)))
    ∧ row' !! "Commission"
      = Some (Num (c + commission (commissionReport fill)))
    ∧ row' !! "position bal"
      = Some (Num (p + shares (execution fill) * price (execution fill)))
    ∧ (∀ k, k ∉ bag_stock_columns → row' !! k = row !! k).
Proof.
  intros Ha Hside Hrow. unfold bag_stock_leg, trades_getitem.
  rewrite Ha, Hside, Hrow. cbn [read mbind result_bind String.eqb].
  cbn -[update]. eexists _, _. split; [reflexivity|].
  cbn [trades vars v_action]. split; [reflexivity|]. split; [reflexivity|].
  repeat split; try (rewrite lookup_update; reflexivity).
  intros k Hk. rewrite lookup_update, lit_get_None; done.
Qed.

(** The option leg of a Bag order that is not a rollover. *)
Lemma bag_option_leg_plain (yespos : list yrow) (account_value : Z)
    (qqq : Contract) (st : tstate) (c p : Z) (fill : Fill) (a : string)
    (row : dict) :
  v_action (vars st) = Some a →
  String.prefix "ROLLOVER" a = false →
  trades st !! symbol qqq = Some row →
  ∃ st' row',
    bag_option_leg yespos account_value qqq (st, c, p) fill
    = Ok (st',
          (if String.eqb a "BUY WRITE"
           then c + commission (commissionReport fill)
           else commission (commissionReport fill)),
          p + option_leg_value fill)
    ∧ trades st' = <[symbol qqq := row']> (trades st)
    ∧ v_action (vars st') = Some a
    ∧ row' !! "action" = Some (Str a)
    ∧ row' !! "Option size" = Some (Num (option_size fill))
    ∧ row' !! "option trade price" = Some (Num (price (execution fill)))
    ∧ row' !! "Commission"
      = Some (Num (if String.eqb a "BUY WRITE"
                   then c + commission (commissionReport fill)
                   else commission (commissionReport fill)))
    ∧ row' !! "position bal" = Some (Num (p + option_leg_value fill))
    ∧ (∀ k, k ∉ bag_option_columns → row' !! k = row !! k).
Proof.
  intros Ha Hpre Hrow. unfold bag_option_leg, trades_getitem.
  unfold option_leg_value, option_size.
  rewrite Ha. cbn [read mbind result_bind]. rewrite Hpre.
  destruct (side (execution fill) =? "SLD")%string;
    cbn [mbind result_bind]; rewrite Hrow; cbn [mbind result_bind];
    (eexists _, _; split; [reflexivity|]);
    cbn [trades vars v_action];
    (split; [reflexivity|]); (split; [reflexivity|]);
    (repeat split; try (rewrite lookup_update; reflexivity));
    intros k Hk; rewrite lookup_update, lit_get_None; done.
Qed.

(** X4. A Bag order classified BUY WRITE whose fills are a stock purchase
    and an option leg, in either order, on a ticker without a row yet,
    is merged into one row: action BUY WRITE, the stock's size and
    prices, the option's signed size and price, the commissions of both
    legs summed and the position bal equal to the value of the stock
    plus the (negative, when written) value of the option leg. *)
Theorem buy_write_merges_one_row (yespos : list yrow) (account_value : Z)
    (st : tstate) (qqq : Contract) (stock_leg option_leg : Fill)
    (fs : list Fill) :
  ctype qqq = Bag →
  combo_action qqq = Ok "BUY WRITE" →
  ctype (fill_contract stock_leg) = Stock →
  side (execution stock_leg) = "BOT" →
  ctype (fill_contract option_leg) = Option →
  fs = [stock_leg; option_leg] ∨ fs = [option_leg; stock_leg] →
  trades st !! symbol qqq = None →
  ∃ st' row,
    process_trade yespos account_value st {| contract := qqq; fills := fs |}
    = Ok st'
    ∧ dom (trades st') = {[ symbol qqq ]} ∪ dom (trades st)
    ∧ trades st' !! symbol qqq = Some row
    ∧ row !! "action" = Some (Str "BUY WRITE")
    ∧ row !! "Underlying size" = Some (Num (shares (execution stock_leg)))
    ∧ row !! "Option size" = Some (Num (option_size option_leg))
    ∧ row !! "trade price" = Some (Num (price (execution stock_leg)))
    ∧ row !! "leg price" = Some (Num (price (execution stock_leg)))
    ∧ row !! "option trade price"
      = Some (Num (price (execution option_leg)))
    ∧ row !! "Commission"
      = Some (Num (commission (commissionReport stock_leg)
                   + commission (commissionReport option_leg)))
    ∧ row !! "position bal"
      = Some (Num (shares (execution stock_leg) * price (execution stock_leg)
                   + option_leg_value option_leg)).
Proof.
  intros Hbag Hcombo Hcs Hside Hco Hfs Hnone.
  unfold process_trade. cbn [contract fills]. rewrite Hbag, Hcombo.
  cbn [mbind result_bind]. unfold open_row. rewrite Hnone.
  set (st0 := set_action "BUY WRITE" _).
  assert (Hst0 : trades st0
                 = <[symbol qqq := {[ "ticker" := Str (symbol qqq) ]}]>
                     (trades st)) by reflexivity.
  assert (Hact0 : v_action (vars st0) = Some "BUY WRITE") by reflexivity.
  clearbody st0.
  destruct Hfs as [-> | ->]; cbn [foldlM]; unfold bag_fill.
  - rewrite Hcs.
    destruct (bag_stock_leg_buy yespos account_value qqq st0 0 0 stock_leg
                "BUY WRITE" {[ "ticker" := Str (symbol qqq) ]} Hact0 Hside)
      as (st1 & row1 & -> & Htr1 & Hact1 & _ & Hsz & Htp & Hlp & _ & _ & _).
    { rewrite Hst0. apply lookup_insert_eq. }
    cbn [mbind result_bind]. rewrite Hco.
    destruct (bag_option_leg_plain yespos account_value qqq st1
                (0 + commission (commissionReport stock_leg))
                (0 + shares (execution stock_leg)
                     * price (execution stock_leg))
                option_leg "BUY WRITE" row1 Hact1 eq_refl)
      as (st2 & row2 & -> & Htr2 & _ & Ha & Hos & Hotp & Hcm & Hbal & Hkeep).
    { rewrite Htr1. apply lookup_insert_eq. }
    cbn [mbind result_bind]. exists st2, row2.
    rewrite Htr2, Htr1, Hst0, !insert_insert_eq.
    split; [reflexivity|]. split; [apply dom_insert_L|].
    split; [apply lookup_insert_eq|].
    rewrite (Hkeep "Underlying size"), (Hkeep "trade price"),
      (Hkeep "leg price") by not_col.
    rewrite Hcm, Hbal. cbn [String.eqb Ascii.eqb Bool.eqb].
    repeat split; try done.
  - rewrite Hco.
    destruct (bag_option_leg_plain yespos account_value qqq st0 0 0
                option_leg "BUY WRITE" {[ "ticker" := Str (symbol qqq) ]}
                Hact0 eq_refl)
      as (st1 & row1 & -> & Htr1 & Hact1 & _ & Hos & Hotp & _ & _ & _).
    { rewrite Hst0. apply lookup_insert_eq. }
    cbn [mbind result_bind]. rewrite Hcs.
    destruct (bag_stock_leg_buy yespos account_value qqq st1
                (if ("BUY WRITE" =? "BUY WRITE")%string
                 then 0 + commission (commissionReport option_leg)
                 else commission (commissionReport option_leg))
                (0 + option_leg_value option_leg)
                stock_leg "BUY WRITE" row1 Hact1 Hside)
      as (st2 & row2 & -> & Htr2 & _ & Ha & Hsz & Htp & Hlp & Hcm & Hbal
          & Hkeep).
    { rewrite Htr1. apply lookup_insert_eq. }
    cbn [mbind result_bind]. exists st2, row2.
    rewrite Htr2, Htr1, Hst0, !insert_insert_eq.
    split; [reflexivity|]. split; [apply dom_insert_L|].
    split; [apply lookup_insert_eq|].
    rewrite (Hkeep "Option size"), (Hkeep "option trade price") by not_col.
    rewrite Hcm, Hbal. cbn [String.eqb Ascii.eqb Bool.eqb].
    repeat split; try done; do 2 f_equal; lia.
Qed.

Lemma buy_write_merges_one_row_witness :
  ∃ st' row,
    process_trade [] 1000 start
      {| contract := bag_of "XYZ" buy_write_legs;
         fills := [buy_write_stock_leg; buy_write_option_leg] |} = Ok st'
    ∧ dom (trades st') = {[ "XYZ" ]} ∪ dom (trades start)
    ∧ trades st' !! "XYZ" = Some row
    ∧ row !! "action" = Some (Str "BUY WRITE")
    ∧ row !! "Underlying size" = Some (Num 100)
    ∧ row !! "Option size" = Some (Num (-1))
    ∧ row !! "trade price" = Some (Num 50)
    ∧ row !! "leg price" = Some (Num 50)
    ∧ row !! "option trade price" = Some (Num 2)
    ∧ row !! "Commission" = Some (Num 150)
    ∧ row !! "position bal" = Some (Num 4800).
Proof.
  apply (buy_write_merges_one_row [] 1000 start (bag_of "XYZ" buy_write_legs)
           buy_write_stock_leg buy_write_option_leg
           [buy_write_stock_leg; buy_write_option_leg]).
  - reflexivity.
  - reflexivity.
  - reflexivity.
  - reflexivity.
  - reflexivity.
  - by left.
  - reflexivity.
Defined.



(** X6. In a Bag order, a stock leg that is not a purchase takes its basis
    from yesterday's sheet without checking that the ticker is there:
    when the sheet has no row for the leg's symbol, the run stops with a
    ValueError (the max of an empty series). *)
Theorem bag_stock_sale_without_sheet_row_raises (yespos : list yrow)
    (account_value : Z) (st : tstate) (qqq : Contract) (label : string)
    (fill : Fill) (fs : list Fill) :
  ctype qqq = Bag →
  combo_action qqq = Ok label →
  ctype (fill_contract fill) = Stock →
  side (execution fill) ≠ "BOT" →
  ycount yespos (symbol (fill_contract fill)) = 0%nat →
  process_trade yespos account_value st
    {| contract := qqq; fills := fill :: fs |} = Raise ValueError.
Proof.
  intros Hbag Hcombo Hc Hside Hcount. unfold process_trade.
  cbn [contract fills]. rewrite Hbag, Hcombo. cbn [mbind result_bind foldlM].
  unfold bag_fill. rewrite Hc. unfold bag_stock_leg.
  cbn [set_action vars v_action read mbind result_bind].
  apply String.eqb_neq in Hside. rewrite Hside.
  unfold ycount in Hcount.
  destruct (yloc yespos (symbol (fill_contract fill))); [|discriminate].
  reflexivity.
Qed.

Lemma bag_stock_sale_without_sheet_row_raises_witness :
  process_trade [] 1000 start
    {| contract := bag_of "XYZ" buy_write_legs;
       fills := [closing_stock_leg; buy_back_leg] |} = Raise ValueError.
Proof.
  apply (bag_stock_sale_without_sheet_row_raises [] 1000 start
           (bag_of "XYZ" buy_write_legs) "BUY WRITE" closing_stock_leg
           [buy_back_leg]).
  - reflexivity.
  - reflexivity.
  - reflexivity.
  - discriminate.
  - reflexivity.
Defined.

(** ** The basis of a stock fill *)

(** The first stock fill of a ticker that has no row yet today. *)
Lemma first_stock_fill (yespos : list yrow) (account_value : Z)
    (st : tstate) (qqq : Contract) (fill : Fill) (lp tp : value) :
  ctype qqq = Stock →
  trades st !! symbol qqq = None →
  stock_basis yespos (symbol qqq) (execution fill) (Num (signed_shares fill))
  = Ok (lp, tp) →
  numeric lp = true →
  ∃ st' row,
    process_trade yespos account_value st
      {| contract := qqq; fills := [fill] |} = Ok st'
    ∧ trades st' !! symbol qqq = Some row
    ∧ row !! "action" = Some (Str (side (execution fill)))
    ∧ row !! "trade price" = Some tp
    ∧ row !! "leg price" = Some lp
    ∧ row !! "Underlying size" = Some (Num (signed_shares fill))
    ∧ row !! "position bal"
      = Some (Num (signed_shares fill * price (execution fill)))
    ∧ row !! "P/L underlying leg"
      = Some (match lp with
              | Num l => Num (0 + (price (execution fill) - l)
                                  * shares (execution fill))
              | _ => NaN
              end).
Proof.
  intros Hc Hnone Hbasis Hlp.
  rewrite (process_stock_order _ _ _ _ _ Hc).
  unfold open_row. rewrite Hnone.
  set (st0 := {| trades := _; vars := _ |}).
  assert (Hst0 : trades st0 !! symbol qqq
                 = Some {[ "ticker" := Str (symbol qqq) ]})
    by apply lookup_insert_eq.
  assert (Hact : if has_key {[ "ticker" := Str (symbol qqq) ]} "Option size"
                 then ∃ a, ({[ "ticker" := Str (symbol qqq) ]} : dict)
                             !! "action" = Some (Str a)
                           ∧ side (execution fill)
                             = side (execution fill) +:+ " " +:+ a
                 else side (execution fill) = side (execution fill)).
  { rewrite has_key_stub; [done | str_ne]. }
  unfold signed_shares in *.
  pose proof (stock_fill_runs yespos account_value qqq st0 fill
                {[ "ticker" := Str (symbol qqq) ]} (side (execution fill))
                lp tp 0 Hst0
                (has_key_stub _ "Underlying size" ltac:(str_ne))
                (has_key_stub _ "P/L underlying leg" ltac:(str_ne))
                (has_key_stub _ "P/L underlying" ltac:(str_ne))
                Hact (logged_or_zero_stub _ "Commission" ltac:(str_ne))
                Hbasis Hlp) as Hrun.
  cbv zeta in Hrun.
  rewrite Hrun. eexists _, _. split; [reflexivity|]. cbn [trades].
  split; [apply lookup_insert_eq|].
  repeat split; rewrite lookup_update; reflexivity.
Qed.

(** X7. A stock purchase of a ticker that has no row in yesterday's
    sheet and none yet today opens a position: the row gets the action
    BOT, trade price and leg price equal to the execution price, the
    bought size, a position bal of size times price and a leg P&L of
    zero. *)
Theorem purchase_opens_position (yespos : list yrow) (account_value : Z)
    (st : tstate) (qqq : Contract) (fill : Fill) :
  ctype qqq = Stock →
  side (execution fill) = "BOT" →
  ycount yespos (symbol qqq) = 0%nat →
  trades st !! symbol qqq = None →
  ∃ st' row,
    process_trade yespos account_value st
      {| contract := qqq; fills := [fill] |} = Ok st'
    ∧ trades st' !! symbol qqq = Some row
    ∧ row !! "action" = Some (Str "BOT")
    ∧ row !! "trade price" = Some (Num (price (execution fill)))
    ∧ row !! "leg price" = Some (Num (price (execution fill)))
    ∧ row !! "Underlying size" = Some (Num (shares (execution fill)))
    ∧ row !! "position bal"
      = Some (Num (shares (execution fill) * price (execution fill)))
    ∧ row !! "P/L underlying leg" = Some (Num 0).
Proof.
  intros Hc Hside Hcount Hnone.
  assert (Hsigned : signed_shares fill = shares (execution fill))
    by (unfold signed_shares; by rewrite Hside).
  destruct (first_stock_fill yespos account_value st qqq fill
              (Num (price (execution fill))) (Num (price (execution fill)))
              Hc Hnone)
    as (st' & row & Hrun & Hrow & Ha & Htp & Hlp & Hsz & Hbal & Hpl);
    [|done|].
  { unfold stock_basis, ycount in *. by rewrite Hside, Hcount. }
  exists st', row. rewrite Hside, Hsigned in *.
  repeat split; try done. rewrite Hpl. do 2 f_equal. lia.
Qed.

Lemma purchase_opens_position_witness :
  ∃ st' row,
    process_trade [] 1000 start morning_buy = Ok st'
    ∧ trades st' !! "XYZ" = Some row
    ∧ row !! "action" = Some (Str "BOT")
    ∧ row !! "trade price" = Some (Num 50)
    ∧ row !! "leg price" = Some (Num 50)
    ∧ row !! "Underlying size" = Some (Num 100)
    ∧ row !! "position bal" = Some (Num (100 * 50))
    ∧ row !! "P/L underlying leg" = Some (Num 0).
Proof.
  apply (purchase_opens_position [] 1000 start (stock_of "XYZ")
           (fill_of (stock_of "XYZ") "BOT" 100 50 "10:00" 100 0)).
  - reflexivity.
  - reflexivity.
  - reflexivity.
  - reflexivity.
Defined.

(** X8. A stock fill that is not a purchase, for a ticker with exactly
    one row in yesterday's sheet, carries that row's trade price and leg
    price over unchanged, and its leg P&L is the execution price minus
    yesterday's leg price, times the shares of the fill. *)
Theorem sale_carries_basis_forward (yespos : list yrow) (account_value : Z)
    (st : tstate) (qqq : Contract) (fill : Fill) (y : yrow) (l : Z) :
  ctype qqq = Stock →
  side (execution fill) ≠ "BOT" →
  yloc yespos (symbol qqq) = [y] →
  y_leg_price y = Num l →
  trades st !! symbol qqq = None →
  ∃ st' row,
    process_trade yespos account_value st
      {| contract := qqq; fills := [fill] |} = Ok st'
    ∧ trades st' !! symbol qqq = Some row
    ∧ row !! "action" = Some (Str (side (execution fill)))
    ∧ row !! "trade price" = Some (y_trade_price y)
    ∧ row !! "leg price" = Some (Num l)
    ∧ row !! "P/L underlying leg"
      = Some (Num ((price (execution fill) - l) * shares (execution fill))).
Proof.
  intros Hc Hside Hy Hl Hnone.
  destruct (first_stock_fill yespos account_value st qqq fill
              (Num l) (y_trade_price y) Hc Hnone)
    as (st' & row & Hrun & Hrow & Ha & Htp & Hlp & _ & _ & Hpl); [|done|].
  { unfold stock_basis. apply String.eqb_neq in Hside.
    rewrite Hside, Hy. cbn. by rewrite Hl. }
  exists st', row. repeat split; try done.
Qed.

Lemma sale_carries_basis_forward_witness :
  ∃ st' row,
    process_trade [held_xyz] 1000 start
      {| contract := stock_of "XYZ"; fills := [closing_stock_leg] |} = Ok st'
    ∧ trades st' !! "XYZ" = Some row
    ∧ row !! "action" = Some (Str "SLD")
    ∧ row !! "trade price" = Some (Num 45)
    ∧ row !! "leg price" = Some (Num 46)
    ∧ row !! "P/L underlying leg" = Some (Num ((50 - 46) * 100)).
Proof.
  apply (sale_carries_basis_forward [held_xyz] 1000 start (stock_of "XYZ")
           closing_stock_leg held_xyz 46).
  - reflexivity.
  - discriminate.
  - reflexivity.
  - reflexivity.
  - reflexivity.
Defined.

(** X9. A stock purchase for a ticker with exactly one row in yesterday's
    sheet: when the bought size is the opposite of yesterday's size (a
    short is covered), the row keeps yesterday's trade price and leg
    price; any other purchase resets both to the execution price. *)
Theorem purchase_covers_or_resets (yespos : list yrow) (account_value : Z)
    (st : tstate) (qqq : Contract) (fill : Fill) (y : yrow) (z l : Z) :
  ctype qqq = Stock →
  side (execution fill) = "BOT" →
  yloc yespos (symbol qqq) = [y] →
  y_underlying_size y = Num z →
  y_leg_price y = Num l →
  trades st !! symbol qqq = None →
  ∃ st' row,
    process_trade yespos account_value st
      {| contract := qqq; fills := [fill] |} = Ok st'
    ∧ trades st' !! symbol qqq = Some row
    ∧ (shares (execution fill) = - z →
       row !! "trade price" = Some (y_trade_price y)
       ∧ row !! "leg price" = Some (Num l))
    ∧ (shares (execution fill) ≠ - z →
       row !! "trade price" = Some (Num (price (execution fill)))
       ∧ row !! "leg price" = Some (Num (price (execution fill)))).
Proof.
  intros Hc Hside Hy Hz Hl Hnone.
  assert (Hsigned : signed_shares fill = shares (execution fill))
    by (unfold signed_shares; by rewrite Hside).
  assert (Hbasis : stock_basis yespos (symbol qqq) (execution fill)
                     (Num (signed_shares fill))
                   = Ok (if shares (execution fill) =? - z
                         then (Num l, y_trade_price y)
                         else (Num (price (execution fill)),
                               Num (price (execution fill))))).
  { unfold stock_basis. rewrite Hside, Hy, Hsigned. cbn.
    rewrite Hz. cbn. destruct (shares (execution fill) =? - z); [|done].
    by rewrite Hl. }
  destruct (Z.eqb_spec (shares (execution fill)) (- z)) as [Heq|Hne].
  - destruct (first_stock_fill yespos account_value st qqq fill _ _ Hc Hnone
                Hbasis eq_refl)
      as (st' & row & Hrun & Hrow & _ & Htp & Hlp & _).
    exists st', row. repeat split; try done.
  - destruct (first_stock_fill yespos account_value st qqq fill _ _ Hc Hnone
                Hbasis eq_refl)
      as (st' & row & Hrun & Hrow & _ & Htp & Hlp & _).
    exists st', row. repeat split; try done.
Qed.

Lemma purchase_covers_or_resets_witness :
  ∃ st' row,
    process_trade [short_xyz] 1000 start morning_buy = Ok st'
    ∧ trades st' !! "XYZ" = Some row
    ∧ (100 = - -100 →
       row !! "trade price" = Some (Num 48)
       ∧ row !! "leg price" = Some (Num 48))
    ∧ (100 ≠ - -100 →
       row !! "trade price" = Some (Num 50)
       ∧ row !! "leg price" = Some (Num 50)).
Proof.
  apply (purchase_covers_or_resets [short_xyz] 1000 start (stock_of "XYZ")
           (fill_of (stock_of "XYZ") "BOT" 100 50 "10:00" 100 0)
           short_xyz (-100) 48).
  - reflexivity.
  - reflexivity.
  - reflexivity.
  - reflexivity.
  - reflexivity.
  - reflexivity.
Defined.

(** ** Records of the portfolio loop *)

(** The row a stock record leaves, when it is the first record of its
    ticker. *)
Lemma stock_record (get_delt : string → string → Z → value)
    (yespos : list yrow) (trades_df : gmap string dict) (account_value : Z)
    (pst : pstate) (ppp : PortfolioItem) (v : locals) (fl : flags)
    (prow : dict) (b l : Z) (tp : value) (a : string) :
  ctype (pcontract ppp) = Stock →
  String.eqb (symbol (pcontract ppp)) (prevticker pst) = false →
  resolve_basis yespos trades_df (symbol (pcontract ppp))
    (with_action "OBSERVE" (pvars pst)) = Ok (v, fl) →
  positions pst !! symbol (pcontract ppp) = Some prow →
  prow !! "position bal" = Some (Num b) →
  v_trade_price v = Some tp →
  (if rollover_flag fl || sell_CC_flag fl || close_CC_flag fl
   then Some (Num (marketPrice ppp)) else v_leg_price v) = Some (Num l) →
  v_action v = Some a →
  ∃ pst' prow',
    portfolio_step get_delt yespos trades_df account_value pst ppp = Ok pst'
    ∧ positions pst' = <[symbol (pcontract ppp) := prow']> (positions pst)
    ∧ prow' !! "action" = Some (Str a)
    ∧ prow' !! "trade price" = Some tp
    ∧ prow' !! "leg price" = Some (Num l)
    ∧ prow' !! "P/L underlying leg"
      = Some (Num (position ppp * (marketPrice ppp - l)))
    ∧ prow' !! "position bal" = Some (Num (marketValue ppp + b)).
Proof.
  intros Hc Hnew Hres Hrow Hbal Htp Hlp Ha.
  unfold portfolio_step. rewrite Hnew. cbn [negb first pvars positions].
  rewrite Hres. cbn [mbind result_bind]. rewrite Hc.
  unfold stock_row, trades_getitem, getitem.
  cbn [pvars pflags positions]. rewrite Hrow. cbn [mbind result_bind].
  rewrite Hbal. cbn [mbind result_bind]. unfold py_add.
  rewrite Htp, Hlp, Ha.
  cbn [read mbind result_bind py_sub py_mul].
  eexists _, _. split; [reflexivity|]. cbn [positions].
  split; [reflexivity|].
  repeat split; rewrite lookup_update; reflexivity.
Qed.

Lemma option_record (get_delt : string → string → Z → value)
    (yespos : list yrow) (trades_df : gmap string dict) (account_value : Z)
    (pst : pstate) (ppp : PortfolioItem) (v : locals) (fl : flags)
    (prow : dict) (b : Z) (otp : value) (a : string) :
  ctype (pcontract ppp) = Option →
  String.eqb (symbol (pcontract ppp)) (prevticker pst) = false →
  resolve_basis yespos trades_df (symbol (pcontract ppp))
    (with_action "OBSERVE" (pvars pst)) = Ok (v, fl) →
  positions pst !! symbol (pcontract ppp) = Some prow →
  prow !! "position bal" = Some (Num b) →
  v_option_trade_price v = Some otp →
  v_action v = Some a →
  ∃ pst' prow',
    portfolio_step get_delt yespos trades_df account_value pst ppp = Ok pst'
    ∧ positions pst' = <[symbol (pcontract ppp) := prow']> (positions pst)
    ∧ prow' !! "action" = Some (Str a)
    ∧ prow' !! "option trade price" = Some otp
    ∧ prow' !! "position bal" = Some (Num (b + marketValue ppp)).
Proof.
  intros Hc Hnew Hres Hrow Hbal Hotp Ha.
  unfold portfolio_step. rewrite Hnew. cbn [negb first pvars positions].
  rewrite Hres. cbn [mbind result_bind]. rewrite Hc.
  unfold option_row, trades_getitem, getitem.
  cbn [pvars pflags positions]. rewrite Hrow. cbn [mbind result_bind].
  rewrite Hbal. cbn [mbind result_bind]. unfold py_add. rewrite Hotp, Ha.
  cbn [read mbind result_bind].
  eexists _, _. split; [reflexivity|]. cbn [positions].
  split; [reflexivity|].
  repeat split; rewrite lookup_update; reflexivity.
Qed.

Lemma stub_positions_one (d t sym : string) :
  stub_positions d t [sym] !! sym = Some (stub sym d t).
Proof. unfold stub_positions. cbn [foldl]. rewrite lookup_empty. apply lookup_insert_eq. Qed.

(** X10. A stock record of the portfolio, first of its ticker, for a
    ticker without a trade today and with exactly one row in yesterday's
    sheet: the position row keeps the action OBSERVE and inherits
    yesterday's trade price and leg price; its P/L underlying leg is the
    position times (market price minus yesterday's leg price), and the
    market value is added to its position bal. *)
Theorem held_position_inherits_basis
    (get_delt : string → string → Z → value) (yespos : list yrow)
    (trades_df : gmap string dict) (account_value : Z) (pst : pstate)
    (ppp : PortfolioItem) (y : yrow) (prow : dict) (b l : Z) :
  ctype (pcontract ppp) = Stock →
  symbol (pcontract ppp) ≠ prevticker pst →
  tcount trades_df (symbol (pcontract ppp)) = 0%nat →
  yloc yespos (symbol (pcontract ppp)) = [y] →
  y_leg_price y = Num l →
  positions pst !! symbol (pcontract ppp) = Some prow →
  prow !! "position bal" = Some (Num b) →
  ∃ pst' prow',
    portfolio_step get_delt yespos trades_df account_value pst ppp = Ok pst'
    ∧ positions pst' = <[symbol (pcontract ppp) := prow']> (positions pst)
    ∧ prow' !! "action" = Some (Str "OBSERVE")
    ∧ prow' !! "trade price" = Some (y_trade_price y)
    ∧ prow' !! "leg price" = Some (Num l)
    ∧ prow' !! "P/L underlying leg"
      = Some (Num (position ppp * (marketPrice ppp - l)))
    ∧ prow' !! "position bal" = Some (Num (marketValue ppp + b)).
Proof.
  intros Hc Hnew Hn Hy Hl Hrow Hbal.
  apply String.eqb_neq in Hnew.
  assert (Hres : resolve_basis yespos trades_df (symbol (pcontract ppp))
                   (with_action "OBSERVE" (pvars pst))
                 = Ok (with_option_trade_price (y_option_trade_price y)
                         (with_leg_price (Num l)
                            (with_trade_price (y_trade_price y)
                               (with_action "OBSERVE" (pvars pst)))),
                       no_flags)).
  { unfold resolve_basis. rewrite Hn, Hy. cbn. rewrite Hl. reflexivity. }
  exact (stock_record get_delt yespos trades_df account_value pst ppp
           _ no_flags prow b l (y_trade_price y) "OBSERVE" Hc Hnew Hres
           Hrow Hbal eq_refl eq_refl eq_refl).
Qed.

Lemma held_position_inherits_basis_witness :
  ∃ pst' prow',
    portfolio_step no_greeks [held_abc] ∅ 1000 observing_abc abc_shares
    = Ok pst'
    ∧ positions pst' = <["ABC" := prow']> (positions observing_abc)
    ∧ prow' !! "action" = Some (Str "OBSERVE")
    ∧ prow' !! "trade price" = Some (Num 10)
    ∧ prow' !! "leg price" = Some (Num 11)
    ∧ prow' !! "P/L underlying leg" = Some (Num (100 * (51 - 11)))
    ∧ prow' !! "position bal" = Some (Num (5100 + 0)).
Proof.
  apply (held_position_inherits_basis no_greeks [held_abc] ∅ 1000
           observing_abc abc_shares held_abc
           (stub "ABC" "2023-07-21" "15:00:00") 0 11).
  - reflexivity.
  - discriminate.
  - apply tcount_empty.
  - reflexivity.
  - reflexivity.
  - apply stub_positions_one.
  - apply stub_bal.
Defined.

(** X11. A stock record, first of its ticker, for a ticker without a
    trade today whose rows in yesterday's sheet are not exactly one: with
    no row its trade price and leg price are 0, with several rows both
    are the mark -9999; the P/L underlying leg is computed from that leg
    price all the same. *)
Theorem untracked_position_basis
    (get_delt : string → string → Z → value) (yespos : list yrow)
    (trades_df : gmap string dict) (account_value : Z) (pst : pstate)
    (ppp : PortfolioItem) (prow : dict) (b : Z) :
  ctype (pcontract ppp) = Stock →
  symbol (pcontract ppp) ≠ prevticker pst →
  tcount trades_df (symbol (pcontract ppp)) = 0%nat →
  ycount yespos (symbol (pcontract ppp)) ≠ 1%nat →
  positions pst !! symbol (pcontract ppp) = Some prow →
  prow !! "position bal" = Some (Num b) →
  let basis :=
    if Nat.eqb (ycount yespos (symbol (pcontract ppp))) 0
    then 0 else -9999 in
  ∃ pst' prow',
    portfolio_step get_delt yespos trades_df account_value pst ppp = Ok pst'
    ∧ positions pst' = <[symbol (pcontract ppp) := prow']> (positions pst)
    ∧ prow' !! "action" = Some (Str "OBSERVE")
    ∧ prow' !! "trade price" = Some (Num basis)
    ∧ prow' !! "leg price" = Some (Num basis)
    ∧ prow' !! "P/L underlying leg"
      = Some (Num (position ppp * (marketPrice ppp - basis))).
Proof.
  intros Hc Hnew Hn Hcount Hrow Hbal basis.
  apply String.eqb_neq in Hnew. apply Nat.eqb_neq in Hcount.
  unfold ycount in *.
  destruct (Nat.eqb (List.length (yloc yespos (symbol (pcontract ppp)))) 0)
    eqn:Hzero.
  - assert (Hres : resolve_basis yespos trades_df (symbol (pcontract ppp))
                     (with_action "OBSERVE" (pvars pst))
                   = Ok (with_option_trade_price (Num 0)
                           (with_leg_price (Num 0)
                              (with_trade_price (Num 0)
                                 (with_action "OBSERVE" (pvars pst)))),
                         no_flags)).
    { unfold resolve_basis. rewrite Hn. cbn [Nat.eqb]. by rewrite Hcount, Hzero. }
    destruct (stock_record get_delt yespos trades_df account_value pst ppp
                _ no_flags prow b 0 (Num 0) "OBSERVE" Hc Hnew Hres
                Hrow Hbal eq_refl eq_refl eq_refl)
      as (pst' & prow' & ? & ? & ? & ? & ? & ? & _).
    exists pst', prow'. done.
  - assert (Hres : resolve_basis yespos trades_df (symbol (pcontract ppp))
                     (with_action "OBSERVE" (pvars pst))
                   = Ok (with_leg_price (Num (-9999))
                           (with_trade_price (Num (-9999))
                              (with_action "OBSERVE" (pvars pst))),
                         no_flags)).
    { unfold resolve_basis. rewrite Hn. cbn [Nat.eqb]. by rewrite Hcount, Hzero. }
    destruct (stock_record get_delt yespos trades_df account_value pst ppp
                _ no_flags prow b (-9999) (Num (-9999)) "OBSERVE" Hc Hnew Hres
                Hrow Hbal eq_refl eq_refl eq_refl)
      as (pst' & prow' & ? & ? & ? & ? & ? & ? & _).
    exists pst', prow'. done.
Qed.

Lemma untracked_position_basis_witness :
  ∃ pst' prow',
    portfolio_step no_greeks twice_abc ∅ 1000 observing_abc abc_shares
    = Ok pst'
    ∧ positions pst' = <["ABC" := prow']> (positions observing_abc)
    ∧ prow' !! "action" = Some (Str "OBSERVE")
    ∧ prow' !! "trade price" = Some (Num (-9999))
    ∧ prow' !! "leg price" = Some (Num (-9999))
    ∧ prow' !! "P/L underlying leg" = Some (Num (100 * (51 - -9999))).
Proof.
  apply (untracked_position_basis no_greeks twice_abc ∅ 1000
           observing_abc abc_shares
           (stub "ABC" "2023-07-21" "15:00:00") 0).
  - reflexivity.
  - discriminate.
  - apply tcount_empty.
  - vm_compute. lia.
  - apply stub_positions_one.
  - apply stub_bal.
Defined.

Lemma starred_row (trades_df : gmap string dict) (sym col : string)
    (srow : dict) :
  trades_df !! (sym +:+ "*") = Some srow →
  cell srow "ticker" = Str sym →
  series_getitem trades_df sym col (sym +:+ "*") = Ok (cell srow col).
Proof.
  intros Hrow Hticker. unfold series_getitem, trades_getitem, tloc.
  assert (filter (λ kr : string * dict,
                    py_eq (cell kr.2 "ticker") (Str sym) = true) trades_df
          !! (sym +:+ "*") = Some srow) as ->; [|reflexivity].
  apply map_lookup_filter_Some. split; [done|]. cbn [snd].
  rewrite Hticker. cbn [py_eq]. apply String.eqb_refl.
Qed.

(** X12. After a rollover (two rows of today's trades carry the ticker,
    one of them under the starred key) and with one row in yesterday's
    sheet, the first record of the ticker resolves the basis like this:
    a stock record gets yesterday's trade price, the market price as leg
    price and hence a P/L underlying leg of 0; an option record gets the
    option trade price of the starred row, the newly written call. *)
Theorem rollover_refreshes_leg_price
    (get_delt : string → string → Z → value) (yespos : list yrow)
    (trades_df : gmap string dict) (account_value : Z) (pst : pstate)
    (shares call : PortfolioItem) (y : yrow) (srow prow : dict) (b : Z)
    (otp : value) :
  ctype (pcontract shares) = Stock →
  ctype (pcontract call) = Option →
  symbol (pcontract call) = symbol (pcontract shares) →
  symbol (pcontract shares) ≠ prevticker pst →
  tcount trades_df (symbol (pcontract shares)) = 2%nat →
  trades_df !! (symbol (pcontract shares) +:+ "*") = Some srow →
  cell srow "ticker" = Str (symbol (pcontract shares)) →
  cell srow "option trade price" = otp →
  yloc yespos (symbol (pcontract shares)) = [y] →
  positions pst !! symbol (pcontract shares) = Some prow →
  prow !! "position bal" = Some (Num b) →
  (∃ pst' prow',
     portfolio_step get_delt yespos trades_df account_value pst shares
     = Ok pst'
     ∧ positions pst'
       = <[symbol (pcontract shares) := prow']> (positions pst)
     ∧ prow' !! "trade price" = Some (y_trade_price y)
     ∧ prow' !! "leg price" = Some (Num (marketPrice shares))
     ∧ prow' !! "P/L underlying leg" = Some (Num 0))
  ∧ (∃ pst' prow',
       portfolio_step get_delt yespos trades_df account_value pst call
       = Ok pst'
       ∧ positions pst'
         = <[symbol (pcontract shares) := prow']> (positions pst)
       ∧ prow' !! "option trade price" = Some otp).
Proof.
  intros Hs Hc Hsym Hnew Hn Hstar Hticker <- Hy Hrow Hbal.
  apply String.eqb_neq in Hnew.
  assert (Hres : resolve_basis yespos trades_df (symbol (pcontract shares))
                   (with_action "OBSERVE" (pvars pst))
                 = Ok (with_option_trade_price
                         (cell srow "option trade price")
                         (with_trade_price (y_trade_price y)
                            (with_action "OBSERVE" (pvars pst))),
                       {| rollover_flag := true; sell_CC_flag := false;
                          close_CC_flag := false |})).
  { unfold resolve_basis. rewrite Hn, Hy. cbn.
    by rewrite (starred_row _ _ _ _ Hstar Hticker). }
  split.
  - destruct (stock_record get_delt yespos trades_df account_value pst shares
                _ _ prow b (marketPrice shares) (y_trade_price y) "OBSERVE"
                Hs Hnew Hres Hrow Hbal eq_refl eq_refl eq_refl)
      as (pst' & prow' & ? & ? & ? & ? & ? & Hpl & _).
    exists pst', prow'. repeat split; try done.
    rewrite Hpl. do 2 f_equal. lia.
  - rewrite <- Hsym in *.
    destruct (option_record get_delt yespos trades_df account_value pst call
                _ _ prow b (cell srow "option trade price") "OBSERVE"
                Hc Hnew Hres Hrow Hbal eq_refl eq_refl)
      as (pst' & prow' & ? & ? & ? & ? & _).
    exists pst', prow'. done.
Qed.

Lemma rollover_refreshes_leg_price_witness :
  (∃ pst' prow',
     portfolio_step no_greeks [held_xyz] rolled_xyz 1000 observing_xyz
       xyz_shares = Ok pst'
     ∧ positions pst' = <["XYZ" := prow']> (positions observing_xyz)
     ∧ prow' !! "trade price" = Some (Num 45)
     ∧ prow' !! "leg price" = Some (Num 52)
     ∧ prow' !! "P/L underlying leg" = Some (Num 0))
  ∧ (∃ pst' prow',
       portfolio_step no_greeks [held_xyz] rolled_xyz 1000 observing_xyz
         xyz_call = Ok pst'
       ∧ positions pst' = <["XYZ" := prow']> (positions observing_xyz)
       ∧ prow' !! "option trade price" = Some (Num 2)).
Proof.
  apply (rollover_refreshes_leg_price no_greeks [held_xyz] rolled_xyz 1000
           observing_xyz xyz_shares xyz_call held_xyz
           (reindex (update ∅ [("ticker", Str "XYZ");
                               ("action", Str "ROLLOVER WRITE");
                               ("option trade price", Num 2)]))
           (stub "XYZ" "2023-07-21" "15:00:00") 0 (Num 2)).
  - reflexivity.
  - reflexivity.
  - reflexivity.
  - discriminate.
  - vm_compute. reflexivity.
  - change (symbol (pcontract xyz_shares) +:+ "*") with "XYZ*".
    unfold rolled_xyz. rewrite lookup_fmap.
    rewrite lookup_insert_ne by (intros H; discriminate H).
    rewrite lookup_singleton_eq. reflexivity.
  - vm_compute. reflexivity.
  - vm_compute. reflexivity.
  - reflexivity.
  - apply stub_positions_one.
  - apply stub_bal.
Defined.

Lemma others_all (yespos : list yrow) (sym : string) :
  ycount yespos sym = 0%nat → others yespos sym = List.length yespos.
Proof.
  unfold ycount, yloc, others.
  induction yespos as [|y l IH]; [done|].
  rewrite !filter_cons. destruct (decide (y_ticker y = sym)) as [Heq|Hne].
  - discriminate.
  - intros Hl. rewrite decide_True by done. cbn [List.length].
    by rewrite IH.
Qed.

(** X13. An option record, first of its ticker, when today's only trade
    row of the ticker is a SELL CC and yesterday's sheet has no row for
    it: if the sheet has rows of other tickers the position row is
    labelled UNMATCHED SELL CC and takes the option trade price of the
    trade; if the sheet is empty the row is labelled ERROR and takes
    whatever option trade price the run last assigned. *)
Theorem unmatched_write_label
    (get_delt : string → string → Z → value) (yespos : list yrow)
    (trades_df : gmap string dict) (account_value : Z) (pst : pstate)
    (ppp : PortfolioItem) (trow prow : dict) (b : Z) (otp stale : value) :
  ctype (pcontract ppp) = Option →
  symbol (pcontract ppp) ≠ prevticker pst →
  tcount trades_df (symbol (pcontract ppp)) = 1%nat →
  trades_df !! symbol (pcontract ppp) = Some trow →
  cell trow "action" = Str "SELL CC" →
  cell trow "option trade price" = otp →
  ycount yespos (symbol (pcontract ppp)) = 0%nat →
  positions pst !! symbol (pcontract ppp) = Some prow →
  prow !! "position bal" = Some (Num b) →
  v_option_trade_price (pvars pst) = Some stale →
  ∃ pst' prow',
    portfolio_step get_delt yespos trades_df account_value pst ppp = Ok pst'
    ∧ positions pst' = <[symbol (pcontract ppp) := prow']> (positions pst)
    ∧ prow' !! "action"
      = Some (Str (match yespos with
                   | [] => "ERROR"
                   | _ => "UNMATCHED SELL CC"
                   end))
    ∧ prow' !! "option trade price"
      = Some (match yespos with [] => stale | _ => otp end).
Proof.
  intros Hc Hnew Hn Htrow Hact <- Hcount Hrow Hbal Hstale.
  apply String.eqb_neq in Hnew.
  pose proof (others_all _ _ Hcount) as Hothers. unfold ycount in Hcount.
  assert (Hloc : ∀ col, df_loc trades_df (symbol (pcontract ppp)) col
                        = Ok (cell trow col)).
  { intros col. unfold df_loc, trades_getitem. by rewrite Htrow. }
  destruct yespos as [|y0 l].
  - assert (Hres : resolve_basis [] trades_df (symbol (pcontract ppp))
                     (with_action "OBSERVE" (pvars pst))
                   = Ok (with_action "ERROR"
                           (with_action "OBSERVE" (pvars pst)), no_flags)).
    { unfold resolve_basis. rewrite Hn, !Hloc. cbn [Nat.eqb mbind result_bind].
      rewrite Hact. reflexivity. }
    destruct (option_record get_delt [] trades_df account_value pst ppp
                _ _ prow b stale "ERROR" Hc Hnew Hres Hrow Hbal Hstale
                eq_refl)
      as (pst' & prow' & ? & ? & ? & ? & _).
    exists pst', prow'. done.
  - assert (Hres : resolve_basis (y0 :: l) trades_df (symbol (pcontract ppp))
                     (with_action "OBSERVE" (pvars pst))
                   = Ok (with_action "UNMATCHED SELL CC"
                           (with_option_trade_price
                              (cell trow "option trade price")
                              (with_trade_price (Num 0)
                                 (with_action "OBSERVE" (pvars pst)))),
                         no_flags)).
    { unfold resolve_basis. rewrite Hn, !Hloc, Hcount, Hothers.
      cbn [Nat.eqb mbind result_bind]. rewrite Hact. reflexivity. }
    destruct (option_record get_delt (y0 :: l) trades_df account_value pst
                ppp _ _ prow b (cell trow "option trade price")
                "UNMATCHED SELL CC" Hc Hnew Hres Hrow Hbal eq_refl eq_refl)
      as (pst' & prow' & ? & ? & ? & ? & _).
    exists pst', prow'. done.
Qed.

Lemma unmatched_write_label_witness :
  ∃ pst' prow',
    portfolio_step no_greeks [held_abc] written_xyz 1000 after_write xyz_call
    = Ok pst'
    ∧ positions pst' = <["XYZ" := prow']> (positions after_write)
    ∧ prow' !! "action" = Some (Str "UNMATCHED SELL CC")
    ∧ prow' !! "option trade price" = Some (Num 2).
Proof.
  apply (unmatched_write_label no_greeks [held_abc] written_xyz 1000
           after_write xyz_call
           (reindex (update ∅ [("ticker", Str "XYZ");
                               ("action", Str "SELL CC");
                               ("option trade price", Num 2)]))
           (stub "XYZ" "2023-07-21" "15:00:00") 0 (Num 2) (Num 7)).
  - reflexivity.
  - discriminate.
  - vm_compute. reflexivity.
  - change (symbol (pcontract xyz_call)) with "XYZ".
    unfold written_xyz. rewrite lookup_fmap, lookup_singleton_eq.
    reflexivity.
  - vm_compute. reflexivity.
  - vm_compute. reflexivity.
  - reflexivity.
  - apply stub_positions_one.
  - apply stub_bal.
  - reflexivity.
Defined.

(** X14. A record of the portfolio whose symbol has no row in
    [positions] (the portfolio lists a symbol that the positions query
    did not) stops the run with a KeyError, for a ticker without a trade
    today. *)
Theorem record_without_position_raises
    (get_delt : string → string → Z → value) (yespos : list yrow)
    (trades_df : gmap string dict) (account_value : Z) (pst : pstate)
    (ppp : PortfolioItem) :
  ctype (pcontract ppp) = Stock ∨ ctype (pcontract ppp) = Option →
  tcount trades_df (symbol (pcontract ppp)) = 0%nat →
  positions pst !! symbol (pcontract ppp) = None →
  portfolio_step get_delt yespos trades_df account_value pst ppp
  = Raise KeyError.
Proof.
  intros Hc Hn Hrow. unfold portfolio_step.
  assert (Hres : ∀ v, ∃ v' fl,
            resolve_basis yespos trades_df (symbol (pcontract ppp)) v
            = Ok (v', fl)).
  { intros v. unfold resolve_basis. rewrite Hn. cbn [Nat.eqb].
    destruct (yloc yespos (symbol (pcontract ppp))) as [|y [|y' l]];
      cbn; eauto. }
  assert (∃ st1,
    (let st := if negb (String.eqb (symbol (pcontract ppp)) (prevticker pst))
               then {| first := true; prevticker := prevticker pst;
                       pvars := with_action "OBSERVE" (pvars pst);
                       pflags := pflags pst; positions := positions pst |}
               else pst in
     if first st
     then resolve_basis yespos trades_df (symbol (pcontract ppp)) (pvars st)
          ≫= (λ '(v, fl), Ok {| first := false;
                                prevticker := symbol (pcontract ppp);
                                pvars := v; pflags := fl;
                                positions := positions st |})
     else Ok st) = Ok st1
    ∧ positions st1 = positions pst) as (st1 & Hst1 & Hpos).
  { cbv zeta. destruct (negb _); cbn [first pvars positions].
    - destruct (Hres (with_action "OBSERVE" (pvars pst))) as (v' & fl & ->).
      cbn [mbind result_bind]. eauto.
    - destruct (first pst); [|eauto].
      destruct (Hres (pvars pst)) as (v' & fl & ->).
      cbn [mbind result_bind]. eauto. }
  cbv zeta in Hst1. rewrite Hst1. cbn [mbind result_bind].
  rewrite <- Hpos in Hrow.
  destruct Hc as [-> | ->].
  - unfold stock_row, trades_getitem. by rewrite Hrow.
  - unfold option_row, trades_getitem. by rewrite Hrow.
Qed.

Lemma record_without_position_raises_witness :
  portfolio_step no_greeks [held_xyz] ∅ 1000 observing_abc xyz_shares
  = Raise KeyError.
Proof.
  apply (record_without_position_raises no_greeks [held_xyz] ∅ 1000
           observing_abc xyz_shares).
  - by left.
  - apply tcount_empty.
  - reflexivity.
Defined.

(** A trade row without an action stops the first record of its
    ticker. *)
Lemma actionless_row_raises (get_delt : string → string → Z → value)
    (yespos : list yrow) (trades_df : gmap string dict) (account_value : Z)
    (pst : pstate) (ppp : PortfolioItem) (trow : dict) :
  symbol (pcontract ppp) ≠ prevticker pst →
  tcount trades_df (symbol (pcontract ppp)) = 1%nat →
  trades_df !! symbol (pcontract ppp) = Some trow →
  cell trow "action" = NaN →
  portfolio_step get_delt yespos trades_df account_value pst ppp
  = Raise AttributeError.
Proof.
  intros Hnew Hn Htrow Hact. apply String.eqb_neq in Hnew.
  unfold portfolio_step. rewrite Hnew. cbn [negb first pvars positions].
  unfold resolve_basis, df_loc, trades_getitem. rewrite Hn, Htrow.
  cbn [Nat.eqb mbind result_bind]. rewrite Hact. reflexivity.
Qed.

(** X15. An order without fills, or an order on a contract that is
    neither an option, a stock nor a bag, leaves a trade row that holds
    the ticker only, so the action cell of the trades frame is nan; when
    the portfolio then lists the ticker first, the run stops with an
    AttributeError (nan has no startswith). *)
Theorem unfilled_order_stops_recorder
    (get_delt : string → string → Z → value) (str_of_float : Z → string)
    (strptime : string → option Z) (w : world) (recover_trades_flag : bool)
    (qqq : Contract) (fs : list Fill) (ppp : PortfolioItem)
    (rest : list PortfolioItem) :
  holiday w = false →
  weekday w < 5 →
  live w = [ {| contract := qqq; fills := fs |} ] →
  ctype qqq = OtherContract ∨ (fs = [] ∧ ctype qqq ≠ Bag) →
  port w = ppp :: rest →
  symbol (pcontract ppp) = symbol qqq →
  symbol qqq ≠ "not a real ticker" →
  recorder get_delt str_of_float strptime w true recover_trades_flag
  = Raise AttributeError.
Proof.
  intros Hhol Hwd Hlive Horder Hport Hsym Hreal.
  unfold recorder. rewrite Hhol.
  assert ((5 <=? weekday w) = false) as -> by lia.
  cbn [orb effective_recover load_trades mbind result_bind].
  rewrite Hlive, Hport.
  assert (Htrade : trade_pass true false (yespos w) (account_value w)
                     [ {| contract := qqq; fills := fs |} ]
                   = Ok {| trades := {[ symbol qqq
                                        := {[ "ticker" := Str (symbol qqq) ]} ]};
                           vars := no_locals |}).
  { unfold trade_pass. cbn [orb andb List.length Nat.eqb negb].
    rewrite process_trades_one. unfold process_trade, open_row, start.
    cbn [contract fills trades vars]. rewrite lookup_empty, insert_empty.
    destruct Horder as [-> | [-> Hbag]]; [done|].
    destruct (ctype qqq); done. }
  rewrite Htrade. cbn [mbind result_bind trades vars].
  unfold portfolio_pass. cbn [foldlM].
  rewrite (actionless_row_raises get_delt (yespos w) _ (account_value w) _
             ppp (reindex {[ "ticker" := Str (symbol qqq) ]})).
  - reflexivity.
  - cbn [portfolio_start prevticker]. by rewrite Hsym.
  - rewrite tcount_reindex, Hsym. unfold tcount.
    rewrite <- insert_empty.
    rewrite (tloc_insert_first ∅ (symbol qqq) (symbol qqq)).
    + apply map_size_singleton.
    + apply tcount_empty.
    + unfold cell. by rewrite lookup_singleton_eq.
  - by rewrite Hsym, lookup_fmap, lookup_singleton_eq.
  - rewrite reindex_cell by column. unfold cell.
    rewrite lookup_singleton_ne; [done|]. intros H; discriminate H.
Qed.

Lemma unfilled_order_stops_recorder_witness :
  recorder no_greeks sample_str_of_float sample_strptime friday_resting
    true false = Raise AttributeError.
Proof.
  apply (unfilled_order_stops_recorder no_greeks sample_str_of_float
           sample_strptime friday_resting false (stock_of "XYZ") []
           xyz_shares []).
  - reflexivity.
  - reflexivity.
  - reflexivity.
  - right. split; [reflexivity | discriminate].
  - reflexivity.
  - reflexivity.
  - discriminate.
Defined.

(** ** What the portfolio loop leaves alone *)

Lemma framed_refl (m : gmap string dict) : framed m m.
Proof. intros s row Hs. eauto. Qed.

Lemma framed_trans (m1 m2 m3 : gmap string dict) :
  framed m1 m2 → framed m2 m3 → framed m1 m3.
Proof.
  intros H12 H23 s row3 Hs.
  destruct (H23 _ _ Hs) as (row2 & Hs2 & Hk2).
  destruct (H12 _ _ Hs2) as (row1 & Hs1 & Hk1).
  exists row1. split; [done|]. intros k Hk.
  rewrite Hk2 by done. by apply Hk1.
Qed.

Lemma framed_update (m : gmap string dict) (sym : string) (row : dict)
    (d : list (string * value)) :
  m !! sym = Some row →
  (∀ k, k ∉ portfolio_columns → lit_get k d = None) →
  framed m (<[sym := update row d]> m).
Proof.
  intros Hrow Hd s row'. destruct (decide (sym = s)) as [<-|Hne].
  - rewrite lookup_insert_eq. intros [= <-]. exists row.
    split; [done|]. intros k Hk. by rewrite lookup_update, Hd.
  - rewrite lookup_insert_ne by done. eauto.
Qed.

Lemma dom_insert_known (m : gmap string dict) (sym : string)
    (row row' : dict) :
  m !! sym = Some row → dom (<[sym := row']> m) = dom m.
Proof.
  intros Hrow. rewrite dom_insert_L. apply set_eq. intros x.
  rewrite elem_of_union, elem_of_singleton, !elem_of_dom.
  split; [intros [->|?]; eauto | eauto].
Qed.

Ltac other_column :=
  unfold portfolio_columns;
  repeat (first [apply list_elem_of_here | apply list_elem_of_further]).

Lemma portfolio_step_frame (get_delt : string → string → Z → value)
    (yespos : list yrow) (trades_df : gmap string dict) (account_value : Z)
    (pst pst' : pstate) (ppp : PortfolioItem) :
  portfolio_step get_delt yespos trades_df account_value pst ppp = Ok pst' →
  dom (positions pst') = dom (positions pst)
  ∧ framed (positions pst) (positions pst').
Proof.
  intros Hstep. unfold portfolio_step in Hstep.
  apply bind_inv in Hstep as (st1 & Hst1 & Hstep).
  assert (Hpos1 : positions st1 = positions pst).
  { destruct (negb _); cbn [first pvars positions] in Hst1.
    - apply bind_inv in Hst1 as ([v fl] & _ & Hst1).
      by injection Hst1 as <-.
    - destruct (first pst).
      + apply bind_inv in Hst1 as ([v fl] & _ & Hst1).
        by injection Hst1 as <-.
      + by injection Hst1 as <-. }
  rewrite <- Hpos1 in *. clear Hst1 Hpos1.
  destruct (ctype (pcontract ppp)).
  - unfold option_row in Hstep.
    apply bind_inv in Hstep as (row & Hrow & Hstep).
    apply bind_inv in Hstep as (b0 & _ & Hstep).
    apply bind_inv in Hstep as (bal & _ & Hstep).
    apply bind_inv in Hstep as (otp & _ & Hstep).
    apply bind_inv in Hstep as (a & _ & Hstep).
    injection Hstep as <-. cbn [positions].
    unfold trades_getitem in Hrow.
    destruct (positions st1 !! symbol (pcontract ppp)) as [r|] eqn:Hr;
      [|discriminate]. injection Hrow as ->.
    split; [by eapply dom_insert_known|].
    apply framed_update; [done|]. intros k Hk.
    apply lit_get_None. intros Hin. apply Hk. cbn in Hin.
    repeat (apply elem_of_cons in Hin as [->|Hin]; [other_column|]).
    by apply elem_of_nil in Hin.
  - unfold stock_row in Hstep.
    apply bind_inv in Hstep as (row & Hrow & Hstep).
    apply bind_inv in Hstep as (b0 & _ & Hstep).
    apply bind_inv in Hstep as (bal & _ & Hstep).
    apply bind_inv in Hstep as (tp & _ & Hstep).
    apply bind_inv in Hstep as (lp & _ & Hstep).
    apply bind_inv in Hstep as (a & _ & Hstep).
    apply bind_inv in Hstep as (diff & _ & Hstep).
    apply bind_inv in Hstep as (pnl & _ & Hstep).
    injection Hstep as <-. cbn [positions].
    unfold trades_getitem in Hrow.
    destruct (positions st1 !! symbol (pcontract ppp)) as [r|] eqn:Hr;
      [|discriminate]. injection Hrow as ->.
    split; [by eapply dom_insert_known|].
    apply framed_update; [done|]. intros k Hk.
    apply lit_get_None. intros Hin. apply Hk. cbn in Hin.
    repeat (apply elem_of_cons in Hin as [->|Hin]; [other_column|]).
    by apply elem_of_nil in Hin.
  - injection Hstep as <-. split; [done | apply framed_refl].
  - injection Hstep as <-. split; [done | apply framed_refl].
Qed.

Lemma portfolio_pass_frame (get_delt : string → string → Z → value)
    (yespos : list yrow) (trades_df : gmap string dict) (account_value : Z)
    (port : list PortfolioItem) (pst pst' : pstate) :
  portfolio_pass get_delt yespos trades_df account_value pst port = Ok pst' →
  dom (positions pst') = dom (positions pst)
  ∧ framed (positions pst) (positions pst').
Proof.
  unfold portfolio_pass. revert pst.
  induction port as [|ppp port IH]; intros pst Hrun.
  - injection Hrun as <-. split; [done | apply framed_refl].
  - cbn [foldlM] in Hrun. apply bind_inv in Hrun as (pst1 & Hstep & Hrun).
    destruct (portfolio_step_frame _ _ _ _ _ _ _ Hstep) as [Hdom1 Hfr1].
    destruct (IH _ Hrun) as [Hdom Hfr].
    split; [congruence | by eapply framed_trans].
Qed.

(** ** The rows of [port_df] *)

Lemma stub_positions_lookup (d t : string) (pos : list string) (s : string) :
  stub_positions d t pos !! s
  = if bool_decide (s ∈ pos) then Some (stub s d t) else None.
Proof.
  unfold stub_positions.
  assert (H : ∀ (m : gmap string dict) (seen : list string),
            (∀ x, m !! x
                  = if bool_decide (x ∈ seen) then Some (stub x d t)
                    else None) →
            foldl (λ m sym,
                     match m !! sym with
                     | Some _ => m
                     | None => <[sym := stub sym d t]> m
                     end) m pos !! s
            = if bool_decide (s ∈ (seen ++ pos)%list) then Some (stub s d t)
              else None).
  { induction pos as [|sym pos IH]; intros m seen Hm.
    - rewrite app_nil_r. apply Hm.
    - cbn [foldl].
      replace (seen ++ sym :: pos)%list with ((seen ++ [sym]) ++ pos)%list
        by (by rewrite <- app_assoc).
      apply IH. intros x. rewrite (Hm sym).
      destruct (bool_decide_reflect (sym ∈ seen)) as [Hin|Hout].
      + rewrite Hm.
        destruct (bool_decide_reflect (x ∈ seen)) as [Hx|Hx].
        * rewrite bool_decide_eq_true_2; [done|].
          apply elem_of_app. by left.
        * rewrite bool_decide_eq_false_2; [done|].
          intros [?| ->%list_elem_of_singleton]%elem_of_app; done.
      + destruct (decide (sym = x)) as [->|Hne].
        * rewrite lookup_insert_eq, bool_decide_eq_true_2; [done|].
          apply elem_of_app. right. apply list_elem_of_here.
        * rewrite lookup_insert_ne, Hm by done.
          destruct (bool_decide_reflect (x ∈ seen)) as [Hx|Hx].
          -- rewrite bool_decide_eq_true_2; [done|].
             apply elem_of_app. by left.
          -- rewrite bool_decide_eq_false_2; [done|].
             intros [?| ->%list_elem_of_singleton]%elem_of_app; done. }
  apply (H ∅ []). intros x. rewrite lookup_empty.
  rewrite bool_decide_eq_false_2; [done | apply not_elem_of_nil].
Qed.

Lemma first_seen_elem (seen l : list string) (x : string) :
  x ∈ first_seen seen l ↔ x ∈ l ∧ x ∉ seen.
Proof.
  revert seen. induction l as [|y l IH]; intros seen; cbn [first_seen].
  - split; [by intros ?%elem_of_nil | by intros [?%elem_of_nil _]].
  - destruct (bool_decide_reflect (y ∈ seen)) as [Hin|Hout].
    + rewrite IH, elem_of_cons. split; [tauto|].
      intros [[->|?] ?]; [done | tauto].
    + rewrite !elem_of_cons, IH, not_elem_of_cons.
      destruct (decide (x = y)) as [->|Hne]; tauto.
Qed.


Lemma omap_Forall2 {A B} (f : A → option B) (l : list A) :
  Forall (λ x, is_Some (f x)) l →
  Forall2 (λ x y, f x = Some y) l (omap f l).
Proof.
  induction 1 as [|x l [y Hy] _ IH]; cbn [omap list_omap]; [constructor|].
  rewrite Hy. by constructor.
Qed.

Lemma adjust_frame (str_of_float : Z → string)
    (strptime : string → option Z) (today : Z) (row row' : dict) (k : string) :
  adjust str_of_float strptime today row = Ok row' →
  k ≠ "DOE" → k ≠ "action" → row' !! k = row !! k.
Proof.
  intros Hadj Hdoe Hact. unfold adjust in Hadj.
  destruct (negb _).
  - destruct (strptime _) as [doe|]; [|discriminate].
    destruct (doe <=? today).
    + apply bind_inv in Hadj as ([] & _ & Hadj); injection Hadj as <-;
        by rewrite !lookup_insert_ne.
    + injection Hadj as <-. by rewrite lookup_insert_ne.
  - injection Hadj as <-. by rewrite lookup_insert_ne.
Qed.

Lemma post_close_frame (str_of_float : Z → string)
    (strptime : string → option Z) (hour today : Z) (rows rows' : list dict) :
  post_close str_of_float strptime hour today rows = Ok rows' →
  Forall2 (λ row row', ∀ k, k ≠ "DOE" → k ≠ "action" →
                            row' !! k = row !! k) rows rows'.
Proof.
  unfold post_close. destruct (16 <=? hour).
  - intros H%mapM_Forall2. eapply Forall2_impl; [exact H|].
    intros row row' Hadj k. by apply (adjust_frame _ _ _ _ _ _ Hadj).
  - intros [= <-]. apply Forall2_same_length_lookup. split; [done|].
    intros i x y Hx Hy. by simplify_eq.
Qed.

(** The rows of [port_df] against the symbols of the positions query. *)
Lemma recorder_rows (get_delt : string → string → Z → value)
    (str_of_float : Z → string) (strptime : string → option Z) (w : world)
    (read_trades_flag recover_trades_flag : bool)
    (trades_df : gmap string dict) (port_df : list dict)
    (files' : gmap string (list Trade)) :
  recorder get_delt str_of_float strptime w read_trades_flag
    recover_trades_flag = Ok (Recorded trades_df port_df files') →
  Forall2 (λ sym row,
             ∀ k, k ∈ columnTitles → k ∉ portfolio_columns →
                  row !! k
                  = Some (cell (stub sym (log_date w) (log_time w)) k))
          (first_seen [] (pos w)) port_df.
Proof.
  unfold recorder. destruct (holiday w || (5 <=? weekday w)); [discriminate|].
  cbv zeta. intros Hrun.
  apply bind_inv in Hrun as (trds & _ & Hrun).
  apply bind_inv in Hrun as (st & _ & Hrun).
  apply bind_inv in Hrun as (pst & Hpass & Hrun).
  apply bind_inv in Hrun as (rows & Hclose & Hrun).
  injection Hrun as _ <- _.
  apply portfolio_pass_frame in Hpass as [Hdom Hframe].
  cbn [portfolio_start positions] in Hdom, Hframe.
  apply post_close_frame in Hclose.
  assert (Hrows : Forall2 (λ sym row,
                    (reindex <$> positions pst !! sym) = Some row)
                    (first_seen [] (pos w))
                    (omap (λ sym, reindex <$> positions pst !! sym)
                       (first_seen [] (pos w)))).
  { apply omap_Forall2. apply Forall_forall. intros sym Hsym.
    apply first_seen_elem in Hsym as [Hsym _].
    apply fmap_is_Some, elem_of_dom. rewrite Hdom. apply elem_of_dom.
    rewrite stub_positions_lookup, bool_decide_eq_true_2 by done. eauto. }
  apply Forall2_same_length_lookup. split.
  { rewrite (Forall2_length _ _ _ Hrows). by eapply Forall2_length. }
  intros i sym row' Hsym Hrow' k Hk Hkp.
  destruct (Forall2_lookup_l _ _ _ _ _ Hrows Hsym) as (row & Hrow & Hre).
  destruct (Forall2_lookup_l _ _ _ _ _ Hclose Hrow) as (row'' & Hrow'' & Hk').
  assert (row'' = row') as -> by congruence.
  rewrite Hk'.
  - destruct (positions pst !! sym) as [r|] eqn:Hr; [|discriminate].
    injection Hre as <-.
    destruct (Hframe _ _ Hr) as (r0 & Hr0 & Hkeep).
    rewrite stub_positions_lookup in Hr0.
    destruct (bool_decide _); [|discriminate]. injection Hr0 as <-.
    unfold reindex. rewrite (lookup_tabulate _ _ _ Hk).
    unfold cell. by rewrite Hkeep.
  - intros ->. apply Hkp. other_column.
  - intros ->. apply Hkp. other_column.
Qed.

Lemma stub_cell (sym d t : string) :
  cell (stub sym d t) "ticker" = Str sym
  ∧ cell (stub sym d t) "date" = Str d
  ∧ cell (stub sym d t) "time" = Str t
  ∧ cell (stub sym d t) "Commission" = NaN.
Proof.
  unfold cell, stub. rewrite !lookup_update. cbn [lit_get String.eqb].
  rewrite lookup_empty. done.
Qed.

(** The run of the Friday with the short sale of XYZ is recorded. *)
Lemma friday_recorded :
  ∃ trades_df port_df files',
    recorder no_greeks sample_str_of_float sample_strptime
      (friday [abc_shares; xyz_short]) true false = Ok (Recorded trades_df port_df files')
    ∧ List.length port_df = 2%nat.
Proof.
  assert (Hlen : List.length
                   (port_rows
                      (recorder no_greeks sample_str_of_float sample_strptime
                         (friday [abc_shares; xyz_short]) true false))
                 = 2%nat) by (vm_compute; reflexivity).
  destruct (recorder no_greeks sample_str_of_float sample_strptime
              (friday [abc_shares; xyz_short]) true false)
    as [[|trades_df port_df files']|e]; cbn in Hlen; try discriminate Hlen.
  eauto.
Qed.



(** X17. The portfolio loop files its zero commission under the key
    Commision, which is not a column of the sheet: in every row of
    port_df of a recorded run the Commission cell is empty (nan). *)
Theorem commission_column_stays_empty
    (get_delt : string → string → Z → value) (str_of_float : Z → string)
    (strptime : string → option Z) (w : world)
    (read_trades_flag recover_trades_flag : bool)
    (trades_df : gmap string dict) (port_df : list dict)
    (files' : gmap string (list Trade)) :
  recorder get_delt str_of_float strptime w read_trades_flag
    recover_trades_flag = Ok (Recorded trades_df port_df files') →
  Forall (λ row, row !! "Commission" = Some NaN) port_df.
Proof.
  intros Hrun. pose proof (recorder_rows _ _ _ _ _ _ _ _ _ Hrun) as Hrows.
  apply Forall_lookup. intros i row Hrow.
  destruct (Forall2_lookup_r _ _ _ _ _ Hrows Hrow) as (sym & _ & Hk).
  destruct (stub_cell sym (log_date w) (log_time w)) as (_ & _ & _ & Hc).
  rewrite <- Hc. apply Hk; [column | not_col].
Qed.

Lemma commission_column_stays_empty_witness :
  ∃ trades_df port_df files',
    recorder no_greeks sample_str_of_float sample_strptime
      (friday [abc_shares; xyz_short]) true false = Ok (Recorded trades_df port_df files')
    ∧ List.length port_df = 2%nat
    ∧ Forall (λ row, row !! "Commission" = Some NaN) port_df.
Proof.
  destruct friday_recorded
    as (trades_df & port_df & files' & Hrun & Hlen).
  exists trades_df, port_df, files'. split; [exact Hrun|]. split; [exact Hlen|].
  exact (commission_column_stays_empty _ _ _ _ _ _ _ _ _ Hrun).
Defined.

(** ** The ledger of a rollover *)

Lemma rollover_not_buy_write (label : string) :
  String.prefix "ROLLOVER" label = true →
  String.eqb label "BUY WRITE" = false.
Proof.
  intros H. destruct (String.eqb_spec label "BUY WRITE") as [->|]; [|done].
  vm_compute in H. discriminate.
Qed.

Lemma rollover_close_leg_ledger (yespos : list yrow) (account_value : Z)
    (qqq : Contract) (st : tstate) (c p : Z) (fill : Fill) (label : string)
    (row : dict) :
  v_action (vars st) = Some label →
  String.prefix "ROLLOVER" label = true →
  String.eqb (side (execution fill)) "SLD" = false →
  trades st !! symbol qqq = Some row →
  ∃ st' row',
    bag_option_leg yespos account_value qqq (st, c, p) fill
    = Ok (st', commission (commissionReport fill), p + leg_value fill)
    ∧ trades st' = <[symbol qqq := row']> (trades st)
    ∧ v_action (vars st') = Some "ROLLOVER CLOSE"
    ∧ row' !! "Commission" = Some (Num (commission (commissionReport fill)))
    ∧ row' !! "position bal" = Some (Num (p + leg_value fill))
    ∧ row' !! "Option size" = Some (Num (shares (execution fill))).
Proof.
  intros Hact Hpre Hside Hrow.
  unfold bag_option_leg, leg_value. rewrite Hact. simpl.
  rewrite Hside, Hpre, (rollover_not_buy_write _ Hpre).
  destruct (yloc yespos (symbol qqq)) as [|y [|y' l]] eqn:Hy; simpl;
    unfold trades_getitem; rewrite Hrow; simpl;
    eexists _, _; (split; [reflexivity|]); simpl;
    (split; [reflexivity|]); (split; [reflexivity|]);
    repeat split; rewrite lookup_update; reflexivity.
Qed.

Lemma rollover_write_leg_ledger (yespos : list yrow) (account_value : Z)
    (qqq : Contract) (st : tstate) (c p : Z) (fill : Fill) (label : string) :
  v_action (vars st) = Some label →
  String.prefix "ROLLOVER" label = true →
  side (execution fill) = "SLD" →
  trades st !! (symbol qqq +:+ "*") = None →
  ∃ st' row',
    bag_option_leg yespos account_value qqq (st, c, p) fill
    = Ok (st', commission (commissionReport fill), p + leg_value fill)
    ∧ trades st' = <[symbol qqq +:+ "*" := row']> (trades st)
    ∧ v_action (vars st') = Some "ROLLOVER WRITE"
    ∧ row' !! "Commission" = Some (Num (commission (commissionReport fill)))
    ∧ row' !! "position bal" = Some (Num (p + leg_value fill))
    ∧ row' !! "Option size" = Some (Num (shares (execution fill) * -1)).
Proof.
  intros Hact Hpre Hside Hnone.
  unfold bag_option_leg, leg_value. rewrite Hact. simpl.
  rewrite Hside, Hpre, (rollover_not_buy_write _ Hpre). simpl.
  rewrite Hnone. unfold trades_getitem. rewrite lookup_insert_eq. simpl.
  eexists _, _. split; [reflexivity|]. simpl.
  rewrite insert_insert_eq.
  split; [reflexivity|]. split; [reflexivity|].
  repeat split; rewrite lookup_update; reflexivity.
Qed.

(** X18. In a rollover (a Bag order classified ROLLOVER with a buy-back
    leg and a write leg, for a ticker without rows yet) every row gets
    the commission of its own leg only, while the position bal runs on
    across the legs: the row of the leg that fills first holds the value
    of that leg, the row of the leg that fills second the sum of both. *)
Theorem rollover_balance_runs_across_legs (yespos : list yrow)
    (account_value : Z) (st : tstate) (qqq : Contract)
    (buy_back write : Fill) (fs : list Fill) :
  ctype qqq = Bag →
  combo_action qqq = Ok "ROLLOVER" →
  ctype (fill_contract buy_back) = Option →
  side (execution buy_back) = "BOT" →
  ctype (fill_contract write) = Option →
  side (execution write) = "SLD" →
  fs = [buy_back; write] ∨ fs = [write; buy_back] →
  trades st !! symbol qqq = None →
  trades st !! (symbol qqq +:+ "*") = None →
  ∃ st' close_row write_row,
    process_trade yespos account_value st {| contract := qqq; fills := fs |}
    = Ok st'
    ∧ trades st' !! symbol qqq = Some close_row
    ∧ trades st' !! (symbol qqq +:+ "*") = Some write_row
    ∧ close_row !! "Commission"
      = Some (Num (commission (commissionReport buy_back)))
    ∧ write_row !! "Commission"
      = Some (Num (commission (commissionReport write)))
    ∧ (fs = [buy_back; write] →
       close_row !! "position bal" = Some (Num (leg_value buy_back))
       ∧ write_row !! "position bal"
         = Some (Num (leg_value buy_back + leg_value write)))
    ∧ (fs = [write; buy_back] →
       write_row !! "position bal" = Some (Num (leg_value write))
       ∧ close_row !! "position bal"
         = Some (Num (leg_value write + leg_value buy_back))).
Proof.
  intros Hbag Hcombo Hcb Hsb Hcw Hsw Hfs Hnone Hnone'.
  pose proof (starred_ne (symbol qqq)) as Hne.
  assert (Hbot : String.eqb (side (execution buy_back)) "SLD" = false)
    by (by rewrite Hsb).
  assert (Hdiff : buy_back ≠ write).
  { intros Heq. rewrite Heq, Hsw in Hsb. discriminate. }
  unfold process_trade. simpl. rewrite Hbag, Hcombo. simpl.
  unfold open_row. rewrite Hnone.
  set (st0 := set_action "ROLLOVER" _).
  assert (Hst0 : trades st0
                 = <[symbol qqq := {[ "ticker" := Str (symbol qqq) ]}]> (trades st))
    by reflexivity.
  assert (Hact0 : v_action (vars st0) = Some "ROLLOVER") by reflexivity.
  destruct Hfs as [-> | ->]; simpl; unfold bag_fill.
  - rewrite Hcb.
    destruct (rollover_close_leg_ledger yespos account_value qqq st0 0 0
                buy_back "ROLLOVER" {[ "ticker" := Str (symbol qqq) ]})
      as (st1 & crow & -> & Htr1 & Hact1 & Hcc & Hcp & _);
      [done | done | done | by rewrite Hst0, lookup_insert_eq |].
    simpl. rewrite Hcw.
    destruct (rollover_write_leg_ledger yespos account_value qqq st1
                (commission (commissionReport buy_back))
                (0 + leg_value buy_back) write "ROLLOVER CLOSE")
      as (st2 & wrow & -> & Htr2 & Hact2 & Hwc & Hwp & _);
      [done | done | done | |].
    { rewrite Htr1, Hst0, insert_insert_eq.
      by rewrite lookup_insert_ne. }
    simpl. exists st2, crow, wrow.
    rewrite Htr2, Htr1, Hst0, insert_insert_eq.
    split; [reflexivity|].
    split; [by rewrite lookup_insert_ne, lookup_insert_eq|].
    split; [by rewrite lookup_insert_eq|].
    split; [done|]. split; [done|]. split.
    + intros _. by rewrite Hcp, Hwp.
    + intros [= Heq _]. exfalso. by apply Hdiff.
  - rewrite Hcw.
    destruct (rollover_write_leg_ledger yespos account_value qqq st0 0 0
                write "ROLLOVER")
      as (st1 & wrow & -> & Htr1 & Hact1 & Hwc & Hwp & _);
      [done | done | done | |].
    { rewrite Hst0. by rewrite lookup_insert_ne. }
    simpl. rewrite Hcb.
    destruct (rollover_close_leg_ledger yespos account_value qqq st1
                (commission (commissionReport write))
                (0 + leg_value write) buy_back
                "ROLLOVER WRITE" {[ "ticker" := Str (symbol qqq) ]})
      as (st2 & crow & -> & Htr2 & Hact2 & Hcc & Hcp & _);
      [done | done | done | |].
    { rewrite Htr1, Hst0.
      by rewrite lookup_insert_ne, lookup_insert_eq. }
    simpl. exists st2, crow, wrow.
    rewrite Htr2, Htr1, Hst0.
    split; [reflexivity|].
    split; [by rewrite lookup_insert_eq|].
    split; [by rewrite lookup_insert_ne, lookup_insert_eq|].
    split; [done|]. split; [done|]. split.
    + intros [= Heq _]. exfalso. by apply Hdiff.
    + intros _. by rewrite Hcp, Hwp.
Qed.

Lemma rollover_balance_runs_across_legs_witness :
  ∃ st' close_row write_row,
    process_trade [held_xyz] 1000 start
      {| contract := bag_of "XYZ" rollover_legs;
         fills := [buy_back_leg; write_leg] |} = Ok st'
    ∧ trades st' !! "XYZ" = Some close_row
    ∧ trades st' !! "XYZ*" = Some write_row
    ∧ close_row !! "Commission" = Some (Num 1)
    ∧ write_row !! "Commission" = Some (Num 1)
    ∧ ([buy_back_leg; write_leg] = [buy_back_leg; write_leg] →
       close_row !! "position bal" = Some (Num 300)
       ∧ write_row !! "position bal" = Some (Num (300 + -200)))
    ∧ ([buy_back_leg; write_leg] = [write_leg; buy_back_leg] →
       write_row !! "position bal" = Some (Num (-200))
       ∧ close_row !! "position bal" = Some (Num (-200 + 300))).
Proof.
  apply (rollover_balance_runs_across_legs [held_xyz] 1000 start
           (bag_of "XYZ" rollover_legs) buy_back_leg write_leg
           [buy_back_leg; write_leg]).
  - reflexivity.
  - reflexivity.
  - reflexivity.
  - reflexivity.
  - reflexivity.
  - reflexivity.
  - by left.
  - reflexivity.
  - reflexivity.
Defined.

(** ** The labels of an option-only order *)

(** The first option fill of a ticker that has no row yet today. *)
Lemma first_option_fill (yespos : list yrow) (account_value : Z)
    (st : tstate) (qqq : Contract) (fill : Fill) (label : string)
    (otp : value) :
  ctype qqq = Option →
  trades st !! symbol qqq = None →
  option_action yespos (symbol qqq) (execution fill) = Ok (label, otp) →
  ∃ st' row,
    process_trade yespos account_value st
      {| contract := qqq; fills := [fill] |} = Ok st'
    ∧ trades st' !! symbol qqq = Some row
    ∧ row !! "action" = Some (Str label)
    ∧ row !! "option trade price" = Some otp
    ∧ row !! "Option size"
      = Some (Num (if String.eqb (side (execution fill)) "SLD"
                   then shares (execution fill) * -1
                   else shares (execution fill)))
    ∧ row !! "Commission"
      = Some (Num (0 + commission (commissionReport fill))).
Proof.
  intros Hc Hnone Hlabel.
  rewrite (process_option_order _ _ _ _ _ Hc).
  unfold open_row. rewrite Hnone.
  set (st0 := {| trades := _; vars := _ |}).
  assert (Hst0 : trades st0 !! symbol qqq
                 = Some {[ "ticker" := Str (symbol qqq) ]})
    by apply lookup_insert_eq.
  assert (Hact : if has_key {[ "ticker" := Str (symbol qqq) ]}
                      "Underlying size"
                 then ∃ a, ({[ "ticker" := Str (symbol qqq) ]} : dict)
                             !! "action" = Some (Str a)
                           ∧ label = a +:+ " " +:+ label
                 else label = label).
  { rewrite has_key_stub; [done | str_ne]. }
  rewrite (option_fill_runs yespos account_value qqq st0 fill
             {[ "ticker" := Str (symbol qqq) ]} label label otp 0 Hst0
             Hlabel Hact (logged_or_zero_stub _ "Commission" ltac:(str_ne))).
  eexists _, _. split; [reflexivity|]. cbn [trades].
  split; [apply lookup_insert_eq|].
  repeat split; rewrite lookup_update; reflexivity.
Qed.

(** X19. A single-fill option order for a ticker without a row yet is
    labelled by the side of the fill: a sale logs SELL CC with a negative
    Option size; a purchase for a ticker that does not have exactly one
    row in yesterday's sheet logs BUY CALL; any other side logs UNKNOWN;
    in all three cases the option trade price is the execution price. *)
Theorem option_order_labels (yespos : list yrow) (account_value : Z)
    (st : tstate) (qqq : Contract) (fill : Fill) :
  ctype qqq = Option →
  trades st !! symbol qqq = None →
  ¬ (side (execution fill) = "BOT" ∧ ycount yespos (symbol qqq) = 1%nat) →
  ∃ st' row,
    process_trade yespos account_value st
      {| contract := qqq; fills := [fill] |} = Ok st'
    ∧ trades st' !! symbol qqq = Some row
    ∧ row !! "option trade price" = Some (Num (price (execution fill)))
    ∧ (side (execution fill) = "SLD" →
       row !! "action" = Some (Str "SELL CC")
       ∧ row !! "Option size" = Some (Num (- shares (execution fill))))
    ∧ (side (execution fill) = "BOT" →
       row !! "action" = Some (Str "BUY CALL")
       ∧ row !! "Option size" = Some (Num (shares (execution fill))))
    ∧ (side (execution fill) ≠ "SLD" → side (execution fill) ≠ "BOT" →
       row !! "action" = Some (Str "UNKNOWN")
       ∧ row !! "Option size" = Some (Num (shares (execution fill)))).
Proof.
  intros Hc Hnone Hunmatched.
  assert (Hlabel : option_action yespos (symbol qqq) (execution fill)
                   = Ok (if String.eqb (side (execution fill)) "SLD"
                         then "SELL CC"
                         else if String.eqb (side (execution fill)) "BOT"
                              then "BUY CALL" else "UNKNOWN",
                         Num (price (execution fill)))).
  { unfold option_action, ycount in *.
    destruct (String.eqb (side (execution fill)) "SLD"); [done|].
    destruct (String.eqb_spec (side (execution fill)) "BOT") as [Hb|]; [|done].
    destruct (Nat.eqb_spec (List.length (yloc yespos (symbol qqq))) 1)
      as [Hone|]; [|done].
    exfalso. by apply Hunmatched. }
  destruct (first_option_fill yespos account_value st qqq fill _ _ Hc Hnone
              Hlabel)
    as (st' & row & Hrun & Hrow & Ha & Ho & Hs & _).
  exists st', row. split; [done|]. split; [done|]. split; [done|].
  split; [|split].
  - intros Hside. rewrite Hside in Ha, Hs. cbn in Ha, Hs.
    split; [done|]. rewrite Hs. do 2 f_equal. lia.
  - intros Hside. rewrite Hside in Ha, Hs. cbn in Ha, Hs. done.
  - intros Hs1%String.eqb_neq Hs2%String.eqb_neq.
    rewrite Hs1, Hs2 in Ha. rewrite Hs1 in Hs. done.
Qed.

Lemma option_order_labels_witness :
  ∃ st' row,
    process_trade [] 1000 start later_write = Ok st'
    ∧ trades st' !! "XYZ" = Some row
    ∧ row !! "option trade price" = Some (Num 2)
    ∧ ("SLD" = "SLD" →
       row !! "action" = Some (Str "SELL CC")
       ∧ row !! "Option size" = Some (Num (- 1)))
    ∧ ("SLD" = "BOT" →
       row !! "action" = Some (Str "BUY CALL")
       ∧ row !! "Option size" = Some (Num 1))
    ∧ ("SLD" ≠ "SLD" → "SLD" ≠ "BOT" →
       row !! "action" = Some (Str "UNKNOWN")
       ∧ row !! "Option size" = Some (Num 1)).
Proof.
  apply (option_order_labels [] 1000 start (call_of "XYZ" "20230818" 55)
           (fill_of (call_of "XYZ" "20230818" 55) "SLD" 1 2 "10:05" 50 0)).
  - reflexivity.
  - reflexivity.
  - intros [H _]. discriminate H.
Defined.

(** ** The trade files and the flags *)

Lemma recorder_inv (get_delt : string → string → Z → value)
    (str_of_float : Z → string) (strptime : string → option Z) (w : world)
    (read_trades_flag recover_trades_flag : bool)
    (trades_df : gmap string dict) (port_df : list dict)
    (files' : gmap string (list Trade)) :
  recorder get_delt str_of_float strptime w read_trades_flag
    recover_trades_flag = Ok (Recorded trades_df port_df files') →
  let recover := effective_recover read_trades_flag recover_trades_flag in
  ∃ trds st,
    load_trades recover (files w) (live w) = Ok trds
    ∧ files' = save_trades recover (log_date w) trds (files w)
    ∧ trade_pass read_trades_flag recover (yespos w) (account_value w) trds
      = Ok st
    ∧ trades_df = reindex <$> trades st.
Proof.
  unfold recorder. destruct (holiday w || (5 <=? weekday w)); [discriminate|].
  cbv zeta. intros Hrun.
  apply bind_inv in Hrun as (trds & Hload & Hrun).
  apply bind_inv in Hrun as (st & Hpass & Hrun).
  apply bind_inv in Hrun as (pst & _ & Hrun).
  apply bind_inv in Hrun as (rows & _ & Hrun).
  injection Hrun as <- _ <-. by exists trds, st.
Qed.

(** X20. Of the pickled trade files, a recorded run changes at most the
    one named after today; a recovery run changes none; and a run that
    is not a recovery and finds live trades stores them under today's
    name, also when read_trades_flag is off and they are not
    processed. *)
Theorem recorder_saves_only_todays_trades
    (get_delt : string → string → Z → value) (str_of_float : Z → string)
    (strptime : string → option Z) (w : world)
    (read_trades_flag recover_trades_flag : bool)
    (trades_df : gmap string dict) (port_df : list dict)
    (files' : gmap string (list Trade)) :
  recorder get_delt str_of_float strptime w read_trades_flag
    recover_trades_flag = Ok (Recorded trades_df port_df files') →
  (∀ f, f ≠ tradeslogfile (log_date w) → files' !! f = files w !! f)
  ∧ (read_trades_flag = false → recover_trades_flag = true →
     files' = files w)
  ∧ (¬ (read_trades_flag = false ∧ recover_trades_flag = true) →
     live w ≠ [] →
     files' !! tradeslogfile (log_date w) = Some (live w)).
Proof.
  intros Hrun.
  destruct (recorder_inv _ _ _ _ _ _ _ _ _ Hrun)
    as (trds & st & Hload & -> & _ & _).
  unfold save_trades, load_trades, effective_recover in *.
  split; [|split].
  - intros f Hf. destruct (Nat.eqb _ _); [done|].
    destruct (negb _); [|done]. by rewrite lookup_insert_ne.
  - intros -> ->. cbn. by destruct (Nat.eqb _ _).
  - intros Hflags Hlive.
    assert ((if read_trades_flag then false else recover_trades_flag)
            = false) as Hrec.
    { destruct read_trades_flag, recover_trades_flag; try done.
      exfalso. by apply Hflags. }
    rewrite Hrec in *. injection Hload as <-.
    destruct (live w) as [|t l]; [done|]. cbn.
    apply lookup_insert_eq.
Qed.

Lemma recorder_saves_only_todays_trades_witness :
  ∃ trades_df port_df files',
    recorder no_greeks sample_str_of_float sample_strptime
      (friday [abc_shares; xyz_short]) true false
    = Ok (Recorded trades_df port_df files')
    ∧ (∀ f, f ≠ tradeslogfile "2023-07-21" →
            files' !! f = (∅ : gmap string (list Trade)) !! f)
    ∧ (true = false → false = true → files' = ∅)
    ∧ (¬ (true = false ∧ false = true) →
       live (friday [abc_shares; xyz_short]) ≠ [] →
       files' !! tradeslogfile "2023-07-21"
       = Some (live (friday [abc_shares; xyz_short]))).
Proof.
  destruct friday_recorded as (trades_df & port_df & files' & Hrun & _).
  exists trades_df, port_df, files'. split; [exact Hrun|].
  exact (recorder_saves_only_todays_trades _ _ _ _ _ _ _ _ _ Hrun).
Defined.

(** ** Rows are never dropped by the trade loop *)

Ltac binds H :=
  repeat (first
    [ apply bind_inv in H as ([? ?] & _ & H)
    | apply bind_inv in H as (? & _ & H) ]).

Lemma option_fill_dom (yespos : list yrow) (account_value : Z)
    (qqq : Contract) (st st' : tstate) (fill : Fill) :
  option_fill yespos account_value qqq st fill = Ok st' →
  dom (trades st) ⊆ dom (trades st').
Proof.
  intros H. unfold option_fill in H. cbv zeta in H. binds H.
  injection H as <-. cbn [trades]. apply dom_insert_subseteq.
Qed.

Lemma stock_fill_dom (yespos : list yrow) (account_value : Z)
    (qqq : Contract) (st st' : tstate) (fill : Fill) :
  stock_fill yespos account_value qqq st fill = Ok st' →
  dom (trades st) ⊆ dom (trades st').
Proof.
  intros H. unfold stock_fill in H. cbv zeta in H. binds H.
  injection H as <-. cbn [trades]. apply dom_insert_subseteq.
Qed.

Lemma bag_fill_dom (yespos : list yrow) (account_value : Z)
    (qqq : Contract) (st st' : tstate) (c p c' p' : Z) (fill : Fill) :
  bag_fill yespos account_value qqq (st, c, p) fill = Ok (st', c', p') →
  dom (trades st) ⊆ dom (trades st').
Proof.
  intros H. unfold bag_fill in H.
  destruct (ctype (fill_contract fill)).
  - unfold bag_option_leg in H. cbv zeta in H.
    apply bind_inv in H as (a & _ & H).
    apply bind_inv in H as ([[[[os a'] mysym] trades1] otp] & Hleg & H).
    apply bind_inv in H as (row & _ & H).
    injection H as <- _ _. cbn [trades].
    assert (dom (trades st) ⊆ dom trades1) as Hsub.
    { destruct (String.eqb (side (execution fill)) "SLD").
      - destruct (String.prefix "ROLLOVER" a).
        + injection Hleg as _ _ _ <- _.
          destruct (trades st !! _); [done | apply dom_insert_subseteq].
        + by injection Hleg as _ _ _ <- _.
      - destruct (String.prefix "ROLLOVER" a).
        + destruct (Nat.eqb _ 1).
          * apply bind_inv in Hleg as (y & _ & Hleg).
            by injection Hleg as _ _ _ <- _.
          * by injection Hleg as _ _ _ <- _.
        + by injection Hleg as _ _ _ <- _. }
    etrans; [exact Hsub | apply dom_insert_subseteq].
  - unfold bag_stock_leg in H. cbv zeta in H. binds H.
    injection H as <- _ _. cbn [trades]. apply dom_insert_subseteq.
  - by injection H as <- _ _.
  - by injection H as <- _ _.
Qed.

Lemma foldlM_dom {S B} (f : S → B → result S) (rows : S → gmap string dict)
    (l : list B) (s s' : S) :
  (∀ a b a', f a b = Ok a' → dom (rows a) ⊆ dom (rows a')) →
  foldlM f s l = Ok s' → dom (rows s) ⊆ dom (rows s').
Proof.
  intros Hf. revert s. induction l as [|x l IH]; intros s H; cbn [foldlM] in H.
  - by injection H as <-.
  - apply bind_inv in H as (s1 & Hs1 & H).
    etrans; [by eapply Hf | by apply IH].
Qed.

Lemma open_row_dom (sym : string) (st : tstate) :
  sym ∈ dom (trades (open_row sym st))
  ∧ dom (trades st) ⊆ dom (trades (open_row sym st)).
Proof.
  unfold open_row. destruct (trades st !! sym) eqn:Hs; cbn [trades].
  - split; [by apply elem_of_dom | done].
  - split; [|apply dom_insert_subseteq].
    apply elem_of_dom. rewrite lookup_insert_eq. eauto.
Qed.

Lemma process_trade_dom (yespos : list yrow) (account_value : Z)
    (st st' : tstate) (t : Trade) :
  process_trade yespos account_value st t = Ok st' →
  symbol (contract t) ∈ dom (trades st')
  ∧ dom (trades st) ⊆ dom (trades st').
Proof.
  intros H. unfold process_trade in H. cbv zeta in H.
  destruct (open_row_dom (symbol (contract t)) st) as [Hin Hsub].
  assert (dom (trades (open_row (symbol (contract t)) st))
          ⊆ dom (trades st')) as Hrest.
  { destruct (ctype (contract t)).
    - apply (foldlM_dom _ trades _ _ _) in H; [done|].
      intros a b a'. apply option_fill_dom.
    - apply (foldlM_dom _ trades _ _ _) in H; [done|].
      intros a b a'. apply stock_fill_dom.
    - apply bind_inv in H as (a & _ & H).
      apply bind_inv in H as ([[st1 c1] p1] & H & Heq).
      injection Heq as <-.
      apply (foldlM_dom _ (λ s : tstate * Z * Z, trades s.1.1) _ _ _) in H;
        [done|].
      intros [[s0 c0] p0] b [[s2 c2] p2]. apply bag_fill_dom.
    - by injection H as <-. }
  split; [by apply Hrest | by etrans].
Qed.

Lemma process_trades_dom (yespos : list yrow) (account_value : Z)
    (trds : list Trade) (st st' : tstate) :
  process_trades yespos account_value st trds = Ok st' →
  dom (trades st) ⊆ dom (trades st')
  ∧ Forall (λ t, symbol (contract t) ∈ dom (trades st')) trds.
Proof.
  unfold process_trades. revert st.
  induction trds as [|t l IH]; intros st H; cbn [foldlM] in H.
  - injection H as <-. split; [done | constructor].
  - apply bind_inv in H as (st1 & Hs1 & H).
    destruct (process_trade_dom _ _ _ _ _ Hs1) as [Hin Hsub].
    destruct (IH _ H) as [Hsub' Hall].
    split; [by etrans|]. constructor; [by apply Hsub' | done].
Qed.

(** The same Friday run with both flags off is recorded. *)
Lemma friday_unflagged_recorded :
  ∃ trades_df port_df files',
    recorder no_greeks sample_str_of_float sample_strptime
      (friday [abc_shares; xyz_short]) false false
    = Ok (Recorded trades_df port_df files').
Proof.
  assert (Hlen : List.length
                   (port_rows
                      (recorder no_greeks sample_str_of_float sample_strptime
                         (friday [abc_shares; xyz_short]) false false))
                 = 2%nat) by (vm_compute; reflexivity).
  destruct (recorder no_greeks sample_str_of_float sample_strptime
              (friday [abc_shares; xyz_short]) false false)
    as [[|trades_df port_df files']|e]; cbn in Hlen; try discriminate Hlen.
  eauto.
Qed.

(** X21. Called with both flags off, as the docstring prescribes for the
    scheduled end-of-day job, recorder() never enters the trade loop:
    the trades frame of a recorded run is empty, whatever the live
    trades are. *)
Theorem recorder_without_flags_logs_no_trades
    (get_delt : string → string → Z → value) (str_of_float : Z → string)
    (strptime : string → option Z) (w : world)
    (trades_df : gmap string dict) (port_df : list dict)
    (files' : gmap string (list Trade)) :
  recorder get_delt str_of_float strptime w false false
  = Ok (Recorded trades_df port_df files') →
  trades_df = ∅.
Proof.
  intros Hrun.
  destruct (recorder_inv _ _ _ _ _ _ _ _ _ Hrun)
    as (trds & st & _ & _ & Hpass & ->).
  unfold trade_pass in Hpass. cbn [orb andb] in Hpass.
  injection Hpass as <-. apply fmap_empty.
Qed.

Lemma recorder_without_flags_logs_no_trades_witness :
  ∃ trades_df port_df files',
    recorder no_greeks sample_str_of_float sample_strptime
      (friday [abc_shares; xyz_short]) false false
    = Ok (Recorded trades_df port_df files')
    ∧ live (friday [abc_shares; xyz_short]) ≠ []
    ∧ trades_df = ∅.
Proof.
  destruct friday_unflagged_recorded as (trades_df & port_df & files' & Hrun).
  exists trades_df, port_df, files'. split; [exact Hrun|].
  split; [discriminate|].
  exact (recorder_without_flags_logs_no_trades _ _ _ _ _ _ _ Hrun).
Defined.

(** X22. Started from the command line, with or without
    --recover_trades, one of the two flags is always on: in a recorded
    run every order of the trades worked on (the recovery file's, or
    the live ones) has a row under its symbol in the trades frame. *)
Theorem main_logs_every_order
    (get_delt : string → string → Z → value) (str_of_float : Z → string)
    (strptime : string → option Z) (recover_trades : bool) (w : world)
    (trds : list Trade) (trades_df : gmap string dict)
    (port_df : list dict) (files' : gmap string (list Trade)) :
  main get_delt str_of_float strptime recover_trades w
  = Ok (Recorded trades_df port_df files') →
  source_trades recover_trades w = Some trds →
  Forall (λ t, is_Some (trades_df !! symbol (contract t))) trds.
Proof.
  unfold main, source_trades. intros Hrun Hsrc.
  destruct (recorder_inv _ _ _ _ _ _ _ _ _ Hrun)
    as (trds' & st & Hload & _ & Hpass & ->).
  assert (trds' = trds ∧ trade_pass true true (yespos w) (account_value w)
                            trds = Ok st) as [-> Hpass'].
  { destruct recover_trades; cbn in Hload, Hpass.
    - rewrite Hsrc in Hload. by injection Hload as <-.
    - injection Hload as <-. by injection Hsrc as <-. }
  clear Hload Hpass. unfold trade_pass in Hpass'. cbn [orb andb] in Hpass'.
  destruct trds as [|t l]; [constructor|].
  cbn [List.length Nat.eqb negb] in Hpass'.
  destruct (process_trades_dom _ _ _ _ _ Hpass') as [_ Hall].
  eapply Forall_impl; [exact Hall|]. intros t' Hin. cbn in Hin.
  rewrite lookup_fmap. apply fmap_is_Some. by apply elem_of_dom.
Qed.

Lemma main_logs_every_order_witness :
  ∃ trades_df port_df files',
    main no_greeks sample_str_of_float sample_strptime false
      (friday [abc_shares; xyz_short])
    = Ok (Recorded trades_df port_df files')
    ∧ Forall (λ t, is_Some (trades_df !! symbol (contract t)))
        (live (friday [abc_shares; xyz_short])).
Proof.
  destruct friday_recorded as (trades_df & port_df & files' & Hrun & _).
  exists trades_df, port_df, files'. split; [exact Hrun|].
  exact (main_logs_every_order no_greeks sample_str_of_float sample_strptime
           false (friday [abc_shares; xyz_short]) _ _ _ _ Hrun eq_refl).
Defined.

(** ** A ticker bought today *)

Lemma map_size_1_lookup (m : gmap string dict) (k : string) (r : dict) :
  size m = 1%nat → m !! k = Some r → m = {[ k := r ]}.
Proof.
  intros Hsize Hk. rewrite <- (insert_delete_id m k r Hk).
  assert (size (delete k m) = 0%nat) as Hzero.
  { rewrite map_size_delete_Some by eauto. by rewrite Hsize. }
  apply map_size_empty_inv in Hzero. by rewrite Hzero, insert_empty.
Qed.

Lemma tloc_single (trades_df : gmap string dict) (sym : string)
    (trow : dict) :
  tcount trades_df sym = 1%nat →
  trades_df !! sym = Some trow →
  cell trow "ticker" = Str sym →
  tloc trades_df sym = {[ sym := trow ]}.
Proof.
  intros Hn Hrow Hticker. apply map_size_1_lookup; [done|].
  unfold tloc. apply map_lookup_filter_Some. split; [done|]. cbn [snd].
  rewrite Hticker. cbn [py_eq]. apply String.eqb_refl.
Qed.

(** X23. A stock record, first of its ticker, for a ticker whose only
    trade row today is a purchase (its action is BUY WRITE or starts
    with BOT): the position row takes trade price and leg price from
    today's trade row, not from yesterday's sheet, and its
    P/L underlying leg is the position times (market price minus that
    leg price). *)
Theorem bought_today_takes_basis_from_trade
    (get_delt : string → string → Z → value) (yespos : list yrow)
    (trades_df : gmap string dict) (account_value : Z) (pst : pstate)
    (ppp : PortfolioItem) (trow prow : dict) (a : string) (tp : value)
    (b l : Z) :
  ctype (pcontract ppp) = Stock →
  symbol (pcontract ppp) ≠ prevticker pst →
  tcount trades_df (symbol (pcontract ppp)) = 1%nat →
  trades_df !! symbol (pcontract ppp) = Some trow →
  cell trow "ticker" = Str (symbol (pcontract ppp)) →
  cell trow "action" = Str a →
  a = "BUY WRITE" ∨ String.prefix "BOT" a = true →
  cell trow "trade price" = tp →
  cell trow "leg price" = Num l →
  positions pst !! symbol (pcontract ppp) = Some prow →
  prow !! "position bal" = Some (Num b) →
  ∃ pst' prow',
    portfolio_step get_delt yespos trades_df account_value pst ppp = Ok pst'
    ∧ positions pst' = <[symbol (pcontract ppp) := prow']> (positions pst)
    ∧ prow' !! "action" = Some (Str "OBSERVE")
    ∧ prow' !! "trade price" = Some tp
    ∧ prow' !! "leg price" = Some (Num l)
    ∧ prow' !! "P/L underlying leg"
      = Some (Num (position ppp * (marketPrice ppp - l))).
Proof.
  intros Hc Hnew Hn Htrow Hticker Hact Hbought <- Hl Hrow Hbal.
  apply String.eqb_neq in Hnew.
  pose proof (tloc_single _ _ _ Hn Htrow Hticker) as Hloc.
  assert (Hres : resolve_basis yespos trades_df (symbol (pcontract ppp))
                   (with_action "OBSERVE" (pvars pst))
                 = Ok (with_option_trade_price
                         (cell trow "option trade price")
                         (with_leg_price (Num l)
                            (with_trade_price (cell trow "trade price")
                               (with_action "OBSERVE" (pvars pst)))),
                       no_flags)).
  { unfold resolve_basis, df_loc, series_getitem, series_iloc0,
      trades_getitem.
    rewrite Hn, Htrow, Hloc, lookup_singleton_eq, map_to_list_singleton.
    cbn [Nat.eqb mbind result_bind fmap list_fmap iloc0 snd].
    rewrite Hact, Hl.
    assert (py_eq (Str a) (Str "SELL CC") = false
            ∧ py_eq (Str a) (Str "CLOSE CC") = false
            ∧ (if py_eq (Str a) (Str "BUY WRITE") then Ok true
               else startswith (Str a) "BOT") = Ok true)
      as (-> & -> & ->); [|reflexivity].
    cbn [py_eq startswith].
    destruct Hbought as [->|Hpre]; [done|].
    rewrite Hpre.
    destruct (String.eqb_spec a "SELL CC") as [->|];
      [vm_compute in Hpre; discriminate|].
    destruct (String.eqb_spec a "CLOSE CC") as [->|];
      [vm_compute in Hpre; discriminate|].
    by destruct (String.eqb a "BUY WRITE"). }
  destruct (stock_record get_delt yespos trades_df account_value pst ppp
              _ no_flags prow b l (cell trow "trade price") "OBSERVE"
              Hc Hnew Hres Hrow Hbal eq_refl eq_refl eq_refl)
    as (pst' & prow' & ? & ? & ? & ? & ? & ? & _).
  exists pst', prow'. done.
Qed.

Lemma bought_today_takes_basis_from_trade_witness :
  ∃ pst' prow',
    portfolio_step no_greeks [held_xyz] bought_xyz 1000 observing_xyz
      xyz_shares = Ok pst'
    ∧ positions pst' = <["XYZ" := prow']> (positions observing_xyz)
    ∧ prow' !! "action" = Some (Str "OBSERVE")
    ∧ prow' !! "trade price" = Some (Num 50)
    ∧ prow' !! "leg price" = Some (Num 50)
    ∧ prow' !! "P/L underlying leg" = Some (Num (100 * (52 - 50))).
Proof.
  apply (bought_today_takes_basis_from_trade no_greeks [held_xyz] bought_xyz
           1000 observing_xyz xyz_shares
           (reindex (update ∅ [("ticker", Str "XYZ"); ("action", Str "BOT");
                               ("trade price", Num 50);
                               ("leg price", Num 50)]))
           (stub "XYZ" "2023-07-21" "15:00:00") "BOT" (Num 50) 0 50).
  - reflexivity.
  - discriminate.
  - vm_compute. reflexivity.
  - change (symbol (pcontract xyz_shares)) with "XYZ".
    unfold bought_xyz. rewrite lookup_fmap, lookup_singleton_eq.
    reflexivity.
  - vm_compute. reflexivity.
  - vm_compute. reflexivity.
  - right. reflexivity.
  - vm_compute. reflexivity.
  - vm_compute. reflexivity.
  - apply stub_positions_one.
  - apply stub_bal.
Defined.

(** ** A day without trades *)

Lemma cell_update (row : dict) (d : list (string * value)) (k : string) :
  cell (update row d) k
  = match lit_get k d with Some v => v | None => cell row k end.
Proof. unfold cell. rewrite lookup_update. by destruct (lit_get k d). Qed.

Lemma portfolio_step_closable (get_delt : string → string → Z → value)
    (strptime : string → option Z) (yespos : list yrow)
    (trades_df : gmap string dict) (account_value : Z)
    (pst pst' : pstate) (ppp : PortfolioItem) :
  (∀ s row, positions pst !! s = Some row → closable strptime row) →
  (ctype (pcontract ppp) = Option →
   readable strptime (lastTradeDateOrContractMonth (pcontract ppp))) →
  portfolio_step get_delt yespos trades_df account_value pst ppp = Ok pst' →
  ∀ s row, positions pst' !! s = Some row → closable strptime row.
Proof.
  intros Hinv Hexp Hstep. unfold portfolio_step in Hstep.
  apply bind_inv in Hstep as (st1 & Hst1 & Hstep).
  assert (Hpos1 : positions st1 = positions pst).
  { destruct (negb _); cbn [first pvars positions] in Hst1.
    - apply bind_inv in Hst1 as ([v fl] & _ & Hst1).
      by injection Hst1 as <-.
    - destruct (first pst).
      + apply bind_inv in Hst1 as ([v fl] & _ & Hst1).
        by injection Hst1 as <-.
      + by injection Hst1 as <-. }
  rewrite <- Hpos1 in *. clear Hst1 Hpos1.
  destruct (ctype (pcontract ppp)).
  - specialize (Hexp eq_refl). unfold option_row in Hstep.
    apply bind_inv in Hstep as (row & Hrow & Hstep).
    apply bind_inv in Hstep as (b0 & _ & Hstep).
    apply bind_inv in Hstep as (bal & _ & Hstep).
    apply bind_inv in Hstep as (otp & _ & Hstep).
    apply bind_inv in Hstep as (a & _ & Hstep).
    injection Hstep as <-. cbn [positions].
    unfold trades_getitem in Hrow.
    destruct (positions st1 !! symbol (pcontract ppp)) as [r|] eqn:Hr;
      [|discriminate]. injection Hrow as ->.
    intros s row'. destruct (decide (symbol (pcontract ppp) = s)) as [<-|Hne].
    + rewrite lookup_insert_eq. intros [= <-].
      destruct (Hinv _ _ Hr) as (Hk & Hp & _).
      unfold closable. rewrite !cell_update. cbn [lit_get String.eqb].
      split; [done|]. split; [done|]. right. eauto.
    + rewrite lookup_insert_ne by done. apply Hinv.
  - unfold stock_row in Hstep.
    apply bind_inv in Hstep as (row & Hrow & Hstep).
    apply bind_inv in Hstep as (b0 & _ & Hstep).
    apply bind_inv in Hstep as (bal & _ & Hstep).
    apply bind_inv in Hstep as (tp & _ & Hstep).
    apply bind_inv in Hstep as (lp & _ & Hstep).
    apply bind_inv in Hstep as (a & _ & Hstep).
    apply bind_inv in Hstep as (diff & _ & Hstep).
    apply bind_inv in Hstep as (pnl & _ & Hstep).
    injection Hstep as <-. cbn [positions].
    unfold trades_getitem in Hrow.
    destruct (positions st1 !! symbol (pcontract ppp)) as [r|] eqn:Hr;
      [|discriminate]. injection Hrow as ->.
    intros s row'. destruct (decide (symbol (pcontract ppp) = s)) as [<-|Hne].
    + rewrite lookup_insert_eq. intros [= <-].
      destruct (Hinv _ _ Hr) as (Hk & _ & Hd).
      unfold closable. rewrite !cell_update. cbn [lit_get String.eqb].
      done.
    + rewrite lookup_insert_ne by done. apply Hinv.
  - by injection Hstep as <-.
  - by injection Hstep as <-.
Qed.

Lemma portfolio_pass_closable (get_delt : string → string → Z → value)
    (strptime : string → option Z) (yespos : list yrow)
    (trades_df : gmap string dict) (account_value : Z)
    (port : list PortfolioItem) (pst pst' : pstate) :
  (∀ s row, positions pst !! s = Some row → closable strptime row) →
  Forall (λ ppp, ctype (pcontract ppp) = Option →
                 readable strptime
                   (lastTradeDateOrContractMonth (pcontract ppp))) port →
  portfolio_pass get_delt yespos trades_df account_value pst port = Ok pst' →
  ∀ s row, positions pst' !! s = Some row → closable strptime row.
Proof.
  unfold portfolio_pass. intros Hinv Hport. revert pst Hinv.
  induction Hport as [|ppp port Hexp _ IH]; intros pst Hinv Hrun;
    cbn [foldlM] in Hrun.
  - by injection Hrun as <-.
  - apply bind_inv in Hrun as (pst1 & Hstep & Hrun).
    eapply IH; [|exact Hrun].
    by eapply portfolio_step_closable.
Qed.

Lemma closable_adjustable (str_of_float : Z → string)
    (strptime : string → option Z) (row : dict) :
  closable strptime row →
  adjustable str_of_float strptime (reindex row) = true.
Proof.
  intros (Hk & Hp & Hd). unfold adjustable, doe_text.
  rewrite !reindex_cell by column.
  destruct Hd as [-> | (exp & -> & [-> | [doe Hdoe]])]; cbn [astype_str].
  - reflexivity.
  - reflexivity.
  - destruct (String.eqb exp "nan"); [done|].
    rewrite Hdoe. by rewrite Hk, Hp.
Qed.

Lemma stub_closable (strptime : string → option Z) (sym d t : string) :
  closable strptime (stub sym d t).
Proof.
  unfold closable, stub. rewrite !cell_update. cbn [lit_get String.eqb].
  unfold cell. rewrite !lookup_empty. cbn. eauto.
Qed.

(** X24. On a trading day on which ib.trades() is empty, with floats in
    yesterday's sheet, and a portfolio of real tickers that are all among
    the positions, each with at most one row in the sheet and with
    readable option expirations, recorder() called with read_trades_flag
    returns before and after 16:00: the trades frame is empty, the trade
    files are untouched and port_df has one row per distinct symbol of
    the positions. *)
Theorem quiet_day_is_recorded
    (get_delt : string → string → Z → value) (str_of_float : Z → string)
    (strptime : string → option Z) (w : world) (recover_trades_flag : bool) :
  holiday w = false →
  weekday w < 5 →
  live w = [] →
  Forall (λ y, typed_yrow y = true) (yespos w) →
  quiet_portfolio strptime w →
  ∃ port_df,
    recorder get_delt str_of_float strptime w true recover_trades_flag
    = Ok (Recorded ∅ port_df (files w))
    ∧ List.length port_df = List.length (first_seen [] (pos w)).
Proof.
  intros Hhol Hwd Hlive Hy Hport.
  unfold recorder. rewrite Hhol.
  assert ((5 <=? weekday w) = false) as -> by lia.
  cbn [orb effective_recover load_trades mbind result_bind].
  rewrite Hlive. unfold save_trades, trade_pass.
  cbn [List.length Nat.eqb negb orb andb mbind result_bind].
  unfold start. cbn [trades vars]. rewrite fmap_empty.
  set (stubs := stub_positions (log_date w) (log_time w) (pos w)).
  destruct (portfolio_pass_quiet get_delt (yespos w) (account_value w)
              (port w) (portfolio_start no_locals stubs) (λ _, 0) Hy)
    as (pst & Hpass).
  { left. split; reflexivity. }
  { apply stub_positions_bal. }
  { eapply Forall_impl; [exact Hport|].
    intros ppp (Hreal & Hcount & Hin & _). repeat split; try done.
    cbn [portfolio_start positions]. unfold stubs.
    rewrite stub_positions_lookup, bool_decide_eq_true_2 by done. eauto. }
  rewrite Hpass. cbn [mbind result_bind].
  pose proof (portfolio_pass_frame _ _ _ _ _ _ _ Hpass) as [Hdom _].
  assert (Hclos : ∀ s row, positions pst !! s = Some row →
                           closable strptime row).
  { eapply portfolio_pass_closable; [| |exact Hpass].
    - cbn [portfolio_start positions]. unfold stubs. intros s row.
      rewrite stub_positions_lookup. destruct (bool_decide _); [|done].
      intros [= <-]. apply stub_closable.
    - eapply Forall_impl; [exact Hport|]. by intros ppp (_ & _ & _ & ?). }
  set (rows := omap (λ sym, reindex <$> positions pst !! sym)
                 (first_seen [] (pos w))).
  assert (Hrows : Forall2 (λ sym row,
                    (reindex <$> positions pst !! sym) = Some row)
                    (first_seen [] (pos w)) rows).
  { apply omap_Forall2. apply Forall_forall. intros sym Hsym.
    apply first_seen_elem in Hsym as [Hsym _].
    apply fmap_is_Some, elem_of_dom. rewrite Hdom. apply elem_of_dom.
    cbn [portfolio_start positions]. unfold stubs.
    rewrite stub_positions_lookup, bool_decide_eq_true_2 by done. eauto. }
  assert (Hadj : Forall (λ row, adjustable str_of_float strptime row = true)
                   rows).
  { apply Forall_lookup. intros i row Hi.
    destruct (Forall2_lookup_r _ _ _ _ _ Hrows Hi) as (sym & _ & Hre).
    destruct (positions pst !! sym) as [r|] eqn:Hr; [|discriminate].
    injection Hre as <-. apply closable_adjustable. by eapply Hclos. }
  assert (∃ out, post_close str_of_float strptime (hour w) (today w) rows
                 = Ok out ∧ List.length out = List.length rows)
    as (out & -> & Hlen).
  { unfold post_close. destruct (16 <=? hour w); [|eauto].
    destruct (mapM_total (adjust str_of_float strptime (today w)) rows)
      as [out Hout].
    - eapply Forall_impl; [exact Hadj|]. intros row Hrow. cbn beta.
      destruct (adjust_adjusted _ _ (today w) _ Hrow) as (row' & Hr & _).
      eauto.
    - exists out. split; [done|]. apply mapM_Forall2 in Hout.
      symmetry. by eapply Forall2_length. }
  cbn [mbind result_bind]. exists out. split; [reflexivity|].
  rewrite Hlen. symmetry. by eapply Forall2_length.
Qed.

Lemma quiet_day_is_recorded_witness :
  ∃ port_df,
    recorder no_greeks sample_str_of_float sample_strptime friday_evening
      true false = Ok (Recorded ∅ port_df (files friday_evening))
    ∧ List.length port_df = List.length (first_seen [] (pos friday_evening)).
Proof.
  apply (quiet_day_is_recorded no_greeks sample_str_of_float sample_strptime
           friday_evening false).
  - reflexivity.
  - reflexivity.
  - reflexivity.
  - repeat constructor.
  - assert (Hitem : ∀ ppp, symbol (pcontract ppp) = "ABC" →
              (ctype (pcontract ppp) = Option →
               readable sample_strptime
                 (lastTradeDateOrContractMonth (pcontract ppp))) →
              symbol (pcontract ppp) ≠ "not a real ticker"
              ∧ (ycount (yespos friday_evening) (symbol (pcontract ppp)) ≤ 1)%nat
              ∧ symbol (pcontract ppp) ∈ pos friday_evening
              ∧ (ctype (pcontract ppp) = Option →
                 readable sample_strptime
                   (lastTradeDateOrContractMonth (pcontract ppp)))).
    { intros ppp -> Hexp. split; [str_ne|]. split; [vm_compute; lia|].
      split; [apply list_elem_of_here | done]. }
    constructor; [|constructor; [|constructor]]; apply Hitem;
      try reflexivity.
    + intros H. discriminate H.
    + intros _. right. vm_compute. eauto.
Defined.

(** ** An expiration that cannot be read *)

Lemma mapM_app_raise {A B} (f : A → result B) (good : list A) (bad : A)
    (rest : list A) (e : exn) :
  Forall (λ x, ∃ y, f x = Ok y) good →
  f bad = Raise e →
  mapM f (good ++ bad :: rest)%list = Raise e.
Proof.
  intros Hgood Hbad. induction Hgood as [|x l [y Hy] _ IH]; cbn [mapM app].
  - by rewrite Hbad.
  - rewrite Hy. cbn [mbind result_bind]. by rewrite IH.
Qed.

(** X25. After 16:00 a row of port_df whose expiration is neither empty
    nor in the format of the calendar stops the run with a ValueError,
    when the rows before it are in order; before 16:00 the same frame
    passes unchanged. *)
Theorem unreadable_expiration_stops_post_close (str_of_float : Z → string)
    (strptime : string → option Z) (hour today : Z)
    (good rest : list dict) (bad : dict) :
  Forall (λ row, adjustable str_of_float strptime row = true) good →
  doe_text str_of_float bad ≠ "nan" →
  strptime (doe_text str_of_float bad) = None →
  post_close str_of_float strptime hour today (good ++ bad :: rest)%list
  = if 16 <=? hour then Raise ValueError
    else Ok (good ++ bad :: rest)%list.
Proof.
  intros Hgood Hnan Hfmt. unfold post_close.
  destruct (16 <=? hour); [|done].
  apply mapM_app_raise.
  - eapply Forall_impl; [exact Hgood|]. intros row Hrow. cbn beta.
    destruct (adjust_adjusted _ _ today _ Hrow) as (row' & Hr & _). eauto.
  - unfold adjust. fold (doe_text str_of_float bad).
    apply String.eqb_neq in Hnan. by rewrite Hnan, Hfmt.
Qed.

Lemma unreadable_expiration_stops_post_close_witness :
  post_close sample_str_of_float sample_strptime 16 19559
    ([expiring 100] ++ monthly :: [])%list
  = if 16 <=? 16 then Raise ValueError
    else Ok ([expiring 100] ++ monthly :: [])%list.
Proof.
  apply (unreadable_expiration_stops_post_close sample_str_of_float
           sample_strptime 16 19559 [expiring 100] [] monthly).
  - constructor; [vm_compute; reflexivity | constructor].
  - vm_compute. intros H. discriminate H.
  - vm_compute. reflexivity.
Defined.

(** ** Half days *)


